(** * V.K.M kernel retention and cleanup: a shallow embedding of [vkm-v2.py]

    The development follows [class KernelManager] of [src/vkm-v2.py]:
    [list_installed_kernels] (the catalog), [get_kernel_info],
    [identify_kernels_to_remove] (the retention engine) and [remove_kernels]
    (the executor).  External commands ([uname], [dpkg], [apt], [update-grub])
    and the clock are inputs of the model; Python exceptions are explicit
    ([option] results). *)

From Stdlib Require Import List String Ascii ZArith Bool Lia Arith.
From Stdlib Require Import Sorting.Sorted Sorting.Permutation.
From Stdlib Require Import Numbers.DecimalString.
Import ListNotations.

Local Open Scope string_scope.
Local Open Scope Z_scope.

(** ** Python string primitives used by the source

    A [string] stands for a Python [str] whose code points are below 256. *)

Module PyStr.

Definition chr (n : nat) : ascii := ascii_of_nat n.

Definition code (c : ascii) : nat := nat_of_ascii c.

(** [str.isspace] on one character, as [str.split()] and [str.strip()] use it. *)
Definition is_space (c : ascii) : bool :=
  let n := code c in
  ((9 <=? n) && (n <=? 13) || (28 <=? n) && (n <=? 32)
   || (n =? 133) || (n =? 160))%nat.

(** The line boundaries of [str.splitlines]. *)
Definition is_linebreak (c : ascii) : bool :=
  let n := code c in
  ((10 <=? n) && (n <=? 13) || (28 <=? n) && (n <=? 30) || (n =? 133))%nat.

Definition is_digit (c : ascii) : bool :=
  let n := code c in ((48 <=? n) && (n <=? 57))%nat.

Definition digit_value (c : ascii) : Z := Z.of_nat (code c) - 48.

Definition is_empty (s : string) : bool :=
  match s with EmptyString => true | String _ _ => false end.

Definition snoc (s : string) (c : ascii) : string := s ++ String c EmptyString.

(** [sub in s]. *)
Fixpoint contains (sub s : string) : bool :=
  prefix sub s ||
  match s with
  | EmptyString => false
  | String _ rest => contains sub rest
  end.

(** [s.startswith(p)]. *)
Definition startswith (s p : string) : bool := prefix p s.

(** [s.splitlines()]: [after_cr] is set right after a carriage return, whose
    following line feed belongs to the same boundary; [cur] is the line being
    read. *)
Fixpoint splitlines_from (after_cr : bool) (cur s : string) : list string :=
  match s with
  | EmptyString => if is_empty cur then [] else [cur]
  | String c rest =>
      if after_cr && (code c =? 10)%nat then splitlines_from false cur rest
      else if is_linebreak c
           then cur :: splitlines_from (code c =? 13)%nat EmptyString rest
           else splitlines_from false (snoc cur c) rest
  end.

Definition splitlines (s : string) : list string :=
  splitlines_from false EmptyString s.

(** [s.split()]: the maximal runs of characters that are not white space. *)
Fixpoint split_from (cur s : string) : list string :=
  match s with
  | EmptyString => if is_empty cur then [] else [cur]
  | String c rest =>
      if is_space c
      then if is_empty cur then split_from EmptyString rest
           else cur :: split_from EmptyString rest
      else split_from (snoc cur c) rest
  end.

Definition split (s : string) : list string := split_from EmptyString s.

(** [s.split(sep)] for a one-character separator: empty fields are kept. *)
Fixpoint split_on_from (sep : ascii) (cur s : string) : list string :=
  match s with
  | EmptyString => [cur]
  | String c rest =>
      if Ascii.eqb c sep then cur :: split_on_from sep EmptyString rest
      else split_on_from sep (snoc cur c) rest
  end.

Definition split_on (sep : ascii) (s : string) : list string :=
  split_on_from sep EmptyString s.

Fixpoint lstrip (s : string) : string :=
  match s with
  | EmptyString => EmptyString
  | String c rest => if is_space c then lstrip rest else s
  end.

Fixpoint rstrip (s : string) : string :=
  match s with
  | EmptyString => EmptyString
  | String c rest =>
      let r := rstrip rest in
      if is_empty r && is_space c then EmptyString else String c r
  end.

(** [s.strip()]. *)
Definition strip (s : string) : string := rstrip (lstrip s).

(** [s.replace(old, "")] for a non-empty [old]: occurrences are deleted left
    to right; [skip] counts the characters of the occurrence being deleted
    that are still to drop. *)
Fixpoint delete_from (old : string) (skip : nat) (s : string) : string :=
  match s with
  | EmptyString => EmptyString
  | String c rest =>
      match skip with
      | S k => delete_from old k rest
      | O => if prefix old s
             then delete_from old (Nat.pred (String.length old)) rest
             else String c (delete_from old O rest)
      end
  end.

Definition delete_all (old s : string) : string := delete_from old O s.

(** [re.findall(r'\d+', s)]: the maximal runs of decimal digits, left to right. *)
Fixpoint findall_digits_from (cur s : string) : list string :=
  match s with
  | EmptyString => if is_empty cur then [] else [cur]
  | String c rest =>
      if is_digit c then findall_digits_from (snoc cur c) rest
      else if is_empty cur then findall_digits_from EmptyString rest
           else cur :: findall_digits_from EmptyString rest
  end.

Definition findall_digits (s : string) : list string :=
  findall_digits_from EmptyString s.

(** [int(s)] on the body of a literal (sign and surrounding blanks removed):
    decimal digits, single underscores allowed between two digits.  [None] is
    [ValueError]. *)
Fixpoint int_digits (acc : Z) (after_digit : bool) (s : string) : option Z :=
  match s with
  | EmptyString => if after_digit then Some acc else None
  | String c rest =>
      if is_digit c then int_digits (10 * acc + digit_value c) true rest
      else if (code c =? 95)%nat && after_digit then int_digits acc false rest
           else None
  end.

(** The white space [int] accepts around a literal.  Among the code points
    below 256 it is that of [str.isspace] without U+001C to U+001F: those four
    are white space for [str.strip], and [int] rejects them. *)
Definition is_int_space (c : ascii) : bool :=
  let n := code c in
  ((9 <=? n) && (n <=? 13) || (n =? 32) || (n =? 133) || (n =? 160))%nat.

Fixpoint int_lstrip (s : string) : string :=
  match s with
  | EmptyString => EmptyString
  | String c rest => if is_int_space c then int_lstrip rest else s
  end.

Fixpoint int_rstrip (s : string) : string :=
  match s with
  | EmptyString => EmptyString
  | String c rest =>
      let r := int_rstrip rest in
      if is_empty r && is_int_space c then EmptyString else String c r
  end.

(** [int(s)]. *)
Definition int (s : string) : option Z :=
  match int_rstrip (int_lstrip s) with
  | String c rest =>
      if (code c =? 45)%nat then option_map Z.opp (int_digits 0 false rest)
      else if (code c =? 43)%nat then int_digits 0 false rest
           else int_digits 0 false (String c rest)
  | EmptyString => None
  end.

(** [str(n)] for a length. *)
Definition str_nat (n : nat) : string := NilZero.string_of_uint (Nat.to_uint n).

(** [sep.join(l)]. *)
Fixpoint join (sep : string) (l : list string) : string :=
  match l with
  | [] => EmptyString
  | [x] => x
  | x :: rest => x ++ sep ++ join sep rest
  end.

(** [x not in l] is [negb (mem x l)]. *)
Definition mem (x : string) (l : list string) : bool :=
  existsb (String.eqb x) l.

End PyStr.

(** ** The catalog: [KernelManager.list_installed_kernels] *)

(** What the host answers: [None] stands for the [CalledProcessError] of a
    command that fails.  [localtime_fmt ts] is
    [datetime.fromtimestamp(ts).strftime("%Y-%m-%d %H:%M:%S")] in the host's
    time zone, [None] when the conversion raises.  [now] is [datetime.now()],
    in microseconds since 0001-01-01 00:00:00 local time. *)
Record System := {
  uname_r : option string;
  dpkg_l : option string;
  dpkg_s : string -> option string;
  localtime_fmt : Z -> option string;
  now : Z
}.

(** The body of the [for line in output.splitlines()] loop: one line of the
    [dpkg -l] table, [kernels] being the list built so far. *)
Definition scan_dpkg_line (kernels : list string) (line : string) : list string :=
  if PyStr.contains "ii" line && PyStr.contains "linux-image-" line then
    let parts := PyStr.split line in
    if (3 <=? List.length parts)%nat then
      let pkg_name := nth 1 parts EmptyString in
      if PyStr.contains "linux-image-" pkg_name then
        let version := PyStr.delete_all "linux-image-" pkg_name in
        if negb (PyStr.mem version kernels) then kernels ++ [version]
        else kernels
      else kernels
    else kernels
  else kernels.

Definition parse_dpkg_list (output : string) : list string :=
  fold_left scan_dpkg_line (PyStr.splitlines output) [].

(** The sort key [[int(part) for part in re.findall(r'\d+', x)]]. *)
Definition sort_key (x : string) : list Z :=
  map (fun part => match PyStr.int part with Some n => n | None => 0 end)
      (PyStr.findall_digits x).

(** Python's [<] on lists of integers: the first position that differs
    decides, and a proper prefix is smaller. *)
Fixpoint key_lt (a b : list Z) : bool :=
  match a, b with
  | [], [] => false
  | [], _ :: _ => true
  | _ :: _, [] => false
  | x :: a', y :: b' => (x <? y) || ((x =? y) && key_lt a' b')
  end.

(** [list.sort(key=sort_key, reverse=True)]: Python's sort is stable, also
    with [reverse=True].  [insert_desc x l] puts [x], which stood before the
    elements of [l], in front of the first element whose key is not larger. *)
Fixpoint insert_desc (x : string) (l : list string) : list string :=
  match l with
  | [] => [x]
  | y :: l' =>
      if key_lt (sort_key x) (sort_key y) then y :: insert_desc x l'
      else x :: l
  end.

Definition sort_desc (l : list string) : list string :=
  fold_right insert_desc [] l.

Definition list_installed_kernels (sys : System) : list string :=
  match dpkg_l sys with
  | Some output => sort_desc (parse_dpkg_list output)
  | None => []
  end.

(** ** The [datetime] values the engine compares

    A naive [datetime] is its number of microseconds since 0001-01-01
    00:00:00; a [timedelta] is a number of microseconds.  [None] stands for
    the exception the Python operation raises ([OverflowError], [ValueError]). *)

Module Datetime.

Definition us_per_second : Z := 1000000.

Definition us_per_day : Z := 86400 * us_per_second.

(** [datetime.max], 9999-12-31 23:59:59.999999. *)
Definition max : Z := 3652059 * us_per_day - 1.

Definition is_leap (y : Z) : bool :=
  (y mod 4 =? 0) && (negb (y mod 100 =? 0) || (y mod 400 =? 0)).

Definition days_in_month (y m : Z) : Z :=
  if m =? 2 then (if is_leap y then 29 else 28)
  else if (m =? 4) || (m =? 6) || (m =? 9) || (m =? 11) then 30 else 31.

Definition days_before_year (y : Z) : Z :=
  let p := y - 1 in p * 365 + p / 4 - p / 100 + p / 400.

Fixpoint days_before_month_nat (y : Z) (m : nat) : Z :=
  match m with
  | O => 0
  | S m' => days_before_month_nat y m' + days_in_month y (Z.of_nat m)
  end.

Definition days_before_month (y m : Z) : Z :=
  days_before_month_nat y (Z.to_nat (m - 1)).

(** [date(y, m, d).toordinal()]: 1 for 0001-01-01. *)
Definition toordinal (y m d : Z) : Z :=
  days_before_year y + days_before_month y m + d.

Definition between (lo x hi : Z) : bool := (lo <=? x) && (x <=? hi).

(** The constructor [datetime(y, mo, d, h, mi, s)]. *)
Definition datetime (y mo d h mi s : Z) : option Z :=
  if between 1 y 9999 && between 1 mo 12 && between 1 d (days_in_month y mo)
     && between 0 h 23 && between 0 mi 59 && between 0 s 59
  then Some (((((toordinal y mo d - 1) * 24 + h) * 60 + mi) * 60 + s)
             * us_per_second)
  else None.

(** [timedelta(days=d)]. *)
Definition timedelta_days (d : Z) : option Z :=
  if between (-999999999) d 999999999 then Some (d * us_per_day) else None.

(** [t - delta] on a datetime. *)
Definition sub (t delta : Z) : option Z :=
  let r := t - delta in if between 0 r max then Some r else None.

(** The longest prefix of decimal digits, and what follows it. *)
Fixpoint take_digits (s : string) : string * string :=
  match s with
  | EmptyString => (EmptyString, EmptyString)
  | String c rest =>
      if PyStr.is_digit c
      then let (ds, r) := take_digits rest in (String c ds, r)
      else (EmptyString, s)
  end.

(** A numeric directive of [strptime]: a run of [lo] to [hi] digits whose
    value lies in [vmin .. vmax], as the directive's regular expression
    accepts before a separator that is not a digit. *)
Definition field (lo hi : nat) (vmin vmax : Z) (s : string) : option (Z * string) :=
  let (ds, r) := take_digits s in
  let n := String.length ds in
  if ((lo <=? n) && (n <=? hi))%nat then
    match PyStr.int_digits 0 false ds with
    | Some v => if between vmin v vmax then Some (v, r) else None
    | None => None
    end
  else None.

Definition expect (c : ascii) (s : string) : option string :=
  match s with
  | String c' rest => if Ascii.eqb c c' then Some rest else None
  | EmptyString => None
  end.

(** One or more blanks: a space of the format string matches [\s+]. *)
Definition blanks (s : string) : option string :=
  match s with
  | String c rest => if PyStr.is_space c then Some (PyStr.lstrip rest) else None
  | EmptyString => None
  end.

(** The day directive also accepts a blank followed by one digit. *)
Definition day_field (s : string) : option (Z * string) :=
  match s with
  | String " " rest => field 1 1 1 9 rest
  | _ => field 1 2 1 31 s
  end.

Definition bind {A B : Type} (x : option A) (f : A -> option B) : option B :=
  match x with Some a => f a | None => None end.

(** [datetime.strptime(s, "%Y-%m-%d %H:%M:%S")]; [None] is [ValueError]. *)
Definition strptime (s : string) : option Z :=
  bind (field 4 4 0 9999 s) (fun '(y, s) =>
  bind (expect "-" s) (fun s =>
  bind (field 1 2 1 12 s) (fun '(mo, s) =>
  bind (expect "-" s) (fun s =>
  bind (day_field s) (fun '(d, s) =>
  bind (blanks s) (fun s =>
  bind (field 1 2 0 23 s) (fun '(h, s) =>
  bind (expect ":" s) (fun s =>
  bind (field 1 2 0 59 s) (fun '(mi, s) =>
  bind (expect ":" s) (fun s =>
  bind (field 1 2 0 61 s) (fun '(sec, s) =>
  if PyStr.is_empty s then datetime y mo d h mi sec else None))))))))))).

End Datetime.

(** ** [KernelCleanupPolicy], [KernelManager] and [get_kernel_info] *)

Record KernelCleanupPolicy := {
  keep_latest : Z;
  keep_days : Z;
  dry_run : bool;
  exclude_current : bool;
  exclude_fallback : bool;
  min_kernels : Z
}.

(** The dataclass defaults. *)
Definition default_policy : KernelCleanupPolicy :=
  {| keep_latest := 2; keep_days := 30; dry_run := false;
     exclude_current := true; exclude_fallback := true; min_kernels := 1 |}.

(** The two attributes [__init__] computes once and the methods read. *)
Record KernelManager := {
  current_kernel : string;
  fallback_kernel : string
}.

Definition _get_current_kernel (sys : System) : string :=
  match uname_r sys with
  | Some output => PyStr.strip output
  | None => EmptyString
  end.

Definition _get_fallback_kernel (sys : System) (current : string) : string :=
  let kernels := list_installed_kernels sys in
  if (1 <? List.length kernels)%nat then nth 1 kernels EmptyString
  else current.

(** [KernelManager.__init__]. *)
Definition KernelManager_init (sys : System) : KernelManager :=
  let current := _get_current_kernel sys in
  {| current_kernel := current;
     fallback_kernel := _get_fallback_kernel sys current |}.

(** The package of a version, [f"linux-image-{kernel_version}"]. *)
Definition package_name (kernel_version : string) : string :=
  "linux-image-" ++ kernel_version.

(** The dictionary [get_kernel_info] returns. *)
Record KernelInfo := {
  version : string;
  is_current : bool;
  install_date : string;
  size : string;
  is_fallback : bool
}.

(** The first [for line in output.splitlines()] loop of [get_kernel_info]:
    an exception ([int] or the time conversion) leaves the [try] block with
    the value [install_date] had. *)
Fixpoint scan_install_time (sys : System) (lines : list string)
    (install_date : string) : string :=
  match lines with
  | [] => install_date
  | line :: rest =>
      if PyStr.startswith line "Install-Time:" then
        match PyStr.int (PyStr.strip (nth 1 (PyStr.split_on ":" line) EmptyString)) with
        | Some timestamp =>
            match localtime_fmt sys timestamp with
            | Some formatted => scan_install_time sys rest formatted
            | None => install_date
            end
        | None => install_date
        end
      else scan_install_time sys rest install_date
  end.

(** The second loop: the last [Installed-Size:] line wins. *)
Definition scan_installed_size (lines : list string) (size : string) : string :=
  fold_left
    (fun size line =>
       if PyStr.startswith line "Installed-Size:"
       then PyStr.strip (nth 1 (PyStr.split_on ":" line) EmptyString) ++ " KB"
       else size)
    lines size.

(** [get_kernel_info].  Both inner [try] blocks catch everything, so the outer
    handler (the one that answers ["Unknown"]) is never entered. *)
Definition get_kernel_info (sys : System) (mgr : KernelManager)
    (kernel_version : string) : KernelInfo :=
  let status := dpkg_s sys (package_name kernel_version) in
  {| version := kernel_version;
     is_current := String.eqb kernel_version (current_kernel mgr);
     install_date :=
       match status with
       | Some output => scan_install_time sys (PyStr.splitlines output) EmptyString
       | None => EmptyString
       end;
     size :=
       match status with
       | Some output => scan_installed_size (PyStr.splitlines output) "N/A"
       | None => "N/A"
       end;
     is_fallback := String.eqb kernel_version (fallback_kernel mgr) |}.

(** ** The retention engine: [KernelManager.identify_kernels_to_remove] *)

Definition len {A : Type} (l : list A) : Z := Z.of_nat (List.length l).

(** [if v not in keep_kernels: keep_kernels.append(v)]. *)
Definition add_version (keep_kernels : list string) (v : string) : list string :=
  if negb (PyStr.mem v keep_kernels) then keep_kernels ++ [v] else keep_kernels.

(** "Always keep current kernel": the first record flagged current. *)
Definition keep_current (policy : KernelCleanupPolicy)
    (kernels_info : list KernelInfo) (keep_kernels : list string) : list string :=
  if exclude_current policy then
    match find is_current kernels_info with
    | Some current => keep_kernels ++ [version current]
    | None => keep_kernels
    end
  else keep_kernels.

(** "Keep fallback kernel": appended whenever the stored string is not empty. *)
Definition keep_fallback (policy : KernelCleanupPolicy) (mgr : KernelManager)
    (keep_kernels : list string) : list string :=
  if exclude_fallback policy && negb (PyStr.is_empty (fallback_kernel mgr))
  then keep_kernels ++ [fallback_kernel mgr]
  else keep_kernels.

(** "Keep latest N kernels": [range] of a negative bound is empty. *)
Definition keep_latest_n (policy : KernelCleanupPolicy)
    (kernels_info : list KernelInfo) (keep_kernels : list string) : list string :=
  let latest_to_keep := Z.min (keep_latest policy) (len kernels_info) in
  let bound := Z.min latest_to_keep (len kernels_info) in
  fold_left (fun keep k => add_version keep (version k))
            (firstn (Z.to_nat bound) kernels_info) keep_kernels.

(** [datetime.now() - timedelta(days=policy.keep_days)], outside any [try]. *)
Definition cutoff_date (sys : System) (policy : KernelCleanupPolicy) : option Z :=
  Datetime.bind (Datetime.timedelta_days (keep_days policy))
                (Datetime.sub (now sys)).

(** The test inside the [try] of the recency loop; an exception of
    [strptime] is swallowed and the record is skipped. *)
Definition installed_after (cutoff : Z) (k : KernelInfo) : bool :=
  if negb (String.eqb (install_date k) "Unknown") then
    match Datetime.strptime (install_date k) with
    | Some d => cutoff <? d
    | None => false
    end
  else false.

Definition recent_step (cutoff : Z) (keep : list string) (k : KernelInfo)
    : list string :=
  if installed_after cutoff k && negb (PyStr.mem (version k) keep)
  then keep ++ [version k]
  else keep.

(** "Keep kernels installed within last X days"; [None] is the
    [OverflowError] of the cutoff computation. *)
Definition keep_recent (sys : System) (policy : KernelCleanupPolicy)
    (kernels_info : list KernelInfo) (keep_kernels : list string)
    : option (list string) :=
  if 0 <? keep_days policy then
    match cutoff_date sys policy with
    | Some cutoff => Some (fold_left (recent_step cutoff) kernels_info keep_kernels)
    | None => None
    end
  else Some keep_kernels.

(** The loop of "Ensure we have at least min_kernels". *)
Fixpoint top_up (min_k : Z) (kernels_info : list KernelInfo)
    (keep_kernels : list string) : list string :=
  match kernels_info with
  | [] => keep_kernels
  | k :: rest =>
      if min_k <=? len keep_kernels then keep_kernels
      else top_up min_k rest (add_version keep_kernels (version k))
  end.

Definition ensure_min (policy : KernelCleanupPolicy)
    (kernels_info : list KernelInfo) (keep_kernels : list string) : list string :=
  if len keep_kernels <? min_kernels policy
  then top_up (min_kernels policy) kernels_info keep_kernels
  else keep_kernels.

(** [kernels_info = [self.get_kernel_info(k) for k in all_kernels]]. *)
Definition kernels_info_of (sys : System) (mgr : KernelManager) : list KernelInfo :=
  map (get_kernel_info sys mgr) (list_installed_kernels sys).

(** The list [keep_kernels] as it stands before the minimum is enforced. *)
Definition keep_before_top_up (sys : System) (mgr : KernelManager)
    (policy : KernelCleanupPolicy) : option (list string) :=
  let kernels_info := kernels_info_of sys mgr in
  keep_recent sys policy kernels_info
    (keep_latest_n policy kernels_info
       (keep_fallback policy mgr (keep_current policy kernels_info []))).

(** The list [keep_kernels] when the last comprehension reads it. *)
Definition keep_kernels_of (sys : System) (mgr : KernelManager)
    (policy : KernelCleanupPolicy) : option (list string) :=
  option_map (ensure_min policy (kernels_info_of sys mgr))
             (keep_before_top_up sys mgr policy).

Definition not_kept (keep_kernels : list string) (k : KernelInfo) : bool :=
  negb (PyStr.mem (version k) keep_kernels).

Definition identify_kernels_to_remove (sys : System) (mgr : KernelManager)
    (policy : KernelCleanupPolicy) : option (list KernelInfo) :=
  option_map (fun keep_kernels => filter (not_kept keep_kernels) (kernels_info_of sys mgr))
             (keep_kernels_of sys mgr policy).

(** The number of newest records the "latest N" loop visits. *)
Definition latest_bound (policy : KernelCleanupPolicy)
    (kernels_info : list KernelInfo) : nat :=
  Z.to_nat (Z.min (Z.min (keep_latest policy) (len kernels_info))
                  (len kernels_info)).

(** The versions the recency loop finds recent, in catalog order; [None]
    when the cutoff date cannot be computed. *)
Definition recent_versions (sys : System) (policy : KernelCleanupPolicy)
    (kernels_info : list KernelInfo) : option (list string) :=
  if 0 <? keep_days policy then
    option_map (fun cutoff => map version (filter (installed_after cutoff) kernels_info))
               (cutoff_date sys policy)
  else Some [].

(** The catalog records a given [keep_kernels] protects. *)
Definition kept_records (keep_kernels : list string)
    (kernels_info : list KernelInfo) : list KernelInfo :=
  filter (fun k => PyStr.mem (version k) keep_kernels) kernels_info.

(** [add_version] over a list of versions, as the loops of the engine do. *)
Definition add_all (versions : list string) (keep_kernels : list string)
    : list string :=
  fold_left add_version versions keep_kernels.

(** Two states of [keep_kernels] the engine cannot tell apart: the same
    members ([in]) and the same length ([len]). *)
Definition same_keep (k1 k2 : list string) : Prop :=
  (forall v, In v k1 <-> In v k2) /\ List.length k1 = List.length k2.

(** The versions whose sort key is [key]. *)
Definition same_key (key : list Z) (x : string) : bool :=
  if list_eq_dec Z.eq_dec (sort_key x) key then true else false.

(** [a] does not sort after [b]: its key is not smaller. *)
Definition not_older (a b : string) : Prop :=
  key_lt (sort_key a) (sort_key b) = false.

(** What [list_installed_kernels] sorts: the versions in listing order. *)
Definition listed_kernels (sys : System) : list string :=
  match dpkg_l sys with
  | Some output => parse_dpkg_list output
  | None => []
  end.

(** ** The executor: [KernelManager.remove_kernels] *)

(** The method of [VKMLogger] a message goes through. *)
Inductive Level := DEBUG | INFO | WARNING | ERROR.


(** [subprocess.Popen(cmd)] polled until it exits: an exception raised while
    starting it, or the exit status and what it wrote on [stderr]. *)
Inductive PopenResult :=
| PopenRaises (e : string)
| PopenExits (returncode : Z) (stderr : string).

(** [subprocess.run(cmd, check=True)]: it raises on a non-zero exit status. *)
Inductive RunResult :=
| RunReturns
| RunRaises (e : string).

(** The machine the executor runs on.  [HAS_RICH] is the module's flag:
    whether [rich] was imported.  When it is [false], [rich] is not installed
    and none of the names the import binds ([Table], [Console], [Progress],
    [Prompt], [Confirm]) is bound: evaluating one raises [NameError]. *)
Record Host := {
  popen : list string -> PopenResult;
  run : list string -> RunResult;
  HAS_RICH : bool
}.

(** The text of the [NameError] raised by an unbound global name. *)
Definition name_error (name : string) : string :=
  "name '" ++ name ++ "' is not defined".

(** What a call of [remove_kernels] leaves behind: the value returned, the
    messages logged and the commands started, each in order.  With [rich],
    the progress bar of the polling loop is display only and is left out. *)
Record Outcome := {
  returned : bool;
  logged : list (Level * string);
  started : list (list string)
}.

Definition remove_kernels (host : Host) (kernels : list string)
    (dry_run : bool) : Outcome :=
  match kernels with
  | [] => {| returned := true; logged := [(INFO, "No kernels to remove")];
             started := [] |}
  | _ :: _ =>
      let l1 := [(INFO, (if dry_run then "[DRY RUN] " else "") ++ "Removing "
                         ++ PyStr.str_nat (List.length kernels) ++ " kernels: "
                         ++ PyStr.join ", " kernels)] in
      let packages := map package_name kernels in
      if dry_run then
        {| returned := true;
           logged := (l1 ++ [(INFO, "Dry run - no packages will be removed")])%list;
           started := [] |}
      else
        let cmd := (["apt"; "remove"; "-y"] ++ packages)%list in
        let l2 := (l1 ++ [(DEBUG, ("Executing: " ++ PyStr.join " " cmd)%string)])%list in
        match popen host cmd with
        | PopenRaises e =>
            {| returned := false;
               logged := (l2 ++ [(ERROR, ("Error during kernel removal: " ++ e)%string)])%list;
               started := [cmd] |}
        | PopenExits returncode stderr =>
            if HAS_RICH host then
              if returncode =? 0 then
                let l3 := (l2 ++ [(INFO, "Kernel removal completed successfully");
                                  (INFO, "Updating GRUB configuration...")])%list in
                match run host ["update-grub"] with
                | RunReturns =>
                    {| returned := true;
                       logged := (l3 ++ [(INFO, "GRUB configuration updated")])%list;
                       started := [cmd; ["update-grub"]] |}
                | RunRaises e =>
                    {| returned := false;
                       logged := (l3 ++ [(ERROR, ("Error during kernel removal: " ++ e)%string)])%list;
                       started := [cmd; ["update-grub"]] |}
                end
              else
                {| returned := false;
                   logged := (l2 ++ [(ERROR, ("Kernel removal failed: " ++ stderr)%string)])%list;
                   started := [cmd] |}
            else
              (* [with Progress(...)] raises [NameError] once [apt] is started:
                 the exit status is never read *)
              {| returned := false;
                 logged := (l2 ++ [(ERROR, ("Error during kernel removal: "
                                            ++ name_error "Progress")%string)])%list;
                 started := [cmd] |}
        end
  end.


(** ** Hosts used in the worked examples *)

Module Scenario.

Definition nl : string := String (PyStr.chr 10) EmptyString.

(** The table [dpkg -l 'linux-image-*'] prints for the installed versions. *)
Definition dpkg_table (versions : list string) : string :=
  "Desired=Unknown/Install/Remove/Purge/Hold" ++ nl ++
  "||/ Name                Version      Architecture Description" ++ nl ++
  String.concat EmptyString
    (map (fun v => "ii  linux-image-" ++ v ++ "  6.1.55-1  amd64  Linux kernel image" ++ nl)
         versions).

Definition host (running : string) (versions : list string)
    (status : string -> option string) (fmt : Z -> option string) (t : Z) : System :=
  {| uname_r := Some (running ++ nl);
     dpkg_l := Some (dpkg_table versions);
     dpkg_s := status;
     localtime_fmt := fmt;
     now := t |}.

Definition no_status (pkg : string) : option string := None.

Definition no_clock (ts : Z) : option string := None.

(** 2025-11-09 12:00:00. *)
Definition noon : Z := ((739564 - 1) * 24 + 12) * 3600 * Datetime.us_per_second.

(** A guest that runs its provider's kernel and has one kernel package. *)
Definition guest : System :=
  host "5.15.0-91-generic" ["5.10.0-19-amd64"] no_status no_clock noon.

(** A machine still running 6.1.0-12 after 6.1.0-13 was installed. *)
Definition pending_reboot : System :=
  host "6.1.0-12-amd64" ["6.1.0-10-amd64"; "6.1.0-12-amd64"; "6.1.0-13-amd64"]
       no_status no_clock noon.

(** Four kernels, the newest running; only the oldest package carries an
    installation time, twenty days old. *)
Definition dated_status (pkg : string) : option string :=
  if String.eqb pkg "linux-image-6.1.0-9-amd64"
  then Some ("Package: linux-image-6.1.0-9-amd64" ++ nl ++
             "Installed-Size: 398000" ++ nl ++
             "Install-Time: 1761000000" ++ nl)
  else None.

Definition utc_clock (ts : Z) : option string :=
  if ts =? 1761000000 then Some "2025-10-20 22:40:00" else None.

Definition dated : System :=
  host "6.1.0-13-amd64"
       ["6.1.0-9-amd64"; "6.1.0-10-amd64"; "6.1.0-12-amd64"; "6.1.0-13-amd64"]
       dated_status utc_clock noon.

(** The five kernels of the specification's scenarios A and B, the newest
    running. *)
Definition five : System :=
  host "6.1.0" ["5.10.0"; "5.15.0"; "5.19.2"; "6.0.5"; "6.1.0"]
       no_status no_clock noon.

Definition policy (n days m : Z) : KernelCleanupPolicy :=
  {| keep_latest := n; keep_days := days; dry_run := false;
     exclude_current := true; exclude_fallback := true; min_kernels := m |}.



End Scenario.

(** ** Further Python primitives

    Used by the parts of the program outside the retention engine. *)

Module Py.

(** [str.lower] on one character with a code point below 256. *)
Definition lower_char (c : ascii) : ascii :=
  let n := PyStr.code c in
  if ((65 <=? n) && (n <=? 90)
      || (192 <=? n) && (n <=? 222) && negb (n =? 215))%nat
  then PyStr.chr (n + 32)
  else c.

(** [s.lower()]. *)
Fixpoint lower (s : string) : string :=
  match s with
  | EmptyString => EmptyString
  | String c rest => String (lower_char c) (lower rest)
  end.

(** [s.split(sep, maxsplit)] for a one-character separator. *)
Fixpoint split_max_from (sep : ascii) (maxsplit : nat) (cur s : string)
    : list string :=
  match s with
  | EmptyString => [cur]
  | String c rest =>
      match maxsplit with
      | O => [(cur ++ s)%string]
      | S m =>
          if Ascii.eqb c sep then cur :: split_max_from sep m EmptyString rest
          else split_max_from sep maxsplit (PyStr.snoc cur c) rest
      end
  end.

Definition split_max (sep : ascii) (maxsplit : nat) (s : string) : list string :=
  split_max_from sep maxsplit EmptyString s.

(** [s.replace(old, new)] for a non-empty [old]. *)
Fixpoint replace_from (old new : string) (skip : nat) (s : string) : string :=
  match s with
  | EmptyString => EmptyString
  | String c rest =>
      match skip with
      | S k => replace_from old new k rest
      | O => if prefix old s
             then (new ++ replace_from old new (Nat.pred (String.length old)) rest)%string
             else String c (replace_from old new O rest)
      end
  end.

Definition replace (old new s : string) : string := replace_from old new O s.

(** [l[i]]: a negative index counts from the end; [None] is [IndexError]. *)
Definition getitem {A : Type} (l : list A) (i : Z) : option A :=
  let n := Z.of_nat (List.length l) in
  if (0 <=? i) && (i <? n) then nth_error l (Z.to_nat i)
  else if (- n <=? i) && (i <? 0) then nth_error l (Z.to_nat (n + i))
  else None.

(** [str(i)] for an integer. *)
Definition str_int (i : Z) : string := NilZero.string_of_int (Z.to_int i).

(** [d.get(key, default)] on a dictionary with integer values. *)
Fixpoint dict_get (d : list (string * Z)) (key : string) (default : Z) : Z :=
  match d with
  | [] => default
  | (k, v) :: rest => if String.eqb k key then v else dict_get rest key default
  end.

End Py.

(** ** The orchestrators: [cleanup_old_kernels] and [remove_specific_kernel] *)

(** What one call of [list_installed_kernels] logs: nothing when [dpkg -l]
    answers; when it fails, one ERROR made of ["Failed to list kernels: "]
    and the text [e] of the [CalledProcessError]. *)
Definition list_installed_kernels_logged (sys : System) (e : string)
    : list (Level * string) :=
  match dpkg_l sys with
  | Some _ => []
  | None => [(ERROR, "Failed to list kernels: " ++ e)]
  end.

(** A call that may talk to the operator: what [remove_kernels] left, if it
    was reached, the messages the method itself logs around it, the one-line
    notices printed, and the questions put to the operator, in order.
    Listings and tables are display only.  What the methods it calls log is
    not repeated in [said]: the messages of [remove_kernels] are in [removal],
    and those of each call of [list_installed_kernels] are given by
    [list_installed_kernels_logged]. *)
Record Session := {
  removal : option Outcome;
  said : list (Level * string);
  printed : list string;
  asked : list string
}.

Definition proceed_question : string :=
  String (PyStr.chr 10) "Proceed with kernel removal?".

(** [KernelManager.cleanup_old_kernels]; [confirm] is the operator's answer
    to [Confirm.ask], read only when the question is put.  [None] is an
    exception that leaves the method: that of [identify_kernels_to_remove],
    or the [NameError] of [Table], which the method builds whether or not
    [HAS_RICH] is set, as soon as there is something to remove. *)
Definition cleanup_old_kernels (sys : System) (mgr : KernelManager) (host : Host)
    (policy : KernelCleanupPolicy) (confirm : bool) : option (bool * Session) :=
  match identify_kernels_to_remove sys mgr policy with
  | None => None
  | Some [] =>
      Some (true,
            {| removal := None;
               said := [(INFO, "No kernels match cleanup criteria")];
               printed := []; asked := [] |})
  | Some kernels_to_remove =>
      if negb (HAS_RICH host) then None
      else if negb (dry_run policy) then
        if negb confirm then
          Some (false,
                {| removal := None;
                   said := [(INFO, "Kernel removal cancelled by user")];
                   printed := []; asked := [proceed_question] |})
        else
          let o := remove_kernels host (map version kernels_to_remove)
                                  (dry_run policy) in
          Some (returned o,
                {| removal := Some o; said := []; printed := [];
                   asked := [proceed_question] |})
      else
        let o := remove_kernels host (map version kernels_to_remove)
                                (dry_run policy) in
        Some (returned o,
              {| removal := Some o; said := []; printed := []; asked := [] |})
  end.

(** The value of [self.config.get("cleanup_policy", {})]: the stored
    dictionary, with integer values, or [None] when the key is absent. *)
Definition StoredPolicy := option (list (string * Z)).

Definition stored_get (stored : StoredPolicy) (key : string) (default : Z) : Z :=
  match stored with
  | Some d => Py.dict_get d key default
  | None => default
  end.

(** [KernelCleanupPolicy(keep_latest=..., keep_days=..., min_kernels=...)]
    read from the configuration, as [configure_cleanup_policy] and the
    [cleanup] command build it; the other fields take the dataclass defaults. *)
Definition policy_of_config (stored : StoredPolicy) : KernelCleanupPolicy :=
  {| keep_latest := stored_get stored "keep_latest" 2;
     keep_days := stored_get stored "keep_days" 30;
     dry_run := false;
     exclude_current := true;
     exclude_fallback := true;
     min_kernels := stored_get stored "min_kernels" 1 |}.

(** One numeric prompt of [configure_cleanup_policy].  With [rich],
    [answer] is what [Prompt.ask] returned; without, it is the line read by
    [input], an empty line keeping the current value.  [None] is the
    [ValueError] of [int]. *)
Definition ask_int (has_rich : bool) (answer : string) (current : Z) : option Z :=
  if has_rich then PyStr.int answer
  else if PyStr.is_empty answer then Some current else PyStr.int answer.

(** [VKMInterface.configure_cleanup_policy]: the policy returned and the
    stored dictionary afterwards (only the rich branch saves). *)
Definition configure_cleanup_policy (has_rich : bool) (stored : StoredPolicy)
    (a_latest a_days a_min : string)
    : option (KernelCleanupPolicy * StoredPolicy) :=
  let policy := policy_of_config stored in
  match ask_int has_rich a_latest (keep_latest policy) with
  | None => None
  | Some n =>
      match ask_int has_rich a_days (keep_days policy) with
      | None => None
      | Some d =>
          match ask_int has_rich a_min (min_kernels policy) with
          | None => None
          | Some m =>
              let policy' :=
                {| keep_latest := n; keep_days := d; dry_run := dry_run policy;
                   exclude_current := exclude_current policy;
                   exclude_fallback := exclude_fallback policy;
                   min_kernels := m |} in
              Some (policy',
                    if has_rich
                    then Some [("keep_latest", n); ("keep_days", d);
                               ("min_kernels", m)]
                    else stored)
          end
      end
  end.

(** [VKMInterface.cleanup_old_kernels], after [configure_cleanup_policy]
    returned [policy]: the candidates are computed and shown on the host as
    it is then ([shown]); after [proceed], the operator's answer,
    [KernelManager.cleanup_old_kernels] computes them again on the host as it
    is by then ([later]) and asks again ([confirm]).  [has_rich] is the
    module's [HAS_RICH] as the interface reads it, the flag [HAS_RICH host]
    of the machine the program runs on.  Without [rich] the listing is
    printed and [Confirm.ask] then raises [NameError] out of the method. *)
Definition interface_cleanup_old_kernels (has_rich : bool)
    (shown later : System) (mgr : KernelManager) (host : Host)
    (policy : KernelCleanupPolicy) (proceed confirm : bool) : option Session :=
  match identify_kernels_to_remove shown mgr policy with
  | None => None
  | Some [] =>
      Some {| removal := None;
              said := [(INFO, "No kernels match cleanup criteria")];
              printed :=
                [if has_rich
                 then "[green]No kernels to remove based on current policy[/green]"
                 else "No kernels to remove based on current policy"];
              asked := [] |}
  | Some (_ :: _) =>
      if negb has_rich then None
      else if proceed then
        match cleanup_old_kernels later mgr host policy confirm with
        | Some (_, s) =>
            Some {| removal := removal s; said := said s; printed := [];
                    asked := proceed_question :: asked s |}
        | None => None
        end
      else
        Some {| removal := None; said := []; printed := [];
                asked := [proceed_question] |}
  end.

(** The [cleanup] command: a fresh [KernelManager] and the stored policy. *)
Definition cli_cleanup (sys : System) (host : Host) (stored : StoredPolicy)
    (confirm : bool) : option (bool * Session) :=
  cleanup_old_kernels sys (KernelManager_init sys) host
                      (policy_of_config stored) confirm.

Definition current_warning (has_rich : bool) : string :=
  if has_rich then "[red]WARNING:[/red] This is the current kernel! Are you sure?"
  else "WARNING: This is the current kernel! Are you sure? (y/n): ".

Definition remove_question (has_rich : bool) (kernel : string) : string :=
  if has_rich then "Remove kernel " ++ kernel ++ "?"
  else "Remove kernel " ++ kernel ++ "? (y/n): ".

(** [VKMInterface.remove_specific_kernel].  [choice] is the selection
    ([Prompt.ask]'s answer, or the line read by [input]), [sure] the answer
    to the warning about the current kernel; the last question is answered
    by [confirm] ([Confirm.ask], rich branch) or by the line [answer] (plain
    branch).  [None] is an exception that leaves the method.  [has_rich] is
    the module's [HAS_RICH] as the interface reads it, the flag
    [HAS_RICH host] of the machine the program runs on. *)
Definition remove_specific_kernel (has_rich : bool) (sys : System)
    (mgr : KernelManager) (host : Host) (choice : string) (sure : bool)
    (confirm : bool) (answer : string) : option Session :=
  let kernels := list_installed_kernels sys in
  match kernels with
  | [] => Some {| removal := None; said := [(ERROR, "No kernels found")];
                  printed := []; asked := [] |}
  | _ :: _ =>
      if has_rich then
        match PyStr.int choice with
        | None => None
        | Some i =>
            match Py.getitem kernels (i - 1) with
            | None => None
            | Some kernel_to_remove =>
                let warned := is_current (get_kernel_info sys mgr kernel_to_remove) in
                let asked1 := if warned then [current_warning true] else [] in
                if warned && negb sure then
                  Some {| removal := None; said := []; printed := [];
                          asked := asked1 |}
                else
                  let asked2 := (asked1 ++ [remove_question true kernel_to_remove])%list in
                  if confirm then
                    Some {| removal := Some (remove_kernels host [kernel_to_remove] false);
                            said := []; printed := []; asked := asked2 |}
                  else
                    Some {| removal := None; said := []; printed := [];
                            asked := asked2 |}
            end
        end
      else
        let choice := if PyStr.is_empty choice then "1" else choice in
        match PyStr.int choice with
        | None => Some {| removal := None; said := [];
                          printed := ["Invalid selection"]; asked := [] |}
        | Some i =>
            match Py.getitem kernels (i - 1) with
            | None => Some {| removal := None; said := [];
                              printed := ["Invalid selection"]; asked := [] |}
            | Some kernel_to_remove =>
                (* the dictionary of [get_kernel_info] has no "status" key *)
                let status := EmptyString in
                let warned := PyStr.contains "CURRENT" status in
                let asked1 := if warned then [current_warning false] else [] in
                if warned && negb sure then
                  Some {| removal := None; said := []; printed := [];
                          asked := asked1 |}
                else
                  let asked2 := (asked1 ++ [remove_question false kernel_to_remove])%list in
                  if String.eqb (Py.lower answer) "y" then
                    Some {| removal := Some (remove_kernels host [kernel_to_remove] false);
                            said := []; printed := []; asked := asked2 |}
                  else
                    Some {| removal := None; said := []; printed := [];
                            asked := asked2 |}
            end
        end
  end.

(** ** Commands run with [check=True], and the code around them

    [subprocess.run(cmd, check=True)] returns, raises [CalledProcessError]
    on a non-zero exit status, or raises something else (the program is
    missing, for instance). *)

Inductive Raised :=
| CalledProcessError (e : string)
| OtherException (e : string).

(** A command as [subprocess.run] gets it: the argument vector (one string
    with [shell=True]) and the working directory, if one is given. *)
Record Cmd := {
  argv : list string;
  shell : bool;
  cwd : option string
}.

Definition Machine := Cmd -> option Raised.

(** What a method has logged and started so far. *)
Record Trace := {
  t_logged : list (Level * string);
  t_started : list Cmd
}.

(** A piece of straight-line code inside a [try]: it extends the trace and
    either completes ([None]) or raises. *)
Definition Act := Trace -> Trace * option Raised.

Definition log (l : Level) (message : string) : Act :=
  fun t => ({| t_logged := t_logged t ++ [(l, message)];
               t_started := t_started t |}, None).

Definition run_checked (m : Machine) (c : Cmd) : Act :=
  fun t => ({| t_logged := t_logged t; t_started := t_started t ++ [c] |}, m c).

Definition andthen (a b : Act) : Act :=
  fun t => match a t with
           | (t', None) => b t'
           | (t', Some e) => (t', Some e)
           end.

Definition skip : Act := fun t => (t, None).

(** [for x in l: body(x)]. *)
Fixpoint for_each {A : Type} (body : A -> Act) (l : list A) : Act :=
  match l with
  | [] => skip
  | x :: rest => andthen (body x) (for_each body rest)
  end.

(** [try: a  except subprocess.CalledProcessError as e: handler(e)]. *)
Definition catch_called_process_error (a : Act) (handler : string -> Act) : Act :=
  fun t => match a t with
           | (t', Some (CalledProcessError e)) => handler e t'
           | r => r
           end.

Definition raised_text (r : Raised) : string :=
  match r with CalledProcessError e => e | OtherException e => e end.

(** A statement that raises an exception other than [CalledProcessError]. *)
Definition raise_other (e : string) : Act := fun t => (t, Some (OtherException e)).

(** [with Progress(...) as progress: body], the uses of [progress] inside
    [body] being display only: without [rich] the name [Progress] is unbound
    and [body] is never entered. *)
Definition with_progress (has_rich : bool) (body : Act) : Act :=
  if has_rich then body else raise_other (name_error "Progress").

(** What a method leaves: the value returned with the trace. *)
Record Run := {
  ok : bool;
  trace : Trace
}.

Definition no_trace : Trace := {| t_logged := []; t_started := [] |}.

Definition exec (argv : list string) : Cmd :=
  {| argv := argv; shell := false; cwd := None |}.

Definition exec_in (dir : string) (argv : list string) : Cmd :=
  {| argv := argv; shell := false; cwd := Some dir |}.

Definition sh (line : string) : Cmd :=
  {| argv := [line]; shell := true; cwd := None |}.

(** ** [VPSOptimizer] *)

Module Optimizer.

Definition generic_optimizations : list (string * string) :=
  [("Enable NO_HZ_IDLE", "echo 'NO_HZ_IDLE=y' >> /etc/kernel/config");
   ("Tune scheduler", "echo 'SCHED_TUNE=aggressive' >> /etc/kernel/config");
   ("Reduce dirty pages", "echo 'vm.dirty_ratio=10' >> /etc/sysctl.d/99-vkm.conf");
   ("Optimize network buffers",
    "echo 'net.core.rmem_max=16777216' >> /etc/sysctl.d/99-vkm.conf")].

(** The list [optimizations] after the provider-specific [extend]. *)
Definition optimizations_for (provider : string) : list (string * string) :=
  (generic_optimizations ++
   (if PyStr.contains "aws" (Py.lower provider) then
      [("Enable AWS paravirtualization", "echo 'CONFIG_PARAVIRT=y' >> /etc/kernel/config");
       ("Optimize EBS I/O",
        "echo 'vm.dirty_background_ratio=5' >> /etc/sysctl.d/99-vkm.conf")]
    else if PyStr.contains "gcp" (Py.lower provider) then
      [("Enable GCP paravirtualization",
        "echo 'CONFIG_PARAVIRT_GUEST=y' >> /etc/kernel/config");
       ("Optimize Persistent Disk", "echo 'vm.swappiness=10' >> /etc/sysctl.d/99-vkm.conf")]
    else if PyStr.contains "azure" (Py.lower provider) then
      [("Enable Azure paravirtualization", "echo 'CONFIG_HYPERV=y' >> /etc/kernel/config");
       ("Optimize Premium SSD",
        "echo 'vm.vfs_cache_pressure=50' >> /etc/sysctl.d/99-vkm.conf")]
    else []))%list.

(** The body of [for name, cmd in optimizations]. *)
Definition apply_one (m : Machine) (o : string * string) : Act :=
  catch_called_process_error
    (andthen (run_checked m (sh (snd o)))
             (log DEBUG ("Applied: " ++ fst o)))
    (fun e => log WARNING ("Optimization failed: " ++ fst o ++ " - " ++ e)).

Definition reload_sysctl : Cmd := exec ["sysctl"; "-p"; "/etc/sysctl.d/99-vkm.conf"].

(** [apply_vps_optimizations] for the provider the optimizer was built
    with; the argument [kernel_version] is not used by the method.
    [has_rich] is the module's [HAS_RICH]: with [rich] the progress bar is
    display only; without it, [with Progress(...)] raises [NameError] before
    the loop is entered. *)
Definition apply_vps_optimizations (has_rich : bool) (m : Machine)
    (provider : string) : Run :=
  let start := log INFO ("Applying VPS optimizations for " ++ provider ++ " provider") in
  let body :=
    andthen (with_progress has_rich (for_each (apply_one m) (optimizations_for provider)))
      (andthen (run_checked m reload_sysctl)
               (log INFO "VPS optimizations applied successfully")) in
  match andthen start body no_trace with
  | (t, None) => {| ok := true; trace := t |}
  | (t, Some e) =>
      {| ok := false;
         trace := fst (log ERROR ("Failed to apply VPS optimizations: "
                                  ++ raised_text e) t) |}
  end.

(** A file as [detect_vps_provider] meets it: [os.path.exists] is false,
    or [open]/[read] raises, or the text is read. *)
Inductive FileState :=
| Absent
| Unreadable (e : string)
| Content (text : string).

Record ProviderFiles := {
  cloud_cfg : FileState;
  product_name : FileState;
  hypervisor_type : FileState
}.

Definition detection_error (e : string) : string * list (Level * string) :=
  ("generic", [(DEBUG, "Provider detection error: " ++ e)]).

Definition check_hypervisor (fs : ProviderFiles) : string * list (Level * string) :=
  match hypervisor_type fs with
  | Unreadable e => detection_error e
  | Content text => if PyStr.contains "xen" text then ("aws", []) else ("generic", [])
  | Absent => ("generic", [])
  end.

Definition check_dmi (fs : ProviderFiles) : string * list (Level * string) :=
  match product_name fs with
  | Unreadable e => detection_error e
  | Content text =>
      let product := Py.lower (PyStr.strip text) in
      if PyStr.contains "amazon" product then ("aws", [])
      else if PyStr.contains "google" product then ("gcp", [])
      else if PyStr.contains "microsoft" product then ("azure", [])
      else check_hypervisor fs
  | Absent => check_hypervisor fs
  end.

(** [detect_vps_provider]: the provider and what was logged. *)
Definition detect_vps_provider (fs : ProviderFiles) : string * list (Level * string) :=
  match cloud_cfg fs with
  | Unreadable e => detection_error e
  | Content text =>
      let content := Py.lower text in
      if PyStr.contains "aws" content || PyStr.contains "amazon" content
      then ("aws", [])
      else if PyStr.contains "gce" content || PyStr.contains "google" content
      then ("gcp", [])
      else if PyStr.contains "azure" content || PyStr.contains "microsoft" content
      then ("azure", [])
      else check_dmi fs
  | Absent => check_dmi fs
  end.

End Optimizer.

(** ** [SecurityManager.check_kernel_vulnerabilities] *)

Module Security.

Record Known := {
  k_id : string;
  k_severity : string;
  k_description : string
}.

Record Vulnerability := {
  v_id : string;
  v_severity : string;
  v_description : string;
  v_fixed_in : string
}.

Definition known_vulns : list (string * list Known) :=
  [("5.4",
    [{| k_id := "CVE-2021-3490"; k_severity := "high";
        k_description := "OverlayFS privilege escalation" |};
     {| k_id := "CVE-2021-33909"; k_severity := "critical";
        k_description := "Seqfs integer overflow" |}]);
   ("5.10",
    [{| k_id := "CVE-2022-0995"; k_severity := "medium";
        k_description := "Bluetooth stack vulnerability" |}])].

Fixpoint lookup (key : string) (d : list (string * list Known)) : option (list Known) :=
  match d with
  | [] => None
  | (k, v) :: rest => if String.eqb k key then Some v else lookup key rest
  end.

(** The text of the [ValueError] of a failed unpacking into three names. *)
Definition unpack_error (got : nat) : string :=
  "not enough values to unpack (expected 3, got " ++ PyStr.str_nat got ++ ")".

(** The text of the [ValueError] of [int] (for a literal that [repr] shows
    between plain quotes). *)
Definition int_error (literal : string) : string :=
  "invalid literal for int() with base 10: '" ++ literal ++ "'".

(** The [for vuln in known_vulns[version_key]] loop: the list built so far
    and, if [int(patch)] raised, the text of the exception. *)
Fixpoint collect (major minor patch : string) (vulns : list Known)
    (vulnerabilities : list Vulnerability) : list Vulnerability * option string :=
  match vulns with
  | [] => (vulnerabilities, None)
  | vuln :: rest =>
      let fixed_in :=
        if String.eqb (k_id vuln) "CVE-2021-3490" then
          match PyStr.int patch with
          | Some p => inl (major ++ "." ++ minor ++ "." ++ Py.str_int (p + 1))
          | None => inr (int_error patch)
          end
        else inl "N/A" in
      match fixed_in with
      | inl f =>
          collect major minor patch rest
            (vulnerabilities ++
             [{| v_id := k_id vuln; v_severity := k_severity vuln;
                 v_description := k_description vuln; v_fixed_in := f |}])
      | inr e => (vulnerabilities, Some e)
      end
  end.

(** [kernel_version.split("-", 1)[0].split(".", 2)]. *)
Definition version_parts (kernel_version : string) : list string :=
  Py.split_max "." 2 (nth 0 (Py.split_max "-" 1 kernel_version) EmptyString).

Definition check_kernel_vulnerabilities (kernel_version : string)
    : list Vulnerability * list (Level * string) :=
  let l0 := [(INFO, "Checking kernel " ++ kernel_version ++ " for vulnerabilities")] in
  let failed (got : list Vulnerability) (e : string) :=
    (got, app l0 [(ERROR, "Error checking vulnerabilities: " ++ e)]) in
  let found (got : list Vulnerability) :=
    (got, app l0 [(INFO, "Found " ++ PyStr.str_nat (List.length got)
                         ++ " known vulnerabilities")]) in
  match version_parts kernel_version with
  | [major; minor; patch] =>
      let version_key := major ++ "." ++ minor in
      match lookup version_key known_vulns with
      | Some vulns =>
          match collect major minor patch vulns [] with
          | (got, None) => found got
          | (got, Some e) => failed got e
          end
      | None => found []
      end
  | parts => failed [] (unpack_error (List.length parts))
  end.

End Security.

(** ** [KernelCompiler.compile_kernel] *)

Module Compiler.

Definition optimization_profiles : list (string * list string) :=
  [("vps",
    ["CONFIG_NO_HZ_IDLE=y"; "CONFIG_HIGH_RES_TIMERS=y";
     "CONFIG_PREEMPT_VOLUNTARY=y"; "CONFIG_CGROUPS=y"; "CONFIG_CGROUP_SCHED=y"]);
   ("performance",
    ["CONFIG_PREEMPT=y"; "CONFIG_HZ_1000=y"; "CONFIG_SCHED_SMT=y";
     "CONFIG_SCHED_MC=y"]);
   ("security",
    ["CONFIG_SECURITY=y"; "CONFIG_SECURITY_SELINUX=y";
     "CONFIG_CC_STACKPROTECTOR_STRONG=y"; "CONFIG_RANDOMIZE_BASE=y"])].

Fixpoint profile_settings (profile : string) (d : list (string * list string))
    : option (list string) :=
  match d with
  | [] => None
  | (k, v) :: rest => if String.eqb k profile then Some v else profile_settings profile rest
  end.

Definition source_dir (version : string) : string := "/usr/src/linux-" ++ version.

Definition source_url (version : string) : string :=
  "https://kernel.org/pub/linux/kernel/v"
  ++ nth 0 (PyStr.split_on "." version) EmptyString
  ++ ".x/linux-" ++ version ++ ".tar.xz".

Definition download (version : string) : Cmd :=
  exec ["wget"; source_url version; "-P"; "/usr/src"].

Definition extract (version : string) : Cmd :=
  exec ["tar"; "-xJf"; "/usr/src/linux-" ++ version ++ ".tar.xz"; "-C"; "/usr/src"].

Definition defconfig (version : string) : Cmd :=
  exec_in (source_dir version) ["make"; "defconfig"].

(** The two [sed] calls made for one setting of a profile. *)
Definition enable_setting (version setting : string) : list Cmd :=
  let config_path := source_dir version ++ "/.config" in
  [exec ["sed"; "-i"; "s/^# " ++ setting ++ ".*/" ++ setting ++ "/"; config_path];
   exec ["sed"; "-i";
         "s/^" ++ Py.replace "=" " = " setting ++ ".*/" ++ setting ++ "/";
         config_path]].

Definition install (version : string) : Cmd :=
  exec_in (source_dir version) ["make"; "modules_install"; "install"].

(** The block [if profile in self.optimization_profiles: ...]. *)
Definition apply_profile (m : Machine) (version profile : string) : Act :=
  match profile_settings profile optimization_profiles with
  | Some settings =>
      andthen (log INFO ("Applying " ++ profile ++ " optimization profile"))
        (andthen (run_checked m (defconfig version))
           (for_each (fun setting =>
                        for_each (run_checked m) (enable_setting version setting))
                     settings))
  | None => skip
  end.

(** The statements of [compile_kernel] inside its [try], after the first
    message.  [has_rich] is the module's [HAS_RICH]: with [rich] the progress
    bar between configuration and installation only sleeps; without it,
    [with Progress(...)] raises [NameError] there. *)
Definition compile_steps (has_rich : bool) (m : Machine)
    (version profile : string) : Act :=
  andthen (log INFO ("Downloading kernel source " ++ version ++ "..."))
    (andthen (run_checked m (download version))
       (andthen (log INFO "Extracting source code...")
          (andthen (run_checked m (extract version))
             (andthen (apply_profile m version profile)
                (andthen (log INFO "Compiling kernel...")
                   (andthen (with_progress has_rich skip)
                      (andthen (log INFO "Installing kernel...")
                         (andthen (run_checked m (install version))
                            (log INFO "Kernel compilation completed successfully"))))))))).

(** [compile_kernel]. *)
Definition compile_kernel (has_rich : bool) (m : Machine)
    (version profile : string) : Run :=
  let start := log INFO ("Compiling kernel " ++ version ++ " with " ++ profile
                         ++ " profile") in
  match andthen start (compile_steps has_rich m version profile) no_trace with
  | (t, None) => {| ok := true; trace := t |}
  | (t, Some (CalledProcessError e)) =>
      {| ok := false;
         trace := fst (log ERROR ("Kernel compilation failed: " ++ e) t) |}
  | (t, Some (OtherException e)) =>
      {| ok := false;
         trace := fst (log ERROR ("Unexpected error during compilation: " ++ e) t) |}
  end.

(** The commands [compile_kernel] goes through when none fails. *)
Definition plan (version profile : string) : list Cmd :=
  ([download version; extract version] ++
   match profile_settings profile optimization_profiles with
   | Some settings =>
       defconfig version :: flat_map (enable_setting version) settings
   | None => []
   end ++ [install version])%list.

(** The commands started when a list of commands is run in order until one
    raises: all of them, or those up to the first that raises. *)
Fixpoint attempted (m : Machine) (cmds : list Cmd) : list Cmd :=
  match cmds with
  | [] => []
  | c :: rest =>
      match m c with
      | None => c :: attempted m rest
      | Some _ => [c]
      end
  end.

End Compiler.

(** The commands [compile_kernel] goes through before the progress bar. *)
Definition before_progress (version profile : string) : list Cmd :=
  Compiler.download version :: Compiler.extract version ::
  match Compiler.profile_settings profile Compiler.optimization_profiles with
  | Some settings =>
      Compiler.defconfig version
      :: flat_map (Compiler.enable_setting version) settings
  | None => []
  end.

(** An act that runs the commands [cmds] in order until one raises, and
    completes exactly when none does. *)
Definition runs_commands (m : Machine) (a : Act) (cmds : list Cmd) : Prop :=
  forall t,
    t_started (fst (a t)) = (t_started t ++ Compiler.attempted m cmds)%list
    /\ (snd (a t) = None <-> Forall (fun c => m c = None) cmds).

(** An act that runs the commands [cmds] in order until one raises and, if
    none does, raises [e] itself: it never completes. *)
Definition runs_then_raises (m : Machine) (a : Act) (cmds : list Cmd)
    (e : string) : Prop :=
  forall t,
    t_started (fst (a t)) = (t_started t ++ Compiler.attempted m cmds)%list
    /\ snd (a t) <> None
    /\ (Forall (fun c => m c = None) cmds ->
        snd (a t) = Some (OtherException e)
        /\ exists l, t_logged (fst (a t)) = (t_logged t ++ l)%list).

(** ** Hosts and machines used in the further examples *)

Module Cases.

(** [apt remove] and [update-grub] both succeed. *)
Definition all_fine : Host :=
  {| popen := fun _ => PopenExits 0 EmptyString; run := fun _ => RunReturns;
     HAS_RICH := true |}.

(** The same machine without [rich]. *)
Definition all_fine_plain : Host :=
  {| popen := fun _ => PopenExits 0 EmptyString; run := fun _ => RunReturns;
     HAS_RICH := false |}.

(** Every command succeeds. *)
Definition obliging : Machine := fun _ => None.

(** [tar] exits with a non-zero status; everything else succeeds. *)
Definition tar_fails : Machine :=
  fun c => match argv c with
           | "tar" :: _ => Some (CalledProcessError
                                   "Command '['tar', ...]' returned non-zero exit status 2.")
           | _ => None
           end.

(** Writing to [/etc/kernel/config] fails (the directory does not exist);
    everything else succeeds. *)
Definition no_kernel_config : Machine :=
  fun c => match argv c with
           | [line] => if PyStr.contains "/etc/kernel/config" line
                       then Some (CalledProcessError "returned non-zero exit status 2.")
                       else None
           | _ => None
           end.

(** A cloud image whose [cloud.cfg] cannot be read by the caller. *)
Definition locked_cloud_cfg : Optimizer.ProviderFiles :=
  {| Optimizer.cloud_cfg := Optimizer.Unreadable "[Errno 13] Permission denied: '/etc/cloud/cloud.cfg'";
     Optimizer.product_name := Optimizer.Content "Google Compute Engine";
     Optimizer.hypervisor_type := Optimizer.Absent |}.

End Cases.

(** * Properties *)

(** ** Membership and the growth of [keep_kernels] *)

Lemma mem_spec (x : string) (l : list string) :
  PyStr.mem x l = true <-> In x l.
Proof.
  unfold PyStr.mem. rewrite existsb_exists. split.
  - intros [y [Hy Hxy]]. apply String.eqb_eq in Hxy. now subst.
  - intros H. exists x. split; [assumption | apply String.eqb_refl].
Qed.

Lemma mem_false (x : string) (l : list string) :
  PyStr.mem x l = false <-> ~ In x l.
Proof.
  rewrite <- mem_spec. destruct (PyStr.mem x l); split; congruence.
Qed.

Lemma add_version_spec (keep : list string) (v x : string) :
  In x (add_version keep v) <-> In x keep \/ x = v.
Proof.
  unfold add_version. destruct (PyStr.mem v keep) eqn:E; simpl.
  - apply mem_spec in E. split; [auto | intros [H | ->]; assumption].
  - rewrite in_app_iff. simpl. split.
    + intros [H | [H | []]]; auto.
    + intros [H | ->]; auto.
Qed.

Lemma add_version_incl (keep : list string) (v : string) :
  incl keep (add_version keep v).
Proof. intros x Hx. apply add_version_spec. now left. Qed.

Lemma fold_add_incl (infos : list KernelInfo) (keep : list string) :
  incl keep (fold_left (fun keep k => add_version keep (version k)) infos keep).
Proof.
  revert keep. induction infos as [| k infos IH]; intros keep; simpl.
  - apply incl_refl.
  - eapply incl_tran; [apply add_version_incl | apply IH].
Qed.

Lemma keep_current_incl policy infos keep :
  incl keep (keep_current policy infos keep).
Proof.
  unfold keep_current. destruct (exclude_current policy); [| apply incl_refl].
  destruct (find is_current infos); [apply incl_appl |]; apply incl_refl.
Qed.

Lemma keep_fallback_incl policy mgr keep :
  incl keep (keep_fallback policy mgr keep).
Proof.
  unfold keep_fallback.
  destruct (exclude_fallback policy && negb (PyStr.is_empty (fallback_kernel mgr)));
    [apply incl_appl |]; apply incl_refl.
Qed.

Lemma keep_latest_n_incl policy infos keep :
  incl keep (keep_latest_n policy infos keep).
Proof. unfold keep_latest_n. apply fold_add_incl. Qed.

Lemma recent_step_incl cutoff keep k : incl keep (recent_step cutoff keep k).
Proof.
  unfold recent_step.
  destruct (installed_after cutoff k && negb (PyStr.mem (version k) keep));
    [apply incl_appl |]; apply incl_refl.
Qed.

Lemma fold_recent_incl cutoff infos keep :
  incl keep (fold_left (recent_step cutoff) infos keep).
Proof.
  revert keep. induction infos as [| k infos IH]; intros keep; simpl.
  - apply incl_refl.
  - eapply incl_tran; [apply recent_step_incl | apply IH].
Qed.

Lemma keep_recent_incl sys policy infos keep keep' :
  keep_recent sys policy infos keep = Some keep' -> incl keep keep'.
Proof.
  unfold keep_recent. destruct (0 <? keep_days policy).
  - destruct (cutoff_date sys policy); [| discriminate].
    intros [= <-]. apply fold_recent_incl.
  - intros [= <-]. apply incl_refl.
Qed.

Lemma top_up_incl min_k infos keep : incl keep (top_up min_k infos keep).
Proof.
  revert keep. induction infos as [| k infos IH]; intros keep; simpl.
  - apply incl_refl.
  - destruct (min_k <=? len keep); [apply incl_refl |].
    eapply incl_tran; [apply add_version_incl | apply IH].
Qed.

Lemma ensure_min_incl policy infos keep : incl keep (ensure_min policy infos keep).
Proof.
  unfold ensure_min. destruct (len keep <? min_kernels policy);
    [apply top_up_incl | apply incl_refl].
Qed.

(** The engine answers exactly when the cutoff date can be computed. *)
Lemma keep_kernels_of_returns sys mgr policy :
  keep_days policy <= 0 \/ cutoff_date sys policy <> None ->
  exists keep, keep_kernels_of sys mgr policy = Some keep.
Proof.
  intros H. unfold keep_kernels_of, keep_before_top_up, keep_recent.
  destruct (0 <? keep_days policy) eqn:E.
  - destruct H as [H | H]; [apply Z.ltb_lt in E; lia |].
    destruct (cutoff_date sys policy); [| congruence]. simpl. eauto.
  - simpl. eauto.
Qed.

Lemma identify_of_keep sys mgr policy keep :
  keep_kernels_of sys mgr policy = Some keep ->
  identify_kernels_to_remove sys mgr policy
  = Some (filter (not_kept keep) (kernels_info_of sys mgr)).
Proof. unfold identify_kernels_to_remove. now intros ->. Qed.

Lemma keep_of_identify sys mgr policy remove :
  identify_kernels_to_remove sys mgr policy = Some remove ->
  exists keep, keep_kernels_of sys mgr policy = Some keep
               /\ remove = filter (not_kept keep) (kernels_info_of sys mgr).
Proof.
  unfold identify_kernels_to_remove.
  destruct (keep_kernels_of sys mgr policy) as [keep |]; simpl; [| discriminate].
  intros [= <-]. eauto.
Qed.

Lemma not_kept_spec keep k : not_kept keep k = true <-> ~ In (version k) keep.
Proof.
  unfold not_kept. rewrite negb_true_iff. apply mem_false.
Qed.

(** Every record of the catalog is what [get_kernel_info] makes of its version. *)
Lemma kernels_info_of_inv sys mgr k :
  In k (kernels_info_of sys mgr) -> k = get_kernel_info sys mgr (version k).
Proof.
  unfold kernels_info_of. rewrite in_map_iff. intros [v [<- _]]. reflexivity.
Qed.

Lemma is_current_version sys mgr k :
  In k (kernels_info_of sys mgr) -> is_current k = true ->
  version k = current_kernel mgr.
Proof.
  intros Hk Hc. rewrite (kernels_info_of_inv _ _ _ Hk) in Hc. simpl in Hc.
  now apply String.eqb_eq in Hc.
Qed.

(** ** C1: keep and remove partition the catalog *)



(** ** C2: the running kernel is never removed under [exclude_current] *)

Lemma find_is_current sys mgr k :
  In k (kernels_info_of sys mgr) -> is_current k = true ->
  exists c, find is_current (kernels_info_of sys mgr) = Some c
            /\ version c = version k.
Proof.
  intros Hk Hc.
  destruct (find is_current (kernels_info_of sys mgr)) as [c |] eqn:E.
  - exists c. split; [reflexivity |]. apply find_some in E. destruct E as [Hin Hcc].
    rewrite (is_current_version _ _ _ Hin Hcc).
    symmetry. now apply is_current_version with (sys := sys).
  - exfalso. pose proof (find_none _ _ E k Hk). congruence.
Qed.

(** C2. With [exclude_current] set, no record returned by
    [identify_kernels_to_remove] carries the version of a catalog record
    flagged current, whatever [keep_latest], [keep_days], [min_kernels] and
    [exclude_fallback] are. *)
Theorem C2_current_never_removed sys mgr policy remove k :
  exclude_current policy = true ->
  identify_kernels_to_remove sys mgr policy = Some remove ->
  In k (kernels_info_of sys mgr) -> is_current k = true ->
  forall r, In r remove -> version r <> version k.
Proof.
  intros Hex Hrem Hk Hc r Hr Heq.
  destruct (keep_of_identify _ _ _ _ Hrem) as [keep [Hkeep ->]].
  apply filter_In in Hr. destruct Hr as [_ Hr]. apply not_kept_spec in Hr.
  apply Hr. rewrite Heq. clear Hr Heq r Hrem.
  unfold keep_kernels_of in Hkeep.
  destruct (keep_before_top_up sys mgr policy) as [keep0 |] eqn:E; [| discriminate].
  injection Hkeep as <-. apply ensure_min_incl.
  unfold keep_before_top_up in E. apply keep_recent_incl in E. apply E.
  apply keep_latest_n_incl, keep_fallback_incl.
  unfold keep_current. rewrite Hex.
  destruct (find_is_current _ _ _ Hk Hc) as [c [-> <-]]. simpl. now left.
Qed.

Lemma C2_witness :
  is_current (get_kernel_info Scenario.pending_reboot
                (KernelManager_init Scenario.pending_reboot) "6.1.0-12-amd64") = true
  /\ (forall r,
        In r (filter (not_kept ["6.1.0-12-amd64"; "6.1.0-12-amd64"; "6.1.0-13-amd64"])
                (kernels_info_of Scenario.pending_reboot
                   (KernelManager_init Scenario.pending_reboot))) ->
        version r <> "6.1.0-12-amd64").
Proof.
  split; [reflexivity |].
  exact (C2_current_never_removed Scenario.pending_reboot
           (KernelManager_init Scenario.pending_reboot) (Scenario.policy 2 30 3)
           _ (get_kernel_info Scenario.pending_reboot
                (KernelManager_init Scenario.pending_reboot) "6.1.0-12-amd64")
           eq_refl eq_refl (or_intror (or_introl eq_refl)) eq_refl).
Defined.

(** ** C8: the recency rule skips records without a readable date *)

(** What the recency loop adds is the version of a record it found recent. *)
Lemma fold_recent_inv cutoff infos keep v :
  In v (fold_left (recent_step cutoff) infos keep) ->
  In v keep \/ exists k, In k infos /\ version k = v /\ installed_after cutoff k = true.
Proof.
  revert keep. induction infos as [| k infos IH]; intros keep; simpl.
  - now left.
  - intros H. apply IH in H. destruct H as [H | [k' [Hk' H]]].
    + unfold recent_step in H.
      destruct (installed_after cutoff k) eqn:E; simpl in H.
      * destruct (negb (PyStr.mem (version k) keep)); [| now left].
        apply in_app_iff in H. destruct H as [H | [<- | []]]; [now left |].
        right. exists k. auto.
      * now left.
    + right. exists k'. tauto.
Qed.

Lemma strptime_empty : Datetime.strptime EmptyString = None.
Proof. reflexivity. Qed.

(** A record whose date is the sentinel, or does not parse, is never recent. *)
Lemma unknown_not_recent cutoff k :
  install_date k = "Unknown" \/ Datetime.strptime (install_date k) = None ->
  installed_after cutoff k = false.
Proof.
  unfold installed_after. intros [-> | ->]; [reflexivity |].
  now destruct (negb (install_date k =? "Unknown")%string).
Qed.

(** A package without status, or without an [Install-Time:] line that
    converts, gets the empty date. *)
Lemma missing_status_empty_date sys mgr v :
  dpkg_s sys (package_name v) = None ->
  install_date (get_kernel_info sys mgr v) = EmptyString.
Proof. intros H. unfold get_kernel_info. cbn [install_date]. now rewrite H. Qed.

(** C8. For a catalog record whose install date is unknown (empty because
    the field is missing or did not convert, the sentinel ["Unknown"], or any
    text [strptime] rejects), the recency loop adds nothing: if its version is
    in [keep_kernels] before the minimum is enforced, the rules before the
    recency rule had put it there. *)
Theorem C8_unknown_date_not_protected sys mgr policy keep k :
  In k (kernels_info_of sys mgr) ->
  install_date k = EmptyString \/ install_date k = "Unknown"
    \/ Datetime.strptime (install_date k) = None ->
  keep_before_top_up sys mgr policy = Some keep ->
  In (version k) keep ->
  In (version k)
     (keep_latest_n policy (kernels_info_of sys mgr)
        (keep_fallback policy mgr
           (keep_current policy (kernels_info_of sys mgr) []))).
Proof.
  intros Hk Hunknown Hkeep Hin.
  assert (Hu : install_date k = "Unknown" \/ Datetime.strptime (install_date k) = None).
  { destruct Hunknown as [-> | [H | H]]; auto. }
  unfold keep_before_top_up, keep_recent in Hkeep.
  destruct (0 <? keep_days policy).
  - destruct (cutoff_date sys policy) as [cutoff |]; [| discriminate].
    injection Hkeep as <-. apply fold_recent_inv in Hin.
    destruct Hin as [Hin | [k' [Hk' [Hv Hrecent]]]]; [assumption |].
    exfalso.
    assert (k' = k).
    { rewrite (kernels_info_of_inv _ _ _ Hk'), (kernels_info_of_inv _ _ _ Hk).
      now rewrite Hv. }
    subst k'. rewrite (unknown_not_recent cutoff k Hu) in Hrecent. discriminate.
  - now injection Hkeep as <-.
Qed.

Lemma C8_witness :
  install_date (get_kernel_info Scenario.dated (KernelManager_init Scenario.dated)
                  "6.1.0-12-amd64") = EmptyString
  /\ In "6.1.0-12-amd64"
        (keep_latest_n (Scenario.policy 1 30 3)
           (kernels_info_of Scenario.dated (KernelManager_init Scenario.dated))
           (keep_fallback (Scenario.policy 1 30 3) (KernelManager_init Scenario.dated)
              (keep_current (Scenario.policy 1 30 3)
                 (kernels_info_of Scenario.dated (KernelManager_init Scenario.dated))
                 []))).
Proof.
  split; [reflexivity |].
  exact (C8_unknown_date_not_protected Scenario.dated
           (KernelManager_init Scenario.dated) (Scenario.policy 1 30 3)
           ["6.1.0-13-amd64"; "6.1.0-12-amd64"; "6.1.0-9-amd64"]
           (get_kernel_info Scenario.dated (KernelManager_init Scenario.dated)
              "6.1.0-12-amd64")
           (or_intror (or_introl eq_refl)) (or_introl eq_refl) eq_refl
           (or_intror (or_introl eq_refl))).
Defined.

(** ** C10: the stored fallback string enters [keep_kernels] unchecked *)

Lemma keep_fallback_appends policy mgr keep :
  exclude_fallback policy = true -> fallback_kernel mgr <> EmptyString ->
  keep_fallback policy mgr keep = (keep ++ [fallback_kernel mgr])%list.
Proof.
  intros Hex Hne. unfold keep_fallback. rewrite Hex.
  destruct (fallback_kernel mgr); [congruence | reflexivity].
Qed.

(** C10. (1) When fewer than two kernels are listed, the fallback stored by
    [__init__] is the running kernel's [uname] string.  (2) With
    [exclude_fallback] set and a non-empty fallback, the fallback is appended
    to [keep_kernels] as it is, whatever the list already holds, and it is in
    the final list.  (3) On the guest host this puts a version of no catalog
    record in [keep_kernels]; with [min_kernels = 1] that entry alone meets
    the minimum, and the whole catalog is returned for removal. *)
Theorem C10_fallback_outside_catalog :
  (forall sys, (List.length (list_installed_kernels sys) < 2)%nat ->
     fallback_kernel (KernelManager_init sys) = _get_current_kernel sys)
  /\ (forall sys mgr policy keep,
        exclude_fallback policy = true -> fallback_kernel mgr <> EmptyString ->
        (forall keep0, keep_fallback policy mgr keep0
                       = (keep0 ++ [fallback_kernel mgr])%list)
        /\ (keep_kernels_of sys mgr policy = Some keep ->
            In (fallback_kernel mgr) keep))
  /\ (let sys := Scenario.guest in
      let mgr := KernelManager_init sys in
      let policy := Scenario.policy 0 0 1 in
      list_installed_kernels sys = ["5.10.0-19-amd64"]
      /\ keep_kernels_of sys mgr policy = Some ["5.15.0-91-generic"]
      /\ PyStr.mem "5.15.0-91-generic" (list_installed_kernels sys) = false
      /\ identify_kernels_to_remove sys mgr policy = Some (kernels_info_of sys mgr)).
Proof.
  split; [| split].
  - intros sys Hlen. unfold KernelManager_init, _get_fallback_kernel. simpl.
    destruct (1 <? List.length (list_installed_kernels sys))%nat eqn:E;
      [| reflexivity].
    apply Nat.ltb_lt in E. lia.
  - intros sys mgr policy keep Hex Hne. split.
    + intros keep0. now apply keep_fallback_appends.
    + unfold keep_kernels_of.
      destruct (keep_before_top_up sys mgr policy) as [keep0 |] eqn:E;
        [| discriminate].
      intros [= <-]. apply ensure_min_incl.
      unfold keep_before_top_up in E. apply keep_recent_incl in E. apply E.
      apply keep_latest_n_incl. rewrite keep_fallback_appends by assumption.
      apply in_app_iff. right. now left.
  - vm_compute. repeat split; reflexivity.
Qed.

(** ** C3, C4, C5: what the engine does on two ordinary hosts *)

(** C3. On the guest host (one installed kernel, another one running) the
    policy [keep_latest = 0], [keep_days = 0], [min_kernels = 1] with both
    exclusions set returns the only installed kernel for removal: the
    [uname] string kept as fallback already counts as one kept kernel. *)
Theorem C3_only_kernel_removed :
  let sys := Scenario.guest in
  let mgr := KernelManager_init sys in
  map version (kernels_info_of sys mgr) = ["5.10.0-19-amd64"]
  /\ keep_kernels_of sys mgr (Scenario.policy 0 0 1) = Some ["5.15.0-91-generic"]
  /\ option_map (map version)
       (identify_kernels_to_remove sys mgr (Scenario.policy 0 0 1))
     = Some ["5.10.0-19-amd64"]
  /\ kept_records ["5.15.0-91-generic"] (kernels_info_of sys mgr) = [].
Proof. vm_compute. repeat split; reflexivity. Qed.

(** C4. On the host that awaits a reboot (three installed kernels, the
    second newest running) the policy [keep_latest = 1], [min_kernels = 3]
    keeps two catalog kernels only, fewer than [min 3 3]: the running kernel
    is in [keep_kernels] twice, as current and as fallback, and the list
    reaches length three without the oldest kernel. *)
Theorem C4_floor_not_met :
  let sys := Scenario.pending_reboot in
  let mgr := KernelManager_init sys in
  let policy := Scenario.policy 1 30 3 in
  len (kernels_info_of sys mgr) = 3
  /\ min_kernels policy = 3
  /\ keep_kernels_of sys mgr policy
     = Some ["6.1.0-12-amd64"; "6.1.0-12-amd64"; "6.1.0-13-amd64"]
  /\ len (kept_records ["6.1.0-12-amd64"; "6.1.0-12-amd64"; "6.1.0-13-amd64"]
            (kernels_info_of sys mgr)) = 2
  /\ option_map (map version) (identify_kernels_to_remove sys mgr policy)
     = Some ["6.1.0-10-amd64"].
Proof. vm_compute. repeat split; reflexivity. Qed.

(** C5. On the same host with [keep_latest = 2] the running kernel is
    current, fallback and among the two newest, and its version stands twice
    in [keep_kernels]; the length three so reached stops the top-up of
    [min_kernels = 3] before the third catalog kernel. *)
Theorem C5_version_kept_twice :
  let sys := Scenario.pending_reboot in
  let mgr := KernelManager_init sys in
  let policy := Scenario.policy 2 30 3 in
  current_kernel mgr = "6.1.0-12-amd64"
  /\ fallback_kernel mgr = "6.1.0-12-amd64"
  /\ firstn 2 (list_installed_kernels sys) = ["6.1.0-13-amd64"; "6.1.0-12-amd64"]
  /\ keep_kernels_of sys mgr policy
     = Some ["6.1.0-12-amd64"; "6.1.0-12-amd64"; "6.1.0-13-amd64"]
  /\ count_occ string_dec
       ["6.1.0-12-amd64"; "6.1.0-12-amd64"; "6.1.0-13-amd64"] "6.1.0-12-amd64"
     = 2%nat
  /\ option_map (map version) (identify_kernels_to_remove sys mgr policy)
     = Some ["6.1.0-10-amd64"].
Proof. vm_compute. repeat split; reflexivity. Qed.

(** ** C6: how [remove_kernels] reports its two failures *)


(** The command line [remove_kernels] builds for a batch. *)
Lemma apt_command_line (k : string) (ks : list string) :
  (["apt"; "remove"; "-y"] ++ map package_name (k :: ks))%list
  = "apt" :: "remove" :: "-y" :: map package_name (k :: ks).
Proof. reflexivity. Qed.



(** ** C7: the catalog is sorted newest first by numeric key, stably *)

Section KeyOrder.

Lemma key_lt_irrefl (a : list Z) : key_lt a a = false.
Proof.
  induction a as [| x a IH]; simpl; [reflexivity |].
  rewrite IH, Z.ltb_irrefl. now rewrite andb_false_r.
Qed.

Lemma key_lt_asym (a b : list Z) : key_lt a b = true -> key_lt b a = false.
Proof.
  revert b. induction a as [| x a IH]; intros [| y b]; simpl; try congruence.
  destruct (Z.ltb_spec x y), (Z.ltb_spec y x), (Z.eqb_spec x y), (Z.eqb_spec y x);
    simpl; try lia; try congruence.
  apply IH.
Qed.

(** "Not smaller" is transitive: the order on keys is total. *)
Lemma key_ge_trans (a b c : list Z) :
  key_lt a b = false -> key_lt b c = false -> key_lt a c = false.
Proof.
  revert b c. induction a as [| x a IH]; intros [| y b] [| z c]; simpl;
    try congruence.
  destruct (Z.ltb_spec x y), (Z.ltb_spec y z), (Z.ltb_spec x z),
    (Z.eqb_spec x y), (Z.eqb_spec y z), (Z.eqb_spec x z);
    simpl; try lia; try congruence.
  apply IH.
Qed.

(** Python's list order, spelled out: [a < b] when [a] is a proper prefix of
    [b], or when, after a common prefix, the next component of [a] is the
    smaller integer.  The leftmost components decide. *)
Lemma key_lt_spec (a b : list Z) :
  key_lt a b = true <->
  (exists y b', b = (a ++ y :: b')%list)
  \/ (exists p x y a' b',
        a = (p ++ x :: a')%list /\ b = (p ++ y :: b')%list /\ x < y).
Proof.
  revert b. induction a as [| x a IH]; intros [| y b]; simpl.
  - split; [discriminate |].
    intros [[y [b' H]] | [p [x [y [a' [b' [H _]]]]]]];
      [discriminate | now destruct p].
  - split; [| reflexivity]. intros _. left. now exists y, b.
  - split; [discriminate |].
    intros [[y [b' H]] | [p [x' [y [a' [b' [_ [H _]]]]]]]];
      [discriminate | now destruct p].
  - rewrite orb_true_iff, andb_true_iff, Z.ltb_lt, Z.eqb_eq, IH. split.
    + intros [Hlt | [-> [[y' [b' ->]] | [p [x' [y' [a' [b' [-> [-> Hlt]]]]]]]]]].
      * right. now exists [], x, y, a, b.
      * left. now exists y', b'.
      * right. now exists (y :: p), x', y', a', b'.
    + intros [[y' [b' H]] | [p [x' [y' [a' [b' [Ha [Hb Hlt]]]]]]]].
      * injection H as -> ->. right. split; [reflexivity |]. left. eauto.
      * destruct p as [| q p]; simpl in Ha, Hb.
        -- injection Ha as -> ->. injection Hb as -> ->. now left.
        -- injection Ha as -> ->. injection Hb as -> ->. right.
           split; [reflexivity |]. right. now exists p, x', y', a', b'.
Qed.

Lemma insert_desc_perm (x : string) (l : list string) :
  Permutation (x :: l) (insert_desc x l).
Proof.
  induction l as [| y l IH]; simpl; [apply Permutation_refl |].
  destruct (key_lt (sort_key x) (sort_key y)); [| apply Permutation_refl].
  eapply perm_trans; [apply perm_swap | now apply perm_skip].
Qed.

Lemma sort_desc_perm (l : list string) : Permutation l (sort_desc l).
Proof.
  induction l as [| x l IH]; simpl; [constructor |].
  eapply perm_trans; [apply perm_skip, IH | apply insert_desc_perm].
Qed.

Lemma insert_desc_sorted (x : string) (l : list string) :
  StronglySorted not_older l -> StronglySorted not_older (insert_desc x l).
Proof.
  induction l as [| y l IH]; intros Hs; simpl.
  - constructor; constructor.
  - inversion Hs as [| y' l' Hl Hy]; subst.
    destruct (key_lt (sort_key x) (sort_key y)) eqn:E.
    + constructor; [now apply IH |].
      apply Forall_forall. intros z Hz.
      apply (Permutation_in _ (Permutation_sym (insert_desc_perm x l))) in Hz.
      destruct Hz as [<- | Hz].
      * now apply key_lt_asym.
      * rewrite Forall_forall in Hy. now apply Hy.
    + constructor; [assumption |]. constructor; [exact E |].
      apply Forall_forall. intros z Hz. rewrite Forall_forall in Hy.
      unfold not_older. eapply key_ge_trans; [exact E | now apply Hy].
Qed.

Lemma sort_desc_sorted (l : list string) : StronglySorted not_older (sort_desc l).
Proof.
  induction l as [| x l IH]; simpl; [constructor |].
  now apply insert_desc_sorted.
Qed.

Lemma same_key_lt (key : list Z) (x y : string) :
  key_lt (sort_key x) (sort_key y) = true ->
  same_key key x = true -> same_key key y = false.
Proof.
  unfold same_key. intros Hlt.
  destruct (list_eq_dec Z.eq_dec (sort_key x) key) as [<- |]; [| discriminate].
  destruct (list_eq_dec Z.eq_dec (sort_key y) (sort_key x)) as [E |];
    [| reflexivity].
  rewrite E, key_lt_irrefl in Hlt. discriminate.
Qed.

(** Insertion never moves a version past another one with the same key. *)
Lemma insert_desc_stable (key : list Z) (x : string) (l : list string) :
  filter (same_key key) (insert_desc x l) = filter (same_key key) (x :: l).
Proof.
  induction l as [| y l IH]; [reflexivity |].
  cbn [insert_desc]. destruct (key_lt (sort_key x) (sort_key y)) eqn:E;
    [| reflexivity].
  cbn [filter] in *. rewrite IH.
  destruct (same_key key x) eqn:Ex; [| reflexivity].
  now rewrite (same_key_lt key x y E Ex).
Qed.

Lemma sort_desc_stable (key : list Z) (l : list string) :
  filter (same_key key) (sort_desc l) = filter (same_key key) l.
Proof.
  induction l as [| x l IH]; [reflexivity |].
  cbn [sort_desc fold_right]. fold (sort_desc l).
  rewrite insert_desc_stable. cbn [filter]. now rewrite IH.
Qed.

End KeyOrder.

(** C7. [list_installed_kernels] returns the listed versions (a permutation
    of them) with keys in non-increasing order, the key of a version being the
    integers of its digit runs compared as Python compares lists (leftmost
    component first, see [key_lt_spec]); versions with equal keys keep their
    listing order.  The order is numeric, not the order of the strings:
    ["5.10.0-19-amd64"] is smaller as a string and comes first. *)
Theorem C7_newest_first_stable (sys : System) :
  StronglySorted not_older (list_installed_kernels sys)
  /\ Permutation (listed_kernels sys) (list_installed_kernels sys)
  /\ (forall key, filter (same_key key) (list_installed_kernels sys)
                  = filter (same_key key) (listed_kernels sys))
  /\ (sort_key "5.10.0-19-amd64" = [5; 10; 0; 19; 64]
      /\ ("5.10.0-19-amd64" <? "5.9.0-1-amd64")%string = true
      /\ list_installed_kernels
           (Scenario.host "5.9.0-1-amd64" ["5.9.0-1-amd64"; "5.10.0-19-amd64"]
              Scenario.no_status Scenario.no_clock Scenario.noon)
         = ["5.10.0-19-amd64"; "5.9.0-1-amd64"]).
Proof.
  unfold list_installed_kernels, listed_kernels.
  split; [| split; [| split]].
  - destruct (dpkg_l sys); [apply sort_desc_sorted | constructor].
  - destruct (dpkg_l sys); [apply sort_desc_perm | constructor].
  - intros key. destruct (dpkg_l sys); [apply sort_desc_stable | reflexivity].
  - vm_compute. repeat split; reflexivity.
Qed.

(** ** C9: which policy increases can only grow [keep_kernels] *)

Section Monotone.

Lemma mem_app (x y : string) (l : list string) :
  PyStr.mem x (l ++ [y]) = PyStr.mem x l || String.eqb x y.
Proof.
  unfold PyStr.mem. rewrite existsb_app. simpl. now rewrite orb_false_r.
Qed.

Lemma mem_add_version (x v : string) (keep : list string) :
  PyStr.mem x (add_version keep v) = PyStr.mem x keep || String.eqb x v.
Proof.
  unfold add_version. destruct (PyStr.mem v keep) eqn:E; simpl.
  - destruct (String.eqb_spec x v) as [-> |]; [| now rewrite orb_false_r].
    now rewrite E.
  - apply mem_app.
Qed.

Lemma add_version_length (keep : list string) (v : string) :
  List.length (add_version keep v)
  = (List.length keep + if PyStr.mem v keep then 0 else 1)%nat.
Proof.
  unfold add_version. destruct (PyStr.mem v keep); simpl.
  - lia.
  - now rewrite length_app.
Qed.

Lemma add_version_kept (keep : list string) (v : string) :
  In v keep -> add_version keep v = keep.
Proof. intros H. apply mem_spec in H. unfold add_version. now rewrite H. Qed.

Lemma same_keep_refl (k : list string) : same_keep k k.
Proof. split; [tauto | reflexivity]. Qed.

Lemma same_keep_trans (k1 k2 k3 : list string) :
  same_keep k1 k2 -> same_keep k2 k3 -> same_keep k1 k3.
Proof.
  intros [H1 L1] [H2 L2]. split; [| congruence].
  intros v. rewrite H1. apply H2.
Qed.

Lemma same_keep_mem (k1 k2 : list string) (v : string) :
  same_keep k1 k2 -> PyStr.mem v k1 = PyStr.mem v k2.
Proof.
  intros [H _]. destruct (PyStr.mem v k2) eqn:E.
  - apply mem_spec. apply H. now apply mem_spec.
  - apply mem_false. rewrite H. now apply mem_false.
Qed.

Lemma add_version_same (k1 k2 : list string) (v : string) :
  same_keep k1 k2 -> same_keep (add_version k1 v) (add_version k2 v).
Proof.
  intros H. split.
  - intros x. rewrite !add_version_spec. destruct H as [H _]. now rewrite H.
  - rewrite !add_version_length, (same_keep_mem k1 k2 v H).
    destruct H as [_ ->]. reflexivity.
Qed.

(** Two additions commute, up to the order inside the list. *)
Lemma add_version_swap (keep : list string) (a b : string) :
  same_keep (add_version (add_version keep a) b)
            (add_version (add_version keep b) a).
Proof.
  split.
  - intros x. rewrite !add_version_spec. tauto.
  - rewrite !add_version_length, !mem_add_version.
    destruct (String.eqb_spec a b) as [-> | Hne];
      [now rewrite String.eqb_refl |].
    assert (Hba : String.eqb b a = false) by (apply String.eqb_neq; congruence).
    rewrite Hba. destruct (PyStr.mem a keep), (PyStr.mem b keep); simpl; lia.
Qed.

Lemma add_all_same (vs : list string) (k1 k2 : list string) :
  same_keep k1 k2 -> same_keep (add_all vs k1) (add_all vs k2).
Proof.
  revert k1 k2. induction vs as [| a vs IH]; intros k1 k2 H; simpl; [assumption |].
  apply IH. now apply add_version_same.
Qed.

(** An addition made before a loop can as well be made after it. *)
Lemma add_all_add_version (vs : list string) (keep : list string) (v : string) :
  same_keep (add_all vs (add_version keep v)) (add_version (add_all vs keep) v).
Proof.
  revert keep. induction vs as [| a vs IH]; intros keep; simpl.
  - apply same_keep_refl.
  - eapply same_keep_trans; [| apply IH].
    apply add_all_same, add_version_swap.
Qed.

Lemma add_all_spec (vs keep : list string) (x : string) :
  In x (add_all vs keep) <-> In x keep \/ In x vs.
Proof.
  revert keep. induction vs as [| a vs IH]; intros keep; simpl.
  - tauto.
  - fold (add_all vs (add_version keep a)). rewrite IH, add_version_spec.
    split; [intros [[H | ->] | H] | intros [H | [-> | H]]]; auto.
Qed.

Lemma add_all_app (l1 l2 keep : list string) :
  add_all (l1 ++ l2) keep = add_all l2 (add_all l1 keep).
Proof. unfold add_all. apply fold_left_app. Qed.

Lemma top_up_full (m : Z) (infos : list KernelInfo) (keep : list string) :
  m <= len keep -> top_up m infos keep = keep.
Proof.
  intros H. destruct infos; simpl; [reflexivity |].
  apply Z.leb_le in H. now rewrite H.
Qed.

Lemma ensure_min_top_up policy infos keep :
  ensure_min policy infos keep = top_up (min_kernels policy) infos keep.
Proof.
  unfold ensure_min. destruct (Z.ltb_spec (len keep) (min_kernels policy));
    [reflexivity |].
  symmetry. now apply top_up_full.
Qed.

Lemma top_up_same (m : Z) (infos : list KernelInfo) (k1 k2 : list string) :
  same_keep k1 k2 -> same_keep (top_up m infos k1) (top_up m infos k2).
Proof.
  revert k1 k2. induction infos as [| k infos IH]; intros k1 k2 H; simpl;
    [assumption |].
  assert (Hlen : len k1 = len k2) by (unfold len; destruct H as [_ ->]; reflexivity).
  rewrite Hlen. destruct (m <=? len k2); [assumption |].
  apply IH. now apply add_version_same.
Qed.

Lemma top_up_skip_kept (m : Z) (b : KernelInfo) (rest : list KernelInfo)
    (keep : list string) :
  In (version b) keep -> top_up m (b :: rest) keep = top_up m rest keep.
Proof.
  intros H. simpl. rewrite (add_version_kept _ _ H).
  destruct (Z.leb_spec m (len keep)); [| reflexivity].
  symmetry. now apply top_up_full.
Qed.

(** Keeping the next catalog record beforehand cannot lose a record the
    top-up would have taken, provided all the records before it are kept. *)
Lemma top_up_add_next (m : Z) (before : list KernelInfo) (x : KernelInfo)
    (rest : list KernelInfo) (keep : list string) :
  (forall b, In b before -> In (version b) keep) ->
  incl (top_up m (before ++ x :: rest) keep)
       (top_up m (before ++ x :: rest) (add_version keep (version x))).
Proof.
  induction before as [| b before IH]; intros Hkept.
  - cbn [app]. rewrite (top_up_skip_kept m x rest (add_version keep (version x)))
      by (apply add_version_spec; now right).
    simpl. destruct (m <=? len keep).
    + eapply incl_tran; [apply add_version_incl | apply top_up_incl].
    + apply incl_refl.
  - cbn [app]. rewrite !top_up_skip_kept.
    + apply IH. intros b' Hb'. apply Hkept. now right.
    + apply add_version_incl, Hkept. now left.
    + apply Hkept. now left.
Qed.

Lemma top_up_mono_min (m1 m2 : Z) (infos : list KernelInfo) (keep : list string) :
  m1 <= m2 -> incl (top_up m1 infos keep) (top_up m2 infos keep).
Proof.
  intros Hm. revert keep. induction infos as [| k infos IH]; intros keep; simpl.
  - apply incl_refl.
  - destruct (Z.leb_spec m1 (len keep)).
    + destruct (m2 <=? len keep); [apply incl_refl |].
      eapply incl_tran; [apply add_version_incl | apply top_up_incl].
    + destruct (Z.leb_spec m2 (len keep)); [lia | apply IH].
Qed.

Lemma firstn_succ {A : Type} (n : nat) (l : list A) :
  firstn (S n) l
  = (firstn n l ++ match skipn n l with [] => [] | x :: _ => [x] end)%list.
Proof.
  revert l. induction n as [| n IH]; intros [| a l]; simpl; try reflexivity.
  now rewrite <- IH.
Qed.

Lemma firstn_incl_le {A : Type} (n1 n2 : nat) (l : list A) :
  (n1 <= n2)%nat -> incl (firstn n1 l) (firstn n2 l).
Proof.
  intros H. induction H as [| n2 H IH]; [apply incl_refl |].
  eapply incl_tran; [exact IH |]. rewrite firstn_succ. apply incl_appl, incl_refl.
Qed.

(** One more record in the "latest N" loop, with the same recency stage
    [recent] and the same minimum, never loses a kept version. *)
Lemma latest_succ_mono (m : Z) (infos : list KernelInfo) (recent keep0 : list string)
    (n : nat) :
  incl (top_up m infos (add_all recent (add_all (map version (firstn n infos)) keep0)))
       (top_up m infos
          (add_all recent (add_all (map version (firstn (S n) infos)) keep0))).
Proof.
  rewrite firstn_succ. pose proof (firstn_skipn n infos) as Hsplit.
  destruct (skipn n infos) as [| x rest].
  - rewrite app_nil_r. apply incl_refl.
  - rewrite map_app, add_all_app. cbn [map add_all fold_left].
    set (latest := add_all (map version (firstn n infos)) keep0).
    intros v Hv.
    apply (top_up_same m infos _ _ (add_all_add_version recent latest (version x))).
    rewrite <- Hsplit at 1. rewrite <- Hsplit in Hv at 1.
    revert v Hv. apply top_up_add_next.
    intros b Hb. apply add_all_spec. left. apply add_all_spec. right.
    now apply in_map.
Qed.

Lemma latest_mono (m : Z) (infos : list KernelInfo) (recent keep0 : list string)
    (n1 n2 : nat) :
  (n1 <= n2)%nat ->
  incl (top_up m infos (add_all recent (add_all (map version (firstn n1 infos)) keep0)))
       (top_up m infos (add_all recent (add_all (map version (firstn n2 infos)) keep0))).
Proof.
  intros H. induction H as [| n2 H IH]; [apply incl_refl |].
  eapply incl_tran; [exact IH | apply latest_succ_mono].
Qed.

(** The loops of the engine are [add_all] over a list of versions. *)
Lemma keep_latest_n_add_all policy infos keep :
  keep_latest_n policy infos keep
  = add_all (map version (firstn (latest_bound policy infos) infos)) keep.
Proof.
  unfold keep_latest_n, latest_bound, add_all.
  generalize (firstn (Z.to_nat (Z.min (Z.min (keep_latest policy) (len infos))
                                      (len infos))) infos).
  intros l. revert keep. induction l as [| k l IH]; intros keep; simpl;
    [reflexivity | apply IH].
Qed.

Lemma fold_recent_add_all cutoff infos keep :
  fold_left (recent_step cutoff) infos keep
  = add_all (map version (filter (installed_after cutoff) infos)) keep.
Proof.
  revert keep. induction infos as [| k infos IH]; intros keep; simpl;
    [reflexivity |].
  rewrite IH. unfold recent_step, add_version.
  destruct (installed_after cutoff k); reflexivity.
Qed.

Lemma keep_recent_add_all sys policy infos keep :
  keep_recent sys policy infos keep
  = option_map (fun recent => add_all recent keep) (recent_versions sys policy infos).
Proof.
  unfold keep_recent, recent_versions. destruct (0 <? keep_days policy);
    [| reflexivity].
  destruct (cutoff_date sys policy); simpl; [| reflexivity].
  now rewrite fold_recent_add_all.
Qed.

Lemma cutoff_date_value sys policy cutoff :
  cutoff_date sys policy = Some cutoff ->
  cutoff = now sys - keep_days policy * Datetime.us_per_day.
Proof.
  unfold cutoff_date, Datetime.timedelta_days, Datetime.sub, Datetime.bind.
  destruct (Datetime.between (-999999999) (keep_days policy) 999999999);
    [| discriminate].
  destruct (Datetime.between 0 _ Datetime.max); [| discriminate].
  now intros [= <-].
Qed.

Lemma installed_after_mono (c1 c2 : Z) (k : KernelInfo) :
  c2 <= c1 -> installed_after c1 k = true -> installed_after c2 k = true.
Proof.
  unfold installed_after. intros Hc.
  destruct (negb (install_date k =? "Unknown")%string); [| discriminate].
  destruct (Datetime.strptime (install_date k)) as [d |]; [| discriminate].
  rewrite !Z.ltb_lt. lia.
Qed.

(** More days can only make more records recent. *)
Lemma recent_versions_mono sys p1 p2 infos r1 r2 :
  keep_days p1 <= keep_days p2 ->
  recent_versions sys p1 infos = Some r1 ->
  recent_versions sys p2 infos = Some r2 ->
  incl r1 r2.
Proof.
  unfold recent_versions. intros Hd.
  destruct (Z.ltb_spec 0 (keep_days p1)) as [H1 | H1].
  - destruct (Z.ltb_spec 0 (keep_days p2)) as [H2 | H2]; [| lia].
    destruct (cutoff_date sys p1) as [c1 |] eqn:E1; [| discriminate].
    destruct (cutoff_date sys p2) as [c2 |] eqn:E2; [| discriminate].
    simpl. intros [= <-] [= <-].
    apply cutoff_date_value in E1, E2.
    assert (Hc : c2 <= c1).
    { subst. unfold Datetime.us_per_day, Datetime.us_per_second. lia. }
    intros v Hv. apply in_map_iff in Hv. destruct Hv as [k [<- Hk]].
    apply in_map. apply filter_In in Hk. apply filter_In.
    split; [tauto |]. apply (installed_after_mono c1 c2 k Hc). tauto.
  - intros [= <-] _. intros v [].
Qed.

Lemma latest_bound_mono p1 p2 infos :
  keep_latest p1 <= keep_latest p2 ->
  (latest_bound p1 infos <= latest_bound p2 infos)%nat.
Proof. unfold latest_bound. lia. Qed.

Lemma keep_exclusions_eq p1 p2 mgr infos :
  exclude_current p1 = exclude_current p2 ->
  exclude_fallback p1 = exclude_fallback p2 ->
  keep_fallback p1 mgr (keep_current p1 infos [])
  = keep_fallback p2 mgr (keep_current p2 infos []).
Proof. unfold keep_fallback, keep_current. now intros -> ->. Qed.

End Monotone.

(** The final [keep_kernels], spelled with [add_all] and [top_up]. *)
Lemma keep_kernels_of_shape sys mgr policy keep :
  keep_kernels_of sys mgr policy = Some keep ->
  exists recent,
    recent_versions sys policy (kernels_info_of sys mgr) = Some recent
    /\ keep_before_top_up sys mgr policy
       = Some (add_all recent
                 (add_all (map version
                             (firstn (latest_bound policy (kernels_info_of sys mgr))
                                     (kernels_info_of sys mgr)))
                    (keep_fallback policy mgr
                       (keep_current policy (kernels_info_of sys mgr) []))))
    /\ keep
       = top_up (min_kernels policy) (kernels_info_of sys mgr)
           (add_all recent
              (add_all (map version
                          (firstn (latest_bound policy (kernels_info_of sys mgr))
                                  (kernels_info_of sys mgr)))
                 (keep_fallback policy mgr
                    (keep_current policy (kernels_info_of sys mgr) [])))).
Proof.
  unfold keep_kernels_of, keep_before_top_up.
  rewrite keep_recent_add_all, keep_latest_n_add_all.
  destruct (recent_versions sys policy (kernels_info_of sys mgr)) as [recent |];
    simpl; [| discriminate].
  intros [= <-]. exists recent. rewrite ensure_min_top_up. auto.
Qed.

(** C9 (amended). Let a policy [p2] have the exclusions of [p1] and
    [keep_latest], [keep_days], [min_kernels] at least as large, on the same
    host and at the same time, and let the engine return for both.  (1) If
    [keep_days] is the same, every version of [keep_kernels] under [p1] is in
    [keep_kernels] under [p2].  (2) In any case this holds for the lists as
    they stand before the minimum is enforced, and for the final lists when
    the list under [p1] already has [min_kernels] entries before the top-up. *)
Theorem C9_monotone_amended sys mgr p1 p2 keep1 keep2 :
  exclude_current p1 = exclude_current p2 ->
  exclude_fallback p1 = exclude_fallback p2 ->
  keep_latest p1 <= keep_latest p2 ->
  keep_days p1 <= keep_days p2 ->
  min_kernels p1 <= min_kernels p2 ->
  keep_kernels_of sys mgr p1 = Some keep1 ->
  keep_kernels_of sys mgr p2 = Some keep2 ->
  (keep_days p1 = keep_days p2 -> incl keep1 keep2)
  /\ (exists pre1 pre2,
        keep_before_top_up sys mgr p1 = Some pre1
        /\ keep_before_top_up sys mgr p2 = Some pre2
        /\ incl pre1 pre2
        /\ (min_kernels p1 <= len pre1 -> incl keep1 keep2)).
Proof.
  intros Hec Hef Hn Hd Hm H1 H2.
  destruct (keep_kernels_of_shape _ _ _ _ H1) as [r1 [Hr1 [Hpre1 ->]]].
  destruct (keep_kernels_of_shape _ _ _ _ H2) as [r2 [Hr2 [Hpre2 ->]]].
  set (infos := kernels_info_of sys mgr) in *.
  rewrite <- (keep_exclusions_eq p1 p2 mgr infos Hec Hef) in *.
  set (keep0 := keep_fallback p1 mgr (keep_current p1 infos [])) in *.
  pose proof (latest_bound_mono p1 p2 infos Hn) as Hb.
  assert (Hpre : incl (add_all r1 (add_all (map version (firstn (latest_bound p1 infos) infos)) keep0))
                      (add_all r2 (add_all (map version (firstn (latest_bound p2 infos) infos)) keep0))).
  { intros v. rewrite !add_all_spec. intros [[H | H] | H].
    - auto.
    - left. right. apply in_map_iff in H. destruct H as [k [<- Hk]].
      apply in_map. now apply (firstn_incl_le _ _ infos Hb).
    - right. now apply (recent_versions_mono sys p1 p2 infos r1 r2 Hd Hr1 Hr2). }
  split.
  - intros Heq.
    assert (r1 = r2).
    { unfold recent_versions in Hr1, Hr2. rewrite <- Heq in Hr2.
      unfold cutoff_date in Hr1, Hr2. rewrite <- Heq in Hr2. congruence. }
    subst r2.
    eapply incl_tran; [apply (latest_mono _ _ _ _ _ _ Hb) |].
    now apply top_up_mono_min.
  - eexists. eexists. split; [exact Hpre1 |]. split; [exact Hpre2 |].
    split; [exact Hpre |].
    intros Hfull. rewrite top_up_full by assumption.
    eapply incl_tran; [exact Hpre | apply top_up_incl].
Qed.

Lemma C9_witness :
  (30 = 30 ->
   incl ["6.1.0-13-amd64"; "6.1.0-12-amd64"; "6.1.0-9-amd64"]
        ["6.1.0-13-amd64"; "6.1.0-12-amd64"; "6.1.0-9-amd64"; "6.1.0-10-amd64"])
  /\ (exists pre1 pre2,
        keep_before_top_up Scenario.dated (KernelManager_init Scenario.dated)
          (Scenario.policy 1 30 2) = Some pre1
        /\ keep_before_top_up Scenario.dated (KernelManager_init Scenario.dated)
             (Scenario.policy 2 30 4) = Some pre2
        /\ incl pre1 pre2
        /\ (2 <= len pre1 ->
            incl ["6.1.0-13-amd64"; "6.1.0-12-amd64"; "6.1.0-9-amd64"]
                 ["6.1.0-13-amd64"; "6.1.0-12-amd64"; "6.1.0-9-amd64";
                  "6.1.0-10-amd64"])).
Proof.
  refine (C9_monotone_amended Scenario.dated (KernelManager_init Scenario.dated)
            (Scenario.policy 1 30 2) (Scenario.policy 2 30 4) _ _
            eq_refl eq_refl _ _ _ eq_refl eq_refl); simpl; lia.
Defined.

(** C9, as stated, fails for [keep_days]: on the host with four kernels,
    raising [keep_days] from 7 to 30 (with [keep_latest = 1],
    [min_kernels = 3]) makes the oldest kernel recent, so the top-up no longer
    takes 6.1.0-10, which was kept before. *)
Lemma C9_more_days_drops_a_kernel :
  let sys := Scenario.dated in
  let mgr := KernelManager_init sys in
  keep_kernels_of sys mgr (Scenario.policy 1 7 3)
  = Some ["6.1.0-13-amd64"; "6.1.0-12-amd64"; "6.1.0-10-amd64"]
  /\ keep_kernels_of sys mgr (Scenario.policy 1 30 3)
     = Some ["6.1.0-13-amd64"; "6.1.0-12-amd64"; "6.1.0-9-amd64"]
  /\ PyStr.mem "6.1.0-10-amd64"
       ["6.1.0-13-amd64"; "6.1.0-12-amd64"; "6.1.0-10-amd64"] = true
  /\ PyStr.mem "6.1.0-10-amd64"
       ["6.1.0-13-amd64"; "6.1.0-12-amd64"; "6.1.0-9-amd64"] = false.
Proof. vm_compute. repeat split; reflexivity. Qed.

(** ** The minimum is met when the fallback is another catalog kernel

    The evaluations of C3, C4 and C5 all go through the fallback string: an
    entry of [keep_kernels] that is no catalog version, or a second copy of
    the running kernel.  Without such an entry the minimum is met. *)

Section Floor.

Lemma versions_of_catalog sys mgr :
  map version (kernels_info_of sys mgr) = list_installed_kernels sys.
Proof.
  unfold kernels_info_of. rewrite map_map. simpl. apply map_id.
Qed.

Lemma scan_dpkg_line_NoDup kernels line :
  NoDup kernels -> NoDup (scan_dpkg_line kernels line).
Proof.
  intros H. unfold scan_dpkg_line.
  repeat match goal with
         | |- context [if ?b then _ else _] => destruct b eqn:?
         end; try assumption.
  apply (Permutation_NoDup (Permutation_cons_append kernels _)).
  constructor; [| assumption].
  apply mem_false. now apply negb_true_iff.
Qed.

Lemma parse_dpkg_list_NoDup output : NoDup (parse_dpkg_list output).
Proof.
  unfold parse_dpkg_list.
  assert (H : forall lines kernels,
             NoDup kernels -> NoDup (fold_left scan_dpkg_line lines kernels)).
  { induction lines as [| line lines IH]; intros kernels Hk; simpl;
      [assumption |]. apply IH. now apply scan_dpkg_line_NoDup. }
  apply H. constructor.
Qed.

(** The catalog holds every version once. *)
Lemma list_installed_kernels_NoDup sys : NoDup (list_installed_kernels sys).
Proof.
  unfold list_installed_kernels. destruct (dpkg_l sys); [| constructor].
  eapply Permutation_NoDup; [apply sort_desc_perm | apply parse_dpkg_list_NoDup].
Qed.

Lemma add_version_NoDup keep v : NoDup keep -> NoDup (add_version keep v).
Proof.
  intros H. unfold add_version. destruct (PyStr.mem v keep) eqn:E; simpl;
    [assumption |].
  apply (Permutation_NoDup (Permutation_cons_append keep v)).
  constructor; [now apply mem_false | assumption].
Qed.

Lemma add_all_NoDup vs keep : NoDup keep -> NoDup (add_all vs keep).
Proof.
  revert keep. induction vs as [| v vs IH]; intros keep H; simpl; [assumption |].
  apply IH. now apply add_version_NoDup.
Qed.

Lemma top_up_NoDup m infos keep : NoDup keep -> NoDup (top_up m infos keep).
Proof.
  revert keep. induction infos as [| k infos IH]; intros keep H; simpl;
    [assumption |].
  destruct (m <=? len keep); [assumption |]. apply IH. now apply add_version_NoDup.
Qed.

Lemma top_up_within m infos keep (catalog : list string) :
  incl keep catalog -> incl (map version infos) catalog ->
  incl (top_up m infos keep) catalog.
Proof.
  revert keep. induction infos as [| k infos IH]; intros keep Hk Hi; simpl;
    [assumption |].
  destruct (m <=? len keep); [assumption |]. apply IH.
  - intros v Hv. apply add_version_spec in Hv. destruct Hv as [Hv | ->];
      [now apply Hk | apply Hi; now left].
  - intros v Hv. apply Hi. now right.
Qed.

(** The top-up stops at the minimum or takes the whole catalog. *)
Lemma top_up_length m (seen rest : list KernelInfo) keep :
  NoDup (map version (seen ++ rest)) ->
  (forall b, In b seen -> In (version b) keep) ->
  Z.min m (len (seen ++ rest)) <= len (top_up m rest keep).
Proof.
  revert seen keep. induction rest as [| k rest IH]; intros seen keep Hnd Hseen.
  - simpl. rewrite app_nil_r in *.
    assert (List.length (map version seen) <= List.length keep)%nat.
    { apply NoDup_incl_length; [assumption |].
      intros v Hv. apply in_map_iff in Hv. destruct Hv as [b [<- Hb]]. auto. }
    rewrite length_map in H. unfold len. lia.
  - simpl. destruct (Z.leb_spec m (len keep)); [lia |].
    replace (seen ++ k :: rest)%list with ((seen ++ [k]) ++ rest)%list in *
      by now rewrite <- app_assoc.
    apply IH; [assumption |].
    intros b Hb. apply add_version_spec. apply in_app_iff in Hb.
    destruct Hb as [Hb | [<- | []]]; auto.
Qed.

Lemma map_version_filter (f : string -> bool) (infos : list KernelInfo) :
  map version (filter (fun k => f (version k)) infos) = filter f (map version infos).
Proof.
  induction infos as [| k infos IH]; simpl; [reflexivity |].
  destruct (f (version k)); simpl; now rewrite IH.
Qed.

(** A duplicate-free [keep_kernels] inside the catalog protects as many
    records as it has entries. *)
Lemma kept_records_length keep infos :
  NoDup (map version infos) -> NoDup keep -> incl keep (map version infos) ->
  List.length (kept_records keep infos) = List.length keep.
Proof.
  intros Hc Hk Hin. unfold kept_records.
  rewrite <- (length_map version), (map_version_filter (fun v => PyStr.mem v keep)).
  apply Permutation_length, NoDup_Permutation.
  - now apply NoDup_filter.
  - assumption.
  - intros v. rewrite filter_In, mem_spec. split; [tauto |].
    intros Hv. split; [now apply Hin | assumption].
Qed.

Lemma filter_full {A : Type} (f : A -> bool) (l : list A) :
  List.length (filter f l) = List.length l -> forall x, In x l -> f x = true.
Proof.
  induction l as [| a l IH]; intros Hlen x; [intros [] |].
  simpl in Hlen. pose proof (filter_length_le f l) as Hle.
  destruct (f a) eqn:E; simpl in Hlen; [| lia].
  intros [<- | Hx]; [assumption |]. apply IH; [lia | assumption].
Qed.

Lemma nothing_removed keep (infos : list KernelInfo) :
  (forall k, In k infos -> PyStr.mem (version k) keep = true) ->
  filter (not_kept keep) infos = [].
Proof.
  induction infos as [| k infos IH]; intros H; [reflexivity |].
  simpl. unfold not_kept at 1. rewrite (H k) by now left. simpl.
  apply IH. intros k' Hk'. apply H. now right.
Qed.

(** When [keep_kernels] holds no entry twice and only catalog versions
    before the top-up, at least [min min_kernels |catalog|] catalog records
    are kept; a catalog no larger than [min_kernels] is kept whole. *)
Theorem floor_met_for_clean_keep sys mgr policy pre keep :
  keep_before_top_up sys mgr policy = Some pre ->
  NoDup pre -> incl pre (list_installed_kernels sys) ->
  keep_kernels_of sys mgr policy = Some keep ->
  Z.min (min_kernels policy) (len (kernels_info_of sys mgr))
  <= len (kept_records keep (kernels_info_of sys mgr))
  /\ (len (kernels_info_of sys mgr) <= min_kernels policy ->
      identify_kernels_to_remove sys mgr policy = Some []).
Proof.
  intros Hpre Hnd Hin Hkeep.
  pose proof (list_installed_kernels_NoDup sys) as Hcat.
  rewrite <- (versions_of_catalog sys mgr) in Hcat, Hin.
  unfold keep_kernels_of in Hkeep. rewrite Hpre in Hkeep. simpl in Hkeep.
  injection Hkeep as <-. rewrite ensure_min_top_up.
  set (infos := kernels_info_of sys mgr) in *.
  assert (Hlen : Z.min (min_kernels policy) (len infos)
                 <= len (kept_records (top_up (min_kernels policy) infos pre) infos)).
  { assert (Ht : Z.min (min_kernels policy) (len infos)
                 <= len (top_up (min_kernels policy) infos pre)).
    { apply (top_up_length (min_kernels policy) [] infos pre); [assumption |].
      intros b []. }
    unfold len in *. rewrite kept_records_length; [exact Ht | assumption | |].
    - now apply top_up_NoDup.
    - apply top_up_within; [assumption | apply incl_refl]. }
  split; [exact Hlen |].
  intros Hsmall. unfold identify_kernels_to_remove, keep_kernels_of.
  rewrite Hpre. simpl. rewrite ensure_min_top_up. fold infos. f_equal.
  set (keep := top_up (min_kernels policy) infos pre) in *.
  assert (Hall : List.length (kept_records keep infos) = List.length infos).
  { apply Nat.le_antisymm; [apply filter_length_le |]. unfold len in *. lia. }
  unfold kept_records in Hall.
  apply nothing_removed. now apply filter_full.
Qed.

(** The condition holds when the fallback is not excluded, or is a catalog
    version other than the running kernel. *)
Theorem clean_keep_without_fallback_slip sys mgr policy pre :
  exclude_fallback policy = false
  \/ (In (fallback_kernel mgr) (list_installed_kernels sys)
      /\ fallback_kernel mgr <> current_kernel mgr) ->
  keep_before_top_up sys mgr policy = Some pre ->
  NoDup pre /\ incl pre (list_installed_kernels sys).
Proof.
  intros Hfb Hpre. unfold keep_before_top_up in Hpre.
  rewrite keep_recent_add_all, keep_latest_n_add_all in Hpre.
  set (infos := kernels_info_of sys mgr) in *.
  destruct (recent_versions sys policy infos) as [recent |] eqn:Er;
    [| discriminate].
  simpl in Hpre. injection Hpre as <-.
  assert (Hcur : NoDup (keep_current policy infos [])
                 /\ incl (keep_current policy infos []) (list_installed_kernels sys)
                 /\ incl (keep_current policy infos []) [current_kernel mgr]).
  { unfold keep_current. destruct (exclude_current policy);
      [| repeat split; [constructor | intros v [] | intros v []]].
    destruct (find is_current infos) as [c |] eqn:E;
      [| repeat split; [constructor | intros v [] | intros v []]].
    apply find_some in E. destruct E as [Hc Hcc]. simpl. repeat split.
    - constructor; [intros [] | constructor].
    - intros v [<- | []]. rewrite <- (versions_of_catalog sys mgr).
      now apply in_map.
    - intros v [<- | []]. left. symmetry.
      now apply is_current_version with (sys := sys). }
  destruct Hcur as [Hnd [Hin Hone]].
  assert (Hfall : NoDup (keep_fallback policy mgr (keep_current policy infos []))
                  /\ incl (keep_fallback policy mgr (keep_current policy infos []))
                          (list_installed_kernels sys)).
  { unfold keep_fallback.
    destruct (exclude_fallback policy) eqn:Eex; simpl; [| now split].
    destruct (PyStr.is_empty (fallback_kernel mgr)); simpl; [now split |].
    destruct Hfb as [Hfb | [Hfb Hne]]; [discriminate |]. split.
    - apply (Permutation_NoDup (Permutation_cons_append _ _)).
      constructor; [| assumption].
      intros H. apply Hone in H. destruct H as [H | []]. congruence.
    - intros v Hv. apply in_app_iff in Hv. destruct Hv as [Hv | [<- | []]]; auto. }
  destruct Hfall as [Hnd2 Hin2]. split.
  - now apply add_all_NoDup, add_all_NoDup.
  - intros v. rewrite !add_all_spec. intros [[H | H] | H].
    + now apply Hin2.
    + rewrite <- (versions_of_catalog sys mgr). apply in_map_iff in H.
      destruct H as [k [<- Hk]]. apply in_map.
      pose proof (firstn_skipn (latest_bound policy infos) infos) as Hsplit.
      fold infos. rewrite <- Hsplit. apply in_or_app. now left.
    + unfold recent_versions in Er. destruct (0 <? keep_days policy).
      * destruct (cutoff_date sys policy); [| discriminate].
        simpl in Er. injection Er as <-.
        rewrite <- (versions_of_catalog sys mgr). apply in_map_iff in H.
        destruct H as [k [<- Hk]]. apply in_map. apply filter_In in Hk. tauto.
      * injection Er as <-. destruct H.
Qed.

End Floor.

(** ** The scenarios A and B of the specification *)

Example scenario_A :
  let mgr := KernelManager_init Scenario.five in
  keep_kernels_of Scenario.five mgr (Scenario.policy 2 0 1) = Some ["6.1.0"; "6.0.5"]
  /\ option_map (map version)
       (identify_kernels_to_remove Scenario.five mgr (Scenario.policy 2 0 1))
     = Some ["5.19.2"; "5.15.0"; "5.10.0"].
Proof. vm_compute. split; reflexivity. Qed.

Example scenario_B :
  let mgr := KernelManager_init Scenario.five in
  let policy := {| keep_latest := 0; keep_days := 0; dry_run := false;
                   exclude_current := false; exclude_fallback := false;
                   min_kernels := 3 |} in
  keep_kernels_of Scenario.five mgr policy = Some ["6.1.0"; "6.0.5"; "5.19.2"]
  /\ option_map (map version) (identify_kernels_to_remove Scenario.five mgr policy)
     = Some ["5.15.0"; "5.10.0"].
Proof. vm_compute. split; reflexivity. Qed.

(** A [keep_days] beyond the range of [timedelta], or a cutoff before year
    1, makes the engine raise. *)
Example engine_overflow :
  keep_kernels_of Scenario.five (KernelManager_init Scenario.five)
    (Scenario.policy 2 1000000000 1) = None
  /\ keep_kernels_of Scenario.five (KernelManager_init Scenario.five)
       (Scenario.policy 2 1000000 1) = None.
Proof. vm_compute. split; reflexivity. Qed.

(** * Further properties of the catalog and the engine *)

Section EngineMore.

(** X1. [list_installed_kernels] never lists a version twice. *)
Theorem installed_kernels_distinct (sys : System) :
  NoDup (list_installed_kernels sys).
Proof. apply list_installed_kernels_NoDup. Qed.

Lemma filter_eqb_le_one (c : string) (l : list string) :
  NoDup l -> (List.length (filter (fun v => String.eqb v c) l) <= 1)%nat.
Proof.
  induction l as [| v l IH]; intros H; simpl; [lia |].
  inversion H as [| v' l' Hv Hl]; subst.
  destruct (String.eqb_spec v c) as [-> | Hne]; [| now apply IH].
  simpl. replace (filter (fun v => String.eqb v c) l) with (@nil string);
    [simpl; lia |].
  symmetry. clear -Hv. induction l as [| w l IH]; [reflexivity |].
  simpl. destruct (String.eqb_spec w c) as [-> | _].
  - exfalso. apply Hv. now left.
  - apply IH. intros Hc. apply Hv. now right.
Qed.

(** X2. At most one record of the catalog is flagged current, and none when
    the running kernel is not an installed version. *)
Theorem at_most_one_current (sys : System) (mgr : KernelManager) :
  (List.length (filter is_current (kernels_info_of sys mgr)) <= 1)%nat
  /\ (~ In (current_kernel mgr) (list_installed_kernels sys) ->
      filter is_current (kernels_info_of sys mgr) = []).
Proof.
  unfold kernels_info_of.
  assert (Hf : forall l,
             filter is_current (map (get_kernel_info sys mgr) l)
             = map (get_kernel_info sys mgr)
                   (filter (fun v => String.eqb v (current_kernel mgr)) l)).
  { induction l as [| v l IH]; [reflexivity |]. simpl.
    destruct (String.eqb v (current_kernel mgr)); simpl; now rewrite IH. }
  rewrite Hf, length_map. split.
  - apply filter_eqb_le_one, list_installed_kernels_NoDup.
  - intros Hout.
    replace (filter (fun v => String.eqb v (current_kernel mgr))
                    (list_installed_kernels sys)) with (@nil string);
      [reflexivity |].
    symmetry. induction (list_installed_kernels sys) as [| v l IH];
      [reflexivity |].
    simpl. destruct (String.eqb_spec v (current_kernel mgr)) as [E | _].
    + exfalso. apply Hout. now left.
    + apply IH. intros H. apply Hout. now right.
Qed.

Lemma keep_of_identify_in sys mgr policy remove (v : string) :
  identify_kernels_to_remove sys mgr policy = Some remove ->
  (forall keep, keep_kernels_of sys mgr policy = Some keep -> In v keep) ->
  forall r, In r remove -> version r <> v.
Proof.
  intros Hrem Hkept r Hr Heq.
  destruct (keep_of_identify _ _ _ _ Hrem) as [keep [Hkeep ->]].
  apply filter_In in Hr. destruct Hr as [_ Hr]. apply not_kept_spec in Hr.
  apply Hr. rewrite Heq. now apply Hkept.
Qed.

Lemma keep_kernels_of_inv sys mgr policy keep :
  keep_kernels_of sys mgr policy = Some keep ->
  exists pre, keep_before_top_up sys mgr policy = Some pre
              /\ keep = ensure_min policy (kernels_info_of sys mgr) pre.
Proof.
  unfold keep_kernels_of.
  destruct (keep_before_top_up sys mgr policy) as [pre |]; [| discriminate].
  intros [= <-]. eauto.
Qed.

(** X3. With [exclude_fallback] set and a fallback stored, no record returned by
    [identify_kernels_to_remove] carries the fallback version. *)
Theorem fallback_never_removed sys mgr policy remove :
  exclude_fallback policy = true ->
  fallback_kernel mgr <> EmptyString ->
  identify_kernels_to_remove sys mgr policy = Some remove ->
  forall r, In r remove -> version r <> fallback_kernel mgr.
Proof.
  intros Hex Hne Hrem. apply (keep_of_identify_in _ _ _ _ _ Hrem).
  intros keep Hkeep.
  destruct (keep_kernels_of_inv _ _ _ _ Hkeep) as [pre [Hpre ->]].
  apply ensure_min_incl. unfold keep_before_top_up in Hpre.
  apply keep_recent_incl in Hpre. apply Hpre, keep_latest_n_incl.
  rewrite keep_fallback_appends by assumption.
  apply in_app_iff. right. now left.
Qed.

Lemma fallback_never_removed_witness :
  fallback_kernel (KernelManager_init Scenario.dated) = "6.1.0-12-amd64"
  /\ (forall r,
        In r (filter (not_kept ["6.1.0-13-amd64"; "6.1.0-12-amd64"; "6.1.0-10-amd64"])
                (kernels_info_of Scenario.dated (KernelManager_init Scenario.dated))) ->
        version r <> "6.1.0-12-amd64").
Proof.
  split; [reflexivity |].
  refine (fallback_never_removed Scenario.dated (KernelManager_init Scenario.dated)
            (Scenario.policy 1 7 3) _ eq_refl _ eq_refl).
  vm_compute. discriminate.
Defined.

Lemma nth_error_firstn {A : Type} (l : list A) (i n : nat) (x : A) :
  nth_error l i = Some x -> (i < n)%nat -> In x (firstn n l).
Proof.
  revert i n. induction l as [| a l IH]; intros [| i] [| n]; simpl;
    try discriminate; try lia.
  - intros [= ->] _. now left.
  - intros H Hlt. right. apply (IH i); [assumption | lia].
Qed.

Lemma fold_add_contains (infos : list KernelInfo) (keep : list string) k :
  In k infos ->
  In (version k) (fold_left (fun keep k => add_version keep (version k)) infos keep).
Proof.
  revert keep. induction infos as [| a infos IH]; intros keep; [intros [] |].
  simpl. intros [-> | H].
  - apply fold_add_incl, add_version_spec. now right.
  - now apply IH.
Qed.

(** X4. The [keep_latest] newest records of the catalog are never returned for
    removal; a [keep_latest] of at least the size of the catalog leaves
    nothing to remove. *)
Theorem newest_never_removed sys mgr policy remove :
  identify_kernels_to_remove sys mgr policy = Some remove ->
  (forall i k, nth_error (kernels_info_of sys mgr) i = Some k ->
               Z.of_nat i < keep_latest policy -> ~ In k remove)
  /\ (len (kernels_info_of sys mgr) <= keep_latest policy -> remove = []).
Proof.
  intros Hrem.
  assert (Hnth : forall i k, nth_error (kernels_info_of sys mgr) i = Some k ->
                             Z.of_nat i < keep_latest policy -> ~ In k remove).
  { intros i k Hi Hlt Hin.
    apply (keep_of_identify_in _ _ _ _ (version k) Hrem) in Hin; [congruence |].
    intros keep Hkeep.
    destruct (keep_kernels_of_inv _ _ _ _ Hkeep) as [pre [Hpre ->]].
    apply ensure_min_incl. unfold keep_before_top_up in Hpre.
    apply keep_recent_incl in Hpre. apply Hpre. unfold keep_latest_n.
    apply fold_add_contains. apply (nth_error_firstn _ i); [assumption |].
    assert (i < List.length (kernels_info_of sys mgr))%nat
      by (apply nth_error_Some; congruence).
    unfold len. lia. }
  split; [exact Hnth |].
  intros Hall. destruct remove as [| r remove]; [reflexivity |]. exfalso.
  destruct (keep_of_identify _ _ _ _ Hrem) as [keep [_ Hfil]].
  assert (Hr : In r (kernels_info_of sys mgr)).
  { assert (H : In r (r :: remove)) by now left.
    rewrite Hfil in H. now apply filter_In in H. }
  apply In_nth_error in Hr. destruct Hr as [i Hi].
  apply (Hnth i r Hi); [| now left].
  assert (i < List.length (kernels_info_of sys mgr))%nat
    by (apply nth_error_Some; congruence).
  unfold len in Hall. lia.
Qed.

Lemma newest_never_removed_witness :
  (forall i k,
     nth_error (kernels_info_of Scenario.five (KernelManager_init Scenario.five)) i
     = Some k ->
     Z.of_nat i < 5 ->
     ~ In k (filter (not_kept ["6.1.0"; "6.0.5"; "5.19.2"; "5.15.0"; "5.10.0"])
               (kernels_info_of Scenario.five (KernelManager_init Scenario.five))))
  /\ (len (kernels_info_of Scenario.five (KernelManager_init Scenario.five)) <= 5 ->
      filter (not_kept ["6.1.0"; "6.0.5"; "5.19.2"; "5.15.0"; "5.10.0"])
        (kernels_info_of Scenario.five (KernelManager_init Scenario.five)) = []).
Proof.
  exact (newest_never_removed Scenario.five (KernelManager_init Scenario.five)
           (Scenario.policy 5 0 1) _ eq_refl).
Defined.

Lemma fold_recent_contains cutoff (infos : list KernelInfo) keep k :
  In k infos -> installed_after cutoff k = true ->
  In (version k) (fold_left (recent_step cutoff) infos keep).
Proof.
  revert keep. induction infos as [| a infos IH]; intros keep; [intros [] |].
  simpl. intros [-> | H] Hrecent.
  - apply fold_recent_incl. unfold recent_step. rewrite Hrecent. simpl.
    destruct (PyStr.mem (version k) keep) eqn:E; simpl.
    + now apply mem_spec.
    + apply in_app_iff. right. now left.
  - now apply IH.
Qed.

(** X5. With [keep_days] positive, a catalog record whose install date reads as
    a time after [now - keep_days] days is never returned for removal. *)
Theorem recent_never_removed sys mgr policy cutoff remove k d :
  0 < keep_days policy ->
  cutoff_date sys policy = Some cutoff ->
  In k (kernels_info_of sys mgr) ->
  install_date k <> "Unknown" ->
  Datetime.strptime (install_date k) = Some d ->
  cutoff < d ->
  identify_kernels_to_remove sys mgr policy = Some remove ->
  ~ In k remove.
Proof.
  intros Hdays Hcut Hk Hknown Hparse Hlt Hrem Hin.
  apply (keep_of_identify_in _ _ _ _ (version k) Hrem) in Hin; [congruence |].
  intros keep Hkeep.
  destruct (keep_kernels_of_inv _ _ _ _ Hkeep) as [pre [Hpre ->]].
  apply ensure_min_incl. unfold keep_before_top_up, keep_recent in Hpre.
  apply Z.ltb_lt in Hdays. rewrite Hdays, Hcut in Hpre. injection Hpre as <-.
  apply fold_recent_contains; [assumption |].
  unfold installed_after. rewrite Hparse.
  destruct (String.eqb_spec (install_date k) "Unknown"); [contradiction |].
  simpl. now apply Z.ltb_lt.
Qed.

Lemma recent_never_removed_witness :
  install_date (get_kernel_info Scenario.dated (KernelManager_init Scenario.dated)
                  "6.1.0-9-amd64") = "2025-10-20 22:40:00"
  /\ ~ In (get_kernel_info Scenario.dated (KernelManager_init Scenario.dated)
             "6.1.0-9-amd64")
          (filter (not_kept ["6.1.0-13-amd64"; "6.1.0-12-amd64"; "6.1.0-9-amd64"])
             (kernels_info_of Scenario.dated (KernelManager_init Scenario.dated))).
Proof.
  split; [reflexivity |].
  refine (recent_never_removed Scenario.dated (KernelManager_init Scenario.dated)
            (Scenario.policy 1 30 3) _ _
            (get_kernel_info Scenario.dated (KernelManager_init Scenario.dated)
               "6.1.0-9-amd64")
            _ _ eq_refl _ _ eq_refl _ eq_refl).
  - reflexivity.
  - vm_compute. right. right. right. now left.
  - vm_compute. discriminate.
  - reflexivity.
Defined.

(** X6. When the fallback is not excluded, or is an installed version other
    than the running kernel, at least [min min_kernels |catalog|] catalog
    records are kept, and a catalog no larger than [min_kernels] is kept
    whole. *)
Theorem floor_met_with_distinct_fallback sys mgr policy keep :
  exclude_fallback policy = false
  \/ (In (fallback_kernel mgr) (list_installed_kernels sys)
      /\ fallback_kernel mgr <> current_kernel mgr) ->
  keep_kernels_of sys mgr policy = Some keep ->
  Z.min (min_kernels policy) (len (kernels_info_of sys mgr))
  <= len (kept_records keep (kernels_info_of sys mgr))
  /\ (len (kernels_info_of sys mgr) <= min_kernels policy ->
      identify_kernels_to_remove sys mgr policy = Some []).
Proof.
  intros Hfb Hkeep.
  destruct (keep_kernels_of_inv _ _ _ _ Hkeep) as [pre [Hpre _]].
  destruct (clean_keep_without_fallback_slip _ _ _ _ Hfb Hpre) as [Hnd Hin].
  now apply (floor_met_for_clean_keep sys mgr policy pre keep).
Qed.

Lemma floor_met_with_distinct_fallback_witness :
  Z.min 4 (len (kernels_info_of Scenario.dated (KernelManager_init Scenario.dated)))
  <= len (kept_records
            ["6.1.0-13-amd64"; "6.1.0-12-amd64"; "6.1.0-9-amd64"; "6.1.0-10-amd64"]
            (kernels_info_of Scenario.dated (KernelManager_init Scenario.dated)))
  /\ (len (kernels_info_of Scenario.dated (KernelManager_init Scenario.dated)) <= 4 ->
      identify_kernels_to_remove Scenario.dated (KernelManager_init Scenario.dated)
        (Scenario.policy 2 30 4) = Some []).
Proof.
  refine (floor_met_with_distinct_fallback Scenario.dated
            (KernelManager_init Scenario.dated) (Scenario.policy 2 30 4) _ _ eq_refl).
  right. split; [vm_compute; right; now left | vm_compute; discriminate].
Defined.

Lemma top_up_appends (m : Z) (infos : list KernelInfo) (keep : list string) :
  exists added, top_up m infos keep = (keep ++ added)%list
                /\ len keep + len added <= Z.max (len keep) m.
Proof.
  revert keep. induction infos as [| k infos IH]; intros keep; simpl.
  - exists []. split; [now rewrite app_nil_r | unfold len; simpl; lia].
  - destruct (Z.leb_spec m (len keep)).
    + exists []. split; [now rewrite app_nil_r | unfold len; simpl; lia].
    + destruct (IH (add_version keep (version k))) as [added [-> Hlen]].
      unfold add_version in *. destruct (PyStr.mem (version k) keep); simpl in *.
      * exists added. split; [reflexivity | assumption].
      * exists (version k :: added). rewrite <- app_assoc. split; [reflexivity |].
        unfold len in *. rewrite length_app in Hlen. simpl in *. lia.
Qed.

(** X7. The top-up only appends to [keep_kernels], and stops as soon as the
    list has [min_kernels] entries: the final list is never longer than the
    larger of [min_kernels] and its length before, and is left as it is when
    the earlier rules already gave [min_kernels] entries. *)
Theorem top_up_only_fills sys mgr policy pre keep :
  keep_before_top_up sys mgr policy = Some pre ->
  keep_kernels_of sys mgr policy = Some keep ->
  (exists added, keep = (pre ++ added)%list)
  /\ len keep <= Z.max (len pre) (min_kernels policy)
  /\ (min_kernels policy <= len pre -> keep = pre).
Proof.
  intros Hpre Hkeep. unfold keep_kernels_of in Hkeep. rewrite Hpre in Hkeep.
  simpl in Hkeep. injection Hkeep as <-. rewrite ensure_min_top_up.
  destruct (top_up_appends (min_kernels policy) (kernels_info_of sys mgr) pre)
    as [added [E Hlen]].
  split; [now exists added |]. split.
  - rewrite E. unfold len in *. rewrite length_app. lia.
  - intros Hfull. now apply top_up_full.
Qed.

Lemma top_up_only_fills_witness :
  (exists added,
     ["6.1.0-13-amd64"; "6.1.0-12-amd64"; "6.1.0-10-amd64"]
     = (["6.1.0-13-amd64"; "6.1.0-12-amd64"] ++ added)%list)
  /\ len ["6.1.0-13-amd64"; "6.1.0-12-amd64"; "6.1.0-10-amd64"]
     <= Z.max (len ["6.1.0-13-amd64"; "6.1.0-12-amd64"]) 3
  /\ (3 <= len ["6.1.0-13-amd64"; "6.1.0-12-amd64"] ->
      ["6.1.0-13-amd64"; "6.1.0-12-amd64"; "6.1.0-10-amd64"]
      = ["6.1.0-13-amd64"; "6.1.0-12-amd64"]).
Proof.
  exact (top_up_only_fills Scenario.dated (KernelManager_init Scenario.dated)
           (Scenario.policy 1 7 3) _ _ eq_refl eq_refl).
Defined.

Lemma scan_install_time_origin sys lines init :
  scan_install_time sys lines init = init
  \/ exists ts, localtime_fmt sys ts = Some (scan_install_time sys lines init).
Proof.
  revert init. induction lines as [| line lines IH]; intros init; simpl;
    [now left |].
  destruct (PyStr.startswith line "Install-Time:"); [| apply IH].
  destruct (PyStr.int _) as [ts |]; [| now left].
  destruct (localtime_fmt sys ts) as [formatted |] eqn:E; [| now left].
  destruct (IH formatted) as [-> | H]; [| now right].
  right. now exists ts.
Qed.

(** X8. The install date [get_kernel_info] reports is empty, or a text the
    host's time conversion produced for some time stamp; it is empty when
    [dpkg -s] fails. *)
Theorem install_date_origin sys mgr v :
  (install_date (get_kernel_info sys mgr v) = EmptyString
   \/ exists ts, localtime_fmt sys ts = Some (install_date (get_kernel_info sys mgr v)))
  /\ (dpkg_s sys (package_name v) = None ->
      install_date (get_kernel_info sys mgr v) = EmptyString).
Proof.
  unfold get_kernel_info. cbn [install_date]. split.
  - destruct (dpkg_s sys (package_name v)); [| now left].
    apply scan_install_time_origin.
  - now intros ->.
Qed.

(** X9. With two or more kernels installed, the fallback [__init__] stores is
    an installed version, is not the newest one, and does not sort before
    it. *)
Theorem fallback_is_second_newest sys :
  (2 <= List.length (list_installed_kernels sys))%nat ->
  let fallback := fallback_kernel (KernelManager_init sys) in
  let newest := nth 0 (list_installed_kernels sys) EmptyString in
  In fallback (list_installed_kernels sys)
  /\ fallback <> newest
  /\ not_older newest fallback.
Proof.
  intros Hlen. unfold KernelManager_init, _get_fallback_kernel. simpl.
  pose proof (list_installed_kernels_NoDup sys) as Hnd.
  assert (Hs : StronglySorted not_older (list_installed_kernels sys)).
  { unfold list_installed_kernels. destruct (dpkg_l sys);
      [apply sort_desc_sorted | constructor]. }
  destruct (list_installed_kernels sys) as [| a [| b l]]; simpl in Hlen; try lia.
  simpl. split; [right; now left |]. split.
  - inversion Hnd as [| x l' Ha _]; subst. intros ->. apply Ha. now left.
  - inversion Hs as [| x l' _ Hall]; subst. now inversion Hall.
Qed.

Lemma fallback_is_second_newest_witness :
  In "6.1.0-12-amd64" (list_installed_kernels Scenario.dated)
  /\ "6.1.0-12-amd64" <> "6.1.0-13-amd64"
  /\ not_older "6.1.0-13-amd64" "6.1.0-12-amd64".
Proof.
  refine (fallback_is_second_newest Scenario.dated _). vm_compute. lia.
Defined.

End EngineMore.

(** * Properties of the executor and of the orchestrators *)

Section Orchestration.

(** The one [apt] call of [remove_kernels]. *)
Lemma remove_kernels_cases host kernels dry :
  let cmd := "apt" :: "remove" :: "-y" :: map package_name kernels in
  let o := remove_kernels host kernels dry in
  match kernels with
  | [] => returned o = true /\ started o = []
  | _ :: _ =>
      if dry then returned o = true /\ started o = []
      else match popen host cmd with
           | PopenRaises _ => returned o = false /\ started o = [cmd]
           | PopenExits returncode _ =>
               if HAS_RICH host then
                 if returncode =? 0 then
                   started o = [cmd; ["update-grub"]]
                   /\ (returned o = true <-> run host ["update-grub"] = RunReturns)
                 else returned o = false /\ started o = [cmd]
               else returned o = false /\ started o = [cmd]
           end
  end.
Proof.
  destruct kernels as [| k ks]; [now split |].
  destruct dry; [now split |].
  cbv zeta. unfold remove_kernels.
  change (["apt"; "remove"; "-y"] ++ map package_name (k :: ks))%list
    with ("apt" :: "remove" :: "-y" :: map package_name (k :: ks)).
  destruct (popen host _) as [e | rc stderr]; [now split |].
  destruct (HAS_RICH host); [| now split].
  destruct (rc =? 0); [| now split].
  destruct (run host ["update-grub"]); simpl;
    (split; [reflexivity | split; intros; congruence]).
Qed.

(** Nothing to do, or a dry run: nothing is started and [True] is returned. *)
Lemma remove_kernels_idle host kernels dry :
  kernels = [] \/ dry = true ->
  returned (remove_kernels host kernels dry) = true
  /\ started (remove_kernels host kernels dry) = [].
Proof.
  pose proof (remove_kernels_cases host kernels dry) as H. cbv zeta in H.
  intros [-> | ->]; [exact H |]. destruct kernels; exact H.
Qed.

(** A real removal starts [apt], and [update-grub] if anything else. *)
Lemma remove_kernels_started host kernels dry :
  let cmd := "apt" :: "remove" :: "-y" :: map package_name kernels in
  let o := remove_kernels host kernels dry in
  kernels <> [] -> dry = false ->
  started o = [cmd] \/ started o = [cmd; ["update-grub"]].
Proof.
  pose proof (remove_kernels_cases host kernels dry) as H. cbv zeta in *.
  intros Hne ->. destruct kernels as [| k ks]; [congruence |].
  destruct (popen host _) as [e | rc stderr]; [left; apply H |].
  destruct (HAS_RICH host); [| left; apply H].
  destruct (rc =? 0); [right | left]; apply H.
Qed.

(** Without [rich], a real removal starts [apt] and gives up. *)
Lemma remove_kernels_without_rich host kernels :
  let cmd := "apt" :: "remove" :: "-y" :: map package_name kernels in
  let o := remove_kernels host kernels false in
  HAS_RICH host = false -> kernels <> [] ->
  returned o = false /\ started o = [cmd].
Proof.
  pose proof (remove_kernels_cases host kernels false) as H. cbv zeta in *.
  intros Hplain Hne. destruct kernels as [| k ks]; [congruence |].
  rewrite Hplain in H. destruct (popen host _); exact H.
Qed.

(** X10. [remove_kernels] returns [True] exactly when there is nothing to do,
    when it is a dry run, or when [rich] is imported, [apt] exits with status
    0 and [update-grub] does not raise.  Without [rich] a removal that is not
    a dry run never returns [True]. *)
Theorem remove_kernels_returns_true host kernels dry :
  returned (remove_kernels host kernels dry) = true <->
  kernels = [] \/ dry = true
  \/ (HAS_RICH host = true
      /\ (exists stderr,
            popen host ("apt" :: "remove" :: "-y" :: map package_name kernels)
            = PopenExits 0 stderr)
      /\ run host ["update-grub"] = RunReturns).
Proof.
  pose proof (remove_kernels_cases host kernels dry) as H. cbv zeta in H.
  destruct kernels as [| k ks]; [intuition |].
  destruct dry; [intuition |].
  destruct (popen host _) as [e | rc stderr] eqn:Ep.
  - destruct H as [-> _]. split; [discriminate |].
    intros [H | [H | [_ [[s Hs] _]]]]; discriminate.
  - destruct (HAS_RICH host) eqn:Erich.
    + destruct (Z.eqb_spec rc 0) as [-> | Hrc].
      * destruct H as [_ ->]. split.
        -- intros Hr. right. right.
           split; [reflexivity | split; [now exists stderr | assumption]].
        -- intros [H | [H | [_ [_ Hr]]]]; [discriminate | discriminate | assumption].
      * destruct H as [-> _]. split; [discriminate |].
        intros [H | [H | [_ [[s Hs] _]]]]; try discriminate. congruence.
    + destruct H as [-> _]. split; [discriminate |].
      intros [H | [H | [H _]]]; discriminate.
Qed.

(** X11. [remove_kernels] starts nothing on an empty list or a dry run;
    otherwise it starts one [apt remove -y] with the packages of all the
    kernels, in order, and after it starts [update-grub] exactly when [rich]
    is imported and [apt] exited with status 0.  It starts nothing else. *)
Theorem remove_kernels_commands host kernels dry :
  let cmd := "apt" :: "remove" :: "-y" :: map package_name kernels in
  let o := remove_kernels host kernels dry in
  (kernels = [] \/ dry = true -> started o = [])
  /\ (kernels <> [] -> dry = false ->
      (started o = [cmd] \/ started o = [cmd; ["update-grub"]])
      /\ (In ["update-grub"] (started o) <->
          HAS_RICH host = true
          /\ exists stderr, popen host cmd = PopenExits 0 stderr)).
Proof.
  pose proof (remove_kernels_cases host kernels dry) as H. cbv zeta in *.
  split.
  - intros Hidle. now apply remove_kernels_idle.
  - intros Hne ->. destruct kernels as [| k ks]; [congruence |].
    destruct (popen host _) as [e | rc stderr] eqn:Ep.
    + destruct H as [_ ->]. split; [now left |]. split.
      * intros [H | []]. discriminate.
      * intros [_ [s Hs]]. discriminate.
    + destruct (HAS_RICH host) eqn:Erich.
      * destruct (Z.eqb_spec rc 0) as [-> | Hrc].
        -- destruct H as [-> _]. split; [now right |]. split.
           ++ intros _. split; [reflexivity | now exists stderr].
           ++ intros _. right. now left.
        -- destruct H as [_ ->]. split; [now left |]. split.
           ++ intros [H | []]. discriminate.
           ++ intros [_ [s Hs]]. congruence.
      * destruct H as [_ ->]. split; [now left |]. split.
        -- intros [H | []]. discriminate.
        -- intros [H _]. discriminate.
Qed.

Lemma cleanup_old_kernels_inv sys mgr host policy confirm b s :
  cleanup_old_kernels sys mgr host policy confirm = Some (b, s) ->
  exists remove,
    identify_kernels_to_remove sys mgr policy = Some remove
    /\ match removal s with
       | Some o =>
           remove <> []
           /\ o = remove_kernels host (map version remove) (dry_run policy)
           /\ b = returned o
           /\ (dry_run policy = true \/ confirm = true)
           /\ asked s = (if dry_run policy then [] else [proceed_question])
       | None =>
           (remove = [] /\ b = true /\ asked s = [])
           \/ (remove <> [] /\ dry_run policy = false /\ confirm = false
               /\ b = false /\ asked s = [proceed_question])
       end.
Proof.
  unfold cleanup_old_kernels.
  destruct (identify_kernels_to_remove sys mgr policy) as [[| r remove] |];
    [| | discriminate].
  - intros [= <- <-]. exists []. split; [reflexivity |]. now left.
  - intros H. exists (r :: remove). split; [reflexivity |].
    destruct (HAS_RICH host); [| discriminate].
    destruct (dry_run policy); simpl in H.
    + injection H as <- <-. simpl. repeat split; auto. discriminate.
    + destruct confirm; simpl in H; injection H as <- <-; simpl.
      * repeat split; auto. discriminate.
      * right. repeat split. discriminate.
Qed.

(** X12. [cleanup_old_kernels] starts a command only when the policy is not a dry
    run, there is something to remove, and the operator confirmed.  A dry run
    asks nothing and returns [True]; a refusal returns [False]. *)
Theorem cleanup_never_acts_unasked sys mgr host policy confirm b s :
  cleanup_old_kernels sys mgr host policy confirm = Some (b, s) ->
  (forall o, removal s = Some o -> started o <> [] ->
             dry_run policy = false /\ confirm = true
             /\ asked s = [proceed_question])
  /\ (dry_run policy = true -> b = true /\ asked s = [])
  /\ (confirm = false -> dry_run policy = false ->
      removal s = None
      /\ (b = false \/ identify_kernels_to_remove sys mgr policy = Some [])).
Proof.
  intros H. destruct (cleanup_old_kernels_inv _ _ _ _ _ _ _ H) as [remove [Hid Hs]].
  split; [| split].
  - intros o Ho Hstarted. rewrite Ho in Hs.
    destruct Hs as [Hne [-> [_ [Hor Hasked]]]].
    destruct (dry_run policy) eqn:Ed.
    + exfalso. apply Hstarted.
      apply (remove_kernels_idle host (map version remove) true). now right.
    + destruct Hor as [Hor | Hor]; [discriminate |]. auto.
  - intros Hd. destruct (removal s) as [o |].
    + destruct Hs as [_ [-> [-> [_ Hasked]]]]. rewrite Hd in *. split; [| assumption].
      apply remove_kernels_idle. now right.
    + destruct Hs as [[_ [-> ->]] | [_ [Hd' _]]]; [now split | congruence].
  - intros -> Hd. destruct (removal s) as [o |].
    + destruct Hs as [_ [_ [_ [[Hor | Hor] _]]]]; congruence.
    + split; [reflexivity |].
      destruct Hs as [[-> _] | [_ [_ [_ [-> _]]]]]; [now right | now left].
Qed.

Lemma cleanup_never_acts_unasked_witness :
  (forall o,
     removal {| removal := Some (remove_kernels Cases.all_fine ["6.1.0-10-amd64"] false);
                said := []; printed := []; asked := [proceed_question] |} = Some o ->
     started o <> [] ->
     false = false /\ true = true /\ [proceed_question] = [proceed_question])
  /\ (false = true -> true = true /\ [proceed_question] = [])
  /\ (true = false -> false = false ->
      Some (remove_kernels Cases.all_fine ["6.1.0-10-amd64"] false) = None
      /\ (true = false
          \/ identify_kernels_to_remove Scenario.pending_reboot
               (KernelManager_init Scenario.pending_reboot) (Scenario.policy 1 30 3)
             = Some [])).
Proof.
  assert (H : cleanup_old_kernels Scenario.pending_reboot
                (KernelManager_init Scenario.pending_reboot) Cases.all_fine
                (Scenario.policy 1 30 3) true
              = Some (true,
                      {| removal := Some (remove_kernels Cases.all_fine
                                            ["6.1.0-10-amd64"] false);
                         said := []; printed := [];
                         asked := [proceed_question] |}))
    by (vm_compute; reflexivity).
  exact (cleanup_never_acts_unasked Scenario.pending_reboot
           (KernelManager_init Scenario.pending_reboot) Cases.all_fine
           (Scenario.policy 1 30 3) true _ _ H).
Defined.

Lemma current_is_kept sys mgr policy keep k :
  exclude_current policy = true ->
  keep_kernels_of sys mgr policy = Some keep ->
  In k (kernels_info_of sys mgr) -> is_current k = true ->
  In (version k) keep.
Proof.
  intros Hex Hkeep Hk Hc.
  destruct (keep_kernels_of_inv _ _ _ _ Hkeep) as [pre [Hpre ->]].
  apply ensure_min_incl. unfold keep_before_top_up in Hpre.
  apply keep_recent_incl in Hpre. apply Hpre.
  apply keep_latest_n_incl, keep_fallback_incl.
  unfold keep_current. rewrite Hex.
  destruct (find_is_current _ _ _ Hk Hc) as [c [-> <-]]. simpl. now left.
Qed.

Lemma package_name_inj (a b : string) : package_name a = package_name b -> a = b.
Proof. unfold package_name. simpl. congruence. Qed.

Lemma package_not_a_flag (v : string) :
  ~ In (package_name v) ["apt"; "remove"; "-y"] /\ package_name v <> "update-grub".
Proof.
  unfold package_name. simpl. split; [| discriminate].
  intros [H | [H | [H | []]]]; discriminate.
Qed.

Lemma no_command_names_current sys mgr host policy confirm b s :
  exclude_current policy = true ->
  cleanup_old_kernels sys mgr host policy confirm = Some (b, s) ->
  forall o c, removal s = Some o -> In c (started o) ->
              ~ In (package_name (current_kernel mgr)) c.
Proof.
  intros Hex H o c Ho Hc Hin.
  destruct (cleanup_old_kernels_inv _ _ _ _ _ _ _ H) as [remove [Hid Hs]].
  rewrite Ho in Hs. destruct Hs as [Hne [-> _]].
  assert (Hpkg : In (package_name (current_kernel mgr))
                    ("apt" :: "remove" :: "-y" :: map package_name (map version remove))).
  { pose proof (remove_kernels_idle host (map version remove) (dry_run policy))
      as Hnone.
    pose proof (remove_kernels_started host (map version remove) (dry_run policy))
      as Hsome. cbv zeta in *.
    destruct (dry_run policy) eqn:Ed.
    - destruct Hnone as [_ Hnone]; [now right |]. rewrite Hnone in Hc. destruct Hc.
    - assert (Hm : map version remove <> []) by (destruct remove; [congruence | discriminate]).
      destruct (Hsome Hm eq_refl) as [E | E]; rewrite E in Hc.
      + destruct Hc as [<- | []]. assumption.
      + destruct Hc as [<- | [<- | []]]; [assumption |].
        destruct Hin as [Hin | []].
        symmetry in Hin. now apply package_not_a_flag in Hin. }
  destruct (package_not_a_flag (current_kernel mgr)) as [Hflag _].
  destruct Hpkg as [E | [E | [E | Hpkg]]];
    try (apply Hflag; rewrite <- E; simpl; tauto).
  apply in_map_iff in Hpkg. destruct Hpkg as [v [Hv Hvin]].
  apply package_name_inj in Hv. subst v.
  apply in_map_iff in Hvin. destruct Hvin as [r [Hr Hrin]].
  destruct (keep_of_identify _ _ _ _ Hid) as [keep [Hkeep ->]].
  apply filter_In in Hrin. destruct Hrin as [Hrin Hnk].
  assert (Hcur : is_current r = true).
  { rewrite (kernels_info_of_inv _ _ _ Hrin). simpl. rewrite Hr.
    apply String.eqb_refl. }
  apply not_kept_spec in Hnk. apply Hnk.
  now apply (current_is_kept sys mgr policy keep r).
Qed.

(** X13. With [exclude_current] set, no command [cleanup_old_kernels] starts
    names the package of the kernel the manager holds as current. *)
Theorem cleanup_spares_running_kernel sys mgr host policy confirm b s :
  exclude_current policy = true ->
  cleanup_old_kernels sys mgr host policy confirm = Some (b, s) ->
  forall o c, removal s = Some o -> In c (started o) ->
              ~ In (package_name (current_kernel mgr)) c.
Proof. apply no_command_names_current. Qed.

End Orchestration.

Section Interface.

Lemma cleanup_spares_running_kernel_witness :
  current_kernel (KernelManager_init Scenario.pending_reboot) = "6.1.0-12-amd64"
  /\ (forall o c,
        Some (remove_kernels Cases.all_fine ["6.1.0-10-amd64"] false) = Some o ->
        In c (started o) ->
        ~ In (package_name "6.1.0-12-amd64") c).
Proof.
  split; [reflexivity |].
  assert (H : cleanup_old_kernels Scenario.pending_reboot
                (KernelManager_init Scenario.pending_reboot) Cases.all_fine
                (Scenario.policy 1 30 3) true
              = Some (true,
                      {| removal := Some (remove_kernels Cases.all_fine
                                            ["6.1.0-10-amd64"] false);
                         said := []; printed := [];
                         asked := [proceed_question] |}))
    by (vm_compute; reflexivity).
  exact (cleanup_spares_running_kernel Scenario.pending_reboot
           (KernelManager_init Scenario.pending_reboot) Cases.all_fine
           (Scenario.policy 1 30 3) true _ _ eq_refl H).
Defined.

(** X14. When [dpkg -l] fails, [list_installed_kernels] logs one ERROR and
    returns the empty list, and [cleanup_old_kernels] takes the catalog for
    empty: whenever the engine returns, it finds nothing to remove, and the
    cleanup asks nothing, prints nothing, reaches no removal and returns
    [True], as it does on a host with nothing to remove.  The value returned
    does not tell the two apart; the ERROR of the listing does. *)
Theorem unreadable_inventory_reads_as_empty sys mgr host policy confirm :
  dpkg_l sys = None ->
  keep_days policy <= 0 \/ cutoff_date sys policy <> None ->
  list_installed_kernels sys = []
  /\ (forall e, list_installed_kernels_logged sys e
                = [(ERROR, "Failed to list kernels: " ++ e)])
  /\ identify_kernels_to_remove sys mgr policy = Some []
  /\ exists s,
       cleanup_old_kernels sys mgr host policy confirm = Some (true, s)
       /\ removal s = None /\ asked s = [] /\ printed s = [].
Proof.
  intros Hd Hret.
  assert (Hcat : list_installed_kernels sys = [])
    by (unfold list_installed_kernels; now rewrite Hd).
  split; [assumption |].
  split; [intros e; unfold list_installed_kernels_logged; now rewrite Hd |].
  destruct (keep_kernels_of_returns sys mgr policy Hret) as [keep Hkeep].
  assert (Hid : identify_kernels_to_remove sys mgr policy = Some []).
  { rewrite (identify_of_keep _ _ _ _ Hkeep).
    unfold kernels_info_of. now rewrite Hcat. }
  split; [assumption |].
  unfold cleanup_old_kernels. rewrite Hid.
  eexists. split; [reflexivity |]. now repeat split.
Qed.

Lemma unreadable_inventory_reads_as_empty_witness :
  list_installed_kernels
    {| uname_r := Some "6.1.0-13-amd64"; dpkg_l := None;
       dpkg_s := Scenario.no_status; localtime_fmt := Scenario.no_clock;
       now := Scenario.noon |} = []
  /\ (forall e,
        list_installed_kernels_logged
          {| uname_r := Some "6.1.0-13-amd64"; dpkg_l := None;
             dpkg_s := Scenario.no_status; localtime_fmt := Scenario.no_clock;
             now := Scenario.noon |} e
        = [(ERROR, "Failed to list kernels: " ++ e)])
  /\ identify_kernels_to_remove
       {| uname_r := Some "6.1.0-13-amd64"; dpkg_l := None;
          dpkg_s := Scenario.no_status; localtime_fmt := Scenario.no_clock;
          now := Scenario.noon |}
       (KernelManager_init Scenario.dated) default_policy = Some []
  /\ exists s,
       cleanup_old_kernels
         {| uname_r := Some "6.1.0-13-amd64"; dpkg_l := None;
            dpkg_s := Scenario.no_status; localtime_fmt := Scenario.no_clock;
            now := Scenario.noon |}
         (KernelManager_init Scenario.dated) Cases.all_fine default_policy true
       = Some (true, s)
       /\ removal s = None /\ asked s = [] /\ printed s = [].
Proof.
  refine (unreadable_inventory_reads_as_empty
            {| uname_r := Some "6.1.0-13-amd64"; dpkg_l := None;
               dpkg_s := Scenario.no_status; localtime_fmt := Scenario.no_clock;
               now := Scenario.noon |}
            (KernelManager_init Scenario.dated) Cases.all_fine default_policy true
            eq_refl _).
  right. discriminate.
Defined.

(** X15. In the interactive cleanup, what is removed is what the engine finds on
    the host when the removal runs, not the list shown before the first
    question; and unless the policy is a dry run, [apt] is reached only after
    two confirmations. *)
Theorem interactive_cleanup_recomputes has_rich shown later mgr host policy
    proceed confirm s o :
  interface_cleanup_old_kernels has_rich shown later mgr host policy proceed confirm
  = Some s ->
  removal s = Some o ->
  proceed = true
  /\ (exists remove,
        identify_kernels_to_remove later mgr policy = Some remove
        /\ o = remove_kernels host (map version remove) (dry_run policy))
  /\ (dry_run policy = false ->
      confirm = true /\ asked s = [proceed_question; proceed_question]).
Proof.
  unfold interface_cleanup_old_kernels.
  destruct (identify_kernels_to_remove shown mgr policy) as [[| r l] |];
    [intros [= <-]; discriminate | | discriminate].
  destruct has_rich; [| discriminate]. cbn [negb].
  destruct proceed; [| intros [= <-]; discriminate].
  destruct (cleanup_old_kernels later mgr host policy confirm) as [[b s'] |] eqn:E;
    [| discriminate].
  intros [= <-]. simpl. intros Ho.
  destruct (cleanup_old_kernels_inv _ _ _ _ _ _ _ E) as [remove [Hid Hs]].
  rewrite Ho in Hs. destruct Hs as [_ [-> [_ [Hor Hasked]]]].
  split; [reflexivity |]. split; [now exists remove |].
  intros Hd. rewrite Hd in *. destruct Hor as [Hor | Hor]; [discriminate |].
  now rewrite Hasked.
Qed.

Lemma interactive_cleanup_recomputes_witness :
  true = true
  /\ (exists remove,
        identify_kernels_to_remove Scenario.dated
          (KernelManager_init Scenario.pending_reboot) (Scenario.policy 1 7 3)
        = Some remove
        /\ remove_kernels Cases.all_fine ["6.1.0-10-amd64"; "6.1.0-9-amd64"] false
           = remove_kernels Cases.all_fine (map version remove) false)
  /\ (false = false ->
      true = true
      /\ [proceed_question; proceed_question] = [proceed_question; proceed_question]).
Proof.
  assert (H : interface_cleanup_old_kernels true Scenario.pending_reboot
                Scenario.dated (KernelManager_init Scenario.pending_reboot)
                Cases.all_fine (Scenario.policy 1 7 3) true true
              = Some {| removal := Some (remove_kernels Cases.all_fine
                                           ["6.1.0-10-amd64"; "6.1.0-9-amd64"] false);
                        said := []; printed := [];
                        asked := [proceed_question; proceed_question] |})
    by (vm_compute; reflexivity).
  exact (interactive_cleanup_recomputes true Scenario.pending_reboot Scenario.dated
           (KernelManager_init Scenario.pending_reboot) Cases.all_fine
           (Scenario.policy 1 7 3) true true _ _ H eq_refl).
Defined.

(** X16. The [cleanup] command never passes the package of the kernel [uname -r]
    names to a command, whatever the stored policy holds. *)
Theorem cli_cleanup_spares_running_kernel sys host stored confirm :
  forall b s o c,
    cli_cleanup sys host stored confirm = Some (b, s) ->
    removal s = Some o -> In c (started o) ->
    ~ In (package_name (_get_current_kernel sys)) c.
Proof.
  intros b s o c H. unfold cli_cleanup in H.
  exact (no_command_names_current sys (KernelManager_init sys) host
           (policy_of_config stored) confirm b s eq_refl H o c).
Qed.

Lemma cli_cleanup_spares_running_kernel_witness :
  _get_current_kernel Scenario.dated = "6.1.0-13-amd64"
  /\ ~ In (package_name "6.1.0-13-amd64")
          ["apt"; "remove"; "-y"; "linux-image-6.1.0-10-amd64"].
Proof.
  split; [reflexivity |].
  assert (H : cli_cleanup Scenario.dated Cases.all_fine
                (Some [("keep_latest", 1); ("keep_days", 30); ("min_kernels", 3)])
                true
              = Some (true,
                      {| removal := Some (remove_kernels Cases.all_fine
                                            ["6.1.0-10-amd64"] false);
                         said := []; printed := [];
                         asked := [proceed_question] |}))
    by (vm_compute; reflexivity).
  refine (cli_cleanup_spares_running_kernel Scenario.dated Cases.all_fine _ true
            _ _ _ _ H eq_refl _).
  vm_compute. now left.
Defined.

End Interface.

Section Dialogues.

(** X17. The rich branch of [configure_cleanup_policy] stores what it returns:
    the policy read back from the configuration afterwards is the policy
    returned, with both exclusions set and no dry run. *)
Theorem configure_stores_policy stored a_latest a_days a_min policy stored' :
  configure_cleanup_policy true stored a_latest a_days a_min
  = Some (policy, stored') ->
  policy_of_config stored' = policy
  /\ exclude_current policy = true /\ exclude_fallback policy = true
  /\ dry_run policy = false.
Proof.
  unfold configure_cleanup_policy, ask_int.
  destruct (PyStr.int a_latest) as [n |]; [| discriminate].
  destruct (PyStr.int a_days) as [d |]; [| discriminate].
  destruct (PyStr.int a_min) as [m |]; [| discriminate].
  intros [= <- <-]. repeat split.
Qed.

Lemma configure_stores_policy_witness :
  policy_of_config (Some [("keep_latest", 3); ("keep_days", 14); ("min_kernels", 2)])
  = Scenario.policy 3 14 2
  /\ exclude_current (Scenario.policy 3 14 2) = true
  /\ exclude_fallback (Scenario.policy 3 14 2) = true
  /\ dry_run (Scenario.policy 3 14 2) = false.
Proof.
  exact (configure_stores_policy None "3" "14" "2" _ _ eq_refl).
Defined.

(** X18. The plain branch of [configure_cleanup_policy] leaves the stored
    configuration alone; an empty line keeps the stored value (or the
    default) of that field, and the exclusions stay set. *)
Theorem plain_configure_keeps_store stored a_latest a_days a_min policy stored' :
  configure_cleanup_policy false stored a_latest a_days a_min
  = Some (policy, stored') ->
  stored' = stored
  /\ exclude_current policy = true /\ exclude_fallback policy = true
  /\ dry_run policy = false
  /\ (a_latest = EmptyString -> keep_latest policy = stored_get stored "keep_latest" 2)
  /\ (a_days = EmptyString -> keep_days policy = stored_get stored "keep_days" 30)
  /\ (a_min = EmptyString -> min_kernels policy = stored_get stored "min_kernels" 1).
Proof.
  unfold configure_cleanup_policy, ask_int.
  destruct (if PyStr.is_empty a_latest then _ else _) as [n |] eqn:En; [| discriminate].
  destruct (if PyStr.is_empty a_days then _ else _) as [d |] eqn:Ed; [| discriminate].
  destruct (if PyStr.is_empty a_min then _ else _) as [m |] eqn:Em; [| discriminate].
  intros [= <- <-]. simpl.
  repeat split; intros ->; simpl in *; congruence.
Qed.

Lemma plain_configure_keeps_store_witness :
  Some [("keep_latest", 3)] = Some [("keep_latest", 3)]
  /\ exclude_current (Scenario.policy 3 7 1) = true
  /\ exclude_fallback (Scenario.policy 3 7 1) = true
  /\ dry_run (Scenario.policy 3 7 1) = false
  /\ (EmptyString = EmptyString ->
      keep_latest (Scenario.policy 3 7 1)
      = stored_get (Some [("keep_latest", 3)]) "keep_latest" 2)
  /\ ("7" = EmptyString ->
      keep_days (Scenario.policy 3 7 1)
      = stored_get (Some [("keep_latest", 3)]) "keep_days" 30)
  /\ (EmptyString = EmptyString ->
      min_kernels (Scenario.policy 3 7 1)
      = stored_get (Some [("keep_latest", 3)]) "min_kernels" 1).
Proof.
  exact (plain_configure_keeps_store (Some [("keep_latest", 3)]) "" "7" ""
           _ _ eq_refl).
Defined.

(** [int] accepts the white space of [str.strip] around a literal, except
    the separators U+001C to U+001F, which it rejects. *)
Example int_white_space :
  PyStr.int (String (PyStr.chr 160) (String (PyStr.chr 9) "3 ")) = Some 3
  /\ PyStr.int (String (PyStr.chr 133) "-12") = Some (-12)
  /\ PyStr.int (String (PyStr.chr 31) "3") = None
  /\ PyStr.int (String "3" (String (PyStr.chr 28) EmptyString)) = None
  /\ PyStr.strip (String (PyStr.chr 31) "3") = "3".
Proof. vm_compute. repeat split; reflexivity. Qed.

(** X19. Without rich, [remove_specific_kernel] never puts the warning about the
    current kernel: the dictionary it inspects has no ["status"] entry.  The
    answer to that warning is never read, and a kernel picked and confirmed
    with [y] is handed to [remove_kernels] even when it is the running one:
    [apt remove] is started on its package.  ([remove_kernels], without rich,
    then stops at the progress bar: it starts nothing else and returns
    [False].) *)
Theorem plain_removal_never_warns sys mgr host choice sure confirm answer :
  remove_specific_kernel false sys mgr host choice sure confirm answer
  = remove_specific_kernel false sys mgr host choice (negb sure) confirm answer
  /\ (forall s,
        remove_specific_kernel false sys mgr host choice sure confirm answer = Some s ->
        ~ In (current_warning false) (asked s))
  /\ (forall i,
        PyStr.int (if PyStr.is_empty choice then "1" else choice) = Some i ->
        Py.getitem (list_installed_kernels sys) (i - 1) = Some (current_kernel mgr) ->
        Py.lower answer = "y" ->
        exists s o,
          remove_specific_kernel false sys mgr host choice sure confirm answer = Some s
          /\ removal s = Some o
          /\ o = remove_kernels host [current_kernel mgr] false
          /\ (HAS_RICH host = false ->
              returned o = false
              /\ started o
                 = [["apt"; "remove"; "-y"; package_name (current_kernel mgr)]])).
Proof.
  unfold remove_specific_kernel.
  destruct (list_installed_kernels sys) as [| k0 ks] eqn:Ek.
  - split; [reflexivity |]. split.
    + intros s [= <-]. simpl. tauto.
    + intros i _ H. unfold Py.getitem in H. simpl in H.
      destruct ((0 <=? i - 1) && (i - 1 <? 0)) eqn:E1; [lia |].
      destruct ((- 0 <=? i - 1) && (i - 1 <? 0)) eqn:E2; [lia | discriminate].
  - set (c := if PyStr.is_empty choice then "1" else choice).
    destruct (PyStr.int c) as [i |].
    + destruct (Py.getitem (k0 :: ks) (i - 1)) as [k |] eqn:Eg.
      * simpl. split; [reflexivity |]. split.
        -- intros s. destruct (Py.lower answer =? "y")%string; intros [= <-]; simpl;
             intros [H | []]; unfold current_warning, remove_question in H;
             simpl in H; discriminate.
        -- intros i' [= <-] Hg ->. rewrite Eg in Hg. injection Hg as ->.
           simpl. eexists. eexists. split; [reflexivity |].
           split; [reflexivity |]. split; [reflexivity |].
           intros Hplain.
           apply (remove_kernels_without_rich host [current_kernel mgr] Hplain).
           discriminate.
      * split; [reflexivity |]. split.
        -- intros s [= <-]. simpl. tauto.
        -- intros i' [= <-] Hg. rewrite Eg in Hg. discriminate.
    + split; [reflexivity |]. split.
      * intros s [= <-]. simpl. tauto.
      * intros i' H. discriminate.
Qed.

(** X20. With rich, picking the running kernel and declining the warning ends
    [remove_specific_kernel] with that one question asked and nothing
    removed. *)
Theorem rich_warning_protects sys mgr host choice confirm answer i s :
  PyStr.int choice = Some i ->
  Py.getitem (list_installed_kernels sys) (i - 1) = Some (current_kernel mgr) ->
  remove_specific_kernel true sys mgr host choice false confirm answer = Some s ->
  removal s = None /\ asked s = [current_warning true].
Proof.
  intros Hi Hget. unfold remove_specific_kernel.
  destruct (list_installed_kernels sys) as [| k0 ks] eqn:Ek.
  - unfold Py.getitem in Hget. simpl in Hget.
    destruct ((0 <=? i - 1) && (i - 1 <? 0)) eqn:E1; [lia |].
    destruct ((- 0 <=? i - 1) && (i - 1 <? 0)) eqn:E2; [lia | discriminate].
  - rewrite Hi. cbv zeta. rewrite Hget. simpl. rewrite String.eqb_refl. simpl.
    intros [= <-]. now split.
Qed.

Lemma rich_warning_protects_witness :
  removal {| removal := None; said := []; printed := [];
             asked := [current_warning true] |} = None
  /\ asked {| removal := None; said := []; printed := [];
              asked := [current_warning true] |} = [current_warning true].
Proof.
  assert (H : remove_specific_kernel true Scenario.dated
                (KernelManager_init Scenario.dated) Cases.all_fine "1" false true ""
              = Some {| removal := None; said := []; printed := [];
                        asked := [current_warning true] |})
    by (vm_compute; reflexivity).
  refine (rich_warning_protects Scenario.dated (KernelManager_init Scenario.dated)
            Cases.all_fine "1" true "" 1 _ eq_refl _ H).
  vm_compute. reflexivity.
Defined.

Lemma getitem_minus_one {A : Type} (l : list A) (d : A) :
  l <> [] -> Py.getitem l (-1) = Some (last l d).
Proof.
  intros Hne. unfold Py.getitem.
  assert (Hlen : (0 < List.length l)%nat) by (destruct l; [congruence | simpl; lia]).
  destruct ((0 <=? -1) && (-1 <? Z.of_nat (List.length l))) eqn:E1; [lia |].
  destruct ((- Z.of_nat (List.length l) <=? -1) && (-1 <? 0)) eqn:E2; [| lia].
  replace (Z.to_nat (Z.of_nat (List.length l) + -1)) with (List.length l - 1)%nat by lia.
  clear -Hne. induction l as [| a l IH]; [congruence |].
  destruct l as [| b l]; [reflexivity |].
  change (last (a :: b :: l) d) with (last (b :: l) d).
  rewrite <- IH by discriminate. simpl. now rewrite Nat.sub_0_r.
Qed.

(** X21. Without rich, the selection is a Python index: the answer [0] picks the
    last kernel of the list, the oldest, and [y] then hands it to
    [remove_kernels], which starts [apt remove] on its package (and, without
    rich, stops at the progress bar: nothing else is started and [False] is
    returned). *)
Theorem plain_choice_zero_picks_oldest sys mgr host sure confirm :
  list_installed_kernels sys <> [] ->
  exists s o,
    remove_specific_kernel false sys mgr host "0" sure confirm "y" = Some s
    /\ removal s = Some o
    /\ o = remove_kernels host [last (list_installed_kernels sys) EmptyString] false
    /\ (HAS_RICH host = false ->
        returned o = false
        /\ started o
           = [["apt"; "remove"; "-y";
               package_name (last (list_installed_kernels sys) EmptyString)]]).
Proof.
  intros Hne. unfold remove_specific_kernel.
  pose proof (getitem_minus_one (list_installed_kernels sys) EmptyString Hne) as Hg.
  destruct (list_installed_kernels sys) as [| k0 ks]; [congruence |].
  change (PyStr.int (if PyStr.is_empty "0" then "1" else "0")) with (Some 0).
  cbv iota beta. change (0 - 1) with (-1). rewrite Hg. simpl.
  eexists. eexists. split; [reflexivity |].
  split; [reflexivity |]. split; [reflexivity |].
  intros Hplain.
  apply (remove_kernels_without_rich host [last (k0 :: ks) EmptyString] Hplain).
  discriminate.
Qed.

Lemma plain_choice_zero_picks_oldest_witness :
  exists s o,
    remove_specific_kernel false Scenario.dated (KernelManager_init Scenario.dated)
      Cases.all_fine_plain "0" false false "y" = Some s
    /\ removal s = Some o
    /\ o = remove_kernels Cases.all_fine_plain
             [last (list_installed_kernels Scenario.dated) EmptyString] false
    /\ (HAS_RICH Cases.all_fine_plain = false ->
        returned o = false
        /\ started o
           = [["apt"; "remove"; "-y";
               package_name (last (list_installed_kernels Scenario.dated) EmptyString)]]).
Proof.
  refine (plain_choice_zero_picks_oldest Scenario.dated
            (KernelManager_init Scenario.dated) Cases.all_fine_plain false false _).
  vm_compute. discriminate.
Defined.

(** X22. Without rich, a selection that is not an integer, or an integer that is
    no valid index (above the number of kernels, or below its opposite plus
    one), prints ["Invalid selection"]: nothing is asked and nothing starts. *)
Theorem plain_invalid_selection sys mgr host choice sure confirm answer :
  list_installed_kernels sys <> [] ->
  let n := Z.of_nat (List.length (list_installed_kernels sys)) in
  let typed := if PyStr.is_empty choice then "1" else choice in
  PyStr.int typed = None
  \/ (exists i, PyStr.int typed = Some i /\ (i <= - n \/ n < i)) ->
  remove_specific_kernel false sys mgr host choice sure confirm answer
  = Some {| removal := None; said := []; printed := ["Invalid selection"];
            asked := [] |}.
Proof.
  intros Hne n typed Hbad. unfold remove_specific_kernel.
  destruct (list_installed_kernels sys) as [| k0 ks] eqn:Ek; [congruence |].
  fold typed. destruct Hbad as [-> | [i [-> Hi]]]; [reflexivity |].
  replace (Py.getitem (k0 :: ks) (i - 1)) with (@None string); [reflexivity |].
  symmetry. unfold Py.getitem. fold n.
  destruct ((0 <=? i - 1) && (i - 1 <? n)) eqn:E1; [lia |].
  destruct ((- n <=? i - 1) && (i - 1 <? 0)) eqn:E2; [lia | reflexivity].
Qed.

Lemma plain_invalid_selection_witness :
  remove_specific_kernel false Scenario.dated (KernelManager_init Scenario.dated)
    Cases.all_fine_plain "5" false false "y"
  = Some {| removal := None; said := []; printed := ["Invalid selection"];
            asked := [] |}.
Proof.
  refine (plain_invalid_selection Scenario.dated (KernelManager_init Scenario.dated)
            Cases.all_fine_plain "5" false false "y" _ _).
  - vm_compute. discriminate.
  - right. exists 5. vm_compute. split; [reflexivity |]. right. reflexivity.
Defined.

End Dialogues.

(** * Properties of the vulnerability check *)

Section Vulnerabilities.

Lemma lookup_known_vulns (key : string) (vulns : list Security.Known) :
  Security.lookup key Security.known_vulns = Some vulns ->
  (key = "5.4" /\ List.length vulns = 2%nat)
  \/ (key = "5.10" /\ List.length vulns = 1%nat).
Proof.
  unfold Security.known_vulns. cbn [Security.lookup].
  destruct (String.eqb_spec "5.4" key) as [<- |].
  - intros [= <-]. now left.
  - destruct (String.eqb_spec "5.10" key) as [<- |]; [| discriminate].
    intros [= <-]. now right.
Qed.

Lemma collect_length major minor patch vulns acc :
  (List.length (fst (Security.collect major minor patch vulns acc))
   <= List.length acc + List.length vulns)%nat.
Proof.
  revert acc. induction vulns as [| v vulns IH]; intros acc; simpl; [lia |].
  destruct (String.eqb (Security.k_id v) "CVE-2021-3490").
  - destruct (PyStr.int patch); simpl; [| lia].
    etransitivity; [apply IH |]. rewrite length_app. simpl. lia.
  - etransitivity; [apply IH |]. rewrite length_app. simpl. lia.
Qed.

(** X23. [check_kernel_vulnerabilities] reports at most two entries, and reports
    any only for a version with three dot-separated parts before its first
    dash whose first two parts read [5.4] or [5.10]. *)
Theorem vulnerabilities_only_for_known_series (kernel_version : string) :
  (List.length (fst (Security.check_kernel_vulnerabilities kernel_version)) <= 2)%nat
  /\ (fst (Security.check_kernel_vulnerabilities kernel_version) <> [] ->
      exists major minor patch,
        Security.version_parts kernel_version = [major; minor; patch]
        /\ (major ++ "." ++ minor = "5.4" \/ major ++ "." ++ minor = "5.10")).
Proof.
  unfold Security.check_kernel_vulnerabilities.
  destruct (Security.version_parts kernel_version) as [| major [| minor [| patch [| x l]]]];
    try (split; [simpl; lia | intros H; now elim H]).
  destruct (Security.lookup (major ++ "." ++ minor) Security.known_vulns)
    as [vulns |] eqn:El; [| split; [simpl; lia | intros H; now elim H]].
  pose proof (collect_length major minor patch vulns []) as Hlen.
  destruct (lookup_known_vulns _ _ El) as [[Hk Hl] | [Hk Hl]];
    (destruct (Security.collect major minor patch vulns []) as [got [e |]];
     simpl in *;
     (split; [lia | intros _; exists major, minor, patch; split; auto])).
Qed.

(** X24. A version without three dot-separated parts before its first dash
    (["5.4"], ["5.10-rc1"]) yields no entry and one ERROR message, whatever
    the series. *)
Theorem short_version_reports_nothing (kernel_version : string) :
  List.length (Security.version_parts kernel_version) <> 3%nat ->
  Security.check_kernel_vulnerabilities kernel_version
  = ([],
     [(INFO, "Checking kernel " ++ kernel_version ++ " for vulnerabilities");
      (ERROR, "Error checking vulnerabilities: "
              ++ Security.unpack_error
                   (List.length (Security.version_parts kernel_version)))]).
Proof.
  intros Hlen. unfold Security.check_kernel_vulnerabilities.
  destruct (Security.version_parts kernel_version) as [| major [| minor [| patch [| x l]]]];
    try reflexivity.
  simpl in Hlen. congruence.
Qed.

Lemma short_version_reports_nothing_witness :
  Security.check_kernel_vulnerabilities "5.4"
  = ([],
     [(INFO, "Checking kernel " ++ "5.4" ++ " for vulnerabilities");
      (ERROR, "Error checking vulnerabilities: "
              ++ Security.unpack_error (List.length (Security.version_parts "5.4")))]).
Proof.
  refine (short_version_reports_nothing "5.4" _). vm_compute. discriminate.
Defined.

(** X25. For a 5.4 kernel the report is all or nothing: with an integer patch
    level [p] both known entries are listed, the first as fixed in
    [5.4.(p+1)] and the second as ["N/A"]; with a patch level [int] rejects,
    nothing is listed and an ERROR is logged. *)
Theorem series_5_4_all_or_nothing (kernel_version patch : string) :
  Security.version_parts kernel_version = ["5"; "4"; patch] ->
  match PyStr.int patch with
  | Some p =>
      map Security.v_id (fst (Security.check_kernel_vulnerabilities kernel_version))
      = ["CVE-2021-3490"; "CVE-2021-33909"]
      /\ map Security.v_fixed_in
           (fst (Security.check_kernel_vulnerabilities kernel_version))
         = ["5.4." ++ Py.str_int (p + 1); "N/A"]
  | None =>
      fst (Security.check_kernel_vulnerabilities kernel_version) = []
      /\ map fst (snd (Security.check_kernel_vulnerabilities kernel_version))
         = [INFO; ERROR]
  end.
Proof.
  intros Hparts. unfold Security.check_kernel_vulnerabilities. rewrite Hparts.
  change (Security.lookup ("5" ++ "." ++ "4") Security.known_vulns)
    with (Some [{| Security.k_id := "CVE-2021-3490"; Security.k_severity := "high";
                   Security.k_description := "OverlayFS privilege escalation" |};
                {| Security.k_id := "CVE-2021-33909"; Security.k_severity := "critical";
                   Security.k_description := "Seqfs integer overflow" |}]).
  cbn [Security.collect Security.k_id Security.k_severity Security.k_description].
  change (String.eqb "CVE-2021-3490" "CVE-2021-3490") with true.
  change (String.eqb "CVE-2021-33909" "CVE-2021-3490") with false.
  cbv iota. destruct (PyStr.int patch) as [p |]; [| now split].
  cbn [Security.collect Security.k_id Security.k_severity Security.k_description].
  change (String.eqb "CVE-2021-33909" "CVE-2021-3490") with false.
  cbv iota. now split.
Qed.

Lemma series_5_4_all_or_nothing_witness :
  map Security.v_id (fst (Security.check_kernel_vulnerabilities "5.4.0-42-generic"))
  = ["CVE-2021-3490"; "CVE-2021-33909"]
  /\ map Security.v_fixed_in
       (fst (Security.check_kernel_vulnerabilities "5.4.0-42-generic"))
     = ["5.4." ++ Py.str_int (0 + 1); "N/A"].
Proof.
  exact (series_5_4_all_or_nothing "5.4.0-42-generic" "0" eq_refl).
Defined.

End Vulnerabilities.

(** * Properties of the compiler and of the optimizer *)

Section Commands.

Variable m : Machine.

Lemma attempted_all (cs ds : list Cmd) :
  Forall (fun c => m c = None) cs ->
  Compiler.attempted m (cs ++ ds) = (cs ++ Compiler.attempted m ds)%list.
Proof.
  induction 1 as [| c cs Hc _ IH]; [reflexivity |].
  simpl. now rewrite Hc, IH.
Qed.

Lemma attempted_ok (cs : list Cmd) :
  Forall (fun c => m c = None) cs -> Compiler.attempted m cs = cs.
Proof.
  induction 1 as [| c cs Hc _ IH]; [reflexivity |].
  simpl. now rewrite Hc, IH.
Qed.

Lemma attempted_stop (cs ds : list Cmd) :
  ~ Forall (fun c => m c = None) cs ->
  Compiler.attempted m (cs ++ ds) = Compiler.attempted m cs.
Proof.
  induction cs as [| c cs IH]; intros H; [elim H; constructor |].
  simpl. destruct (m c) eqn:E; [reflexivity |].
  rewrite IH; [reflexivity |]. intros Hall. apply H. now constructor.
Qed.

Lemma all_succeed_dec (cs : list Cmd) :
  {Forall (fun c => m c = None) cs} + {~ Forall (fun c => m c = None) cs}.
Proof.
  apply Forall_dec. intros c. destruct (m c); [right; discriminate | now left].
Qed.

Lemma attempted_incl (cs : list Cmd) : incl (Compiler.attempted m cs) cs.
Proof.
  induction cs as [| c cs IH]; [apply incl_refl |].
  simpl. destruct (m c).
  - intros x [<- | []]. now left.
  - intros x [<- | Hx]; [now left | right; now apply IH].
Qed.

Lemma runs_log l message : runs_commands m (log l message) [].
Proof.
  intros t. simpl. rewrite app_nil_r. split; [reflexivity |].
  split; [constructor | reflexivity].
Qed.

Lemma runs_skip : runs_commands m skip [].
Proof.
  intros t. simpl. rewrite app_nil_r. split; [reflexivity |].
  split; [constructor | reflexivity].
Qed.

Lemma runs_run_checked c : runs_commands m (run_checked m c) [c].
Proof.
  intros t. simpl. split.
  - now destruct (m c).
  - split.
    + intros H. now constructor.
    + intros H. now inversion H.
Qed.

Lemma runs_andthen a b cs ds :
  runs_commands m a cs -> runs_commands m b ds ->
  runs_commands m (andthen a b) (cs ++ ds).
Proof.
  intros Ha Hb t. unfold andthen. destruct (Ha t) as [Hsa Hra].
  destruct (a t) as [t' [e |]] eqn:E; simpl in *.
  - assert (Hn : ~ Forall (fun c => m c = None) cs)
      by (intros H; apply Hra in H; discriminate).
    rewrite (attempted_stop cs ds Hn). split; [assumption |]. split; [discriminate |].
    intros H. apply Forall_app in H. tauto.
  - assert (Hall : Forall (fun c => m c = None) cs) by now apply Hra.
    rewrite (attempted_all cs ds Hall). destruct (Hb t') as [Hsb Hrb].
    rewrite Hsb, Hsa, (attempted_ok cs Hall), app_assoc.
    split; [reflexivity |]. rewrite Hrb. split.
    + intros H. apply Forall_app. now split.
    + intros H. apply Forall_app in H. tauto.
Qed.

Lemma runs_for_each {A : Type} (body : A -> Act) (f : A -> list Cmd) (l : list A) :
  (forall x, runs_commands m (body x) (f x)) ->
  runs_commands m (for_each body l) (flat_map f l).
Proof.
  intros H. induction l as [| x l IH]; simpl; [apply runs_skip |].
  apply runs_andthen; [apply H | apply IH].
Qed.

Lemma andthen_log l message (b : Act) (t : Trace) :
  andthen (log l message) b t = b (fst (log l message t)).
Proof. reflexivity. Qed.

Lemma andthen_none (a b : Act) (t t' : Trace) :
  a t = (t', None) -> andthen a b t = b t'.
Proof. unfold andthen. now intros ->. Qed.

Lemma runs_apply_profile version profile :
  runs_commands m (Compiler.apply_profile m version profile)
    match Compiler.profile_settings profile Compiler.optimization_profiles with
    | Some settings =>
        Compiler.defconfig version
        :: flat_map (Compiler.enable_setting version) settings
    | None => []
    end.
Proof.
  unfold Compiler.apply_profile.
  destruct (Compiler.profile_settings profile Compiler.optimization_profiles)
    as [settings |]; [| apply runs_skip].
  apply (runs_andthen _ _ [] _ (runs_log _ _)).
  apply (runs_andthen _ _ [_] _ (runs_run_checked _)).
  apply runs_for_each. intros setting.
  replace (Compiler.enable_setting version setting)
    with (flat_map (fun c => [c]) (Compiler.enable_setting version setting)) at 2
    by (unfold Compiler.enable_setting; reflexivity).
  apply runs_for_each. intros c. apply runs_run_checked.
Qed.

Lemma runs_compile_body version profile :
  runs_commands m
    (andthen (log INFO ("Compiling kernel " ++ version ++ " with " ++ profile
                        ++ " profile"))
             (Compiler.compile_steps true m version profile))
    (Compiler.plan version profile).
Proof.
  unfold Compiler.plan, Compiler.compile_steps.
  apply (runs_andthen _ _ [] _ (runs_log _ _)).
  apply (runs_andthen _ _ [] _ (runs_log _ _)).
  apply (runs_andthen _ _ [_] _ (runs_run_checked _)).
  apply (runs_andthen _ _ [] _ (runs_log _ _)).
  apply (runs_andthen _ _ [_] _ (runs_run_checked _)).
  apply (runs_andthen _ _ _ _ (runs_apply_profile version profile)).
  apply (runs_andthen _ _ [] _ (runs_log _ _)).
  apply (runs_andthen _ _ [] _ runs_skip).
  apply (runs_andthen _ _ [] _ (runs_log _ _)).
  replace [Compiler.install version] with ([Compiler.install version] ++ [])%list
    by reflexivity.
  apply (runs_andthen _ _ [_] [] (runs_run_checked _) (runs_log _ _)).
Qed.

Lemma raises_at_once (e : string) (b : Act) :
  runs_then_raises m (andthen (raise_other e) b) [] e.
Proof.
  intros t. unfold andthen, raise_other. simpl. rewrite app_nil_r.
  split; [reflexivity |]. split; [discriminate |].
  intros _. split; [reflexivity |]. exists []. now rewrite app_nil_r.
Qed.

Lemma log_then_raises l message (b : Act) cs e :
  runs_then_raises m b cs e ->
  runs_then_raises m (andthen (log l message) b) cs e.
Proof.
  intros Hb t. rewrite andthen_log.
  destruct (Hb (fst (log l message t))) as [Hs [Hn Hall]].
  split; [exact Hs |]. split; [exact Hn |].
  intros H. destruct (Hall H) as [He [l' Hl]]. split; [exact He |].
  exists ((l, message) :: l'). rewrite Hl. simpl. now rewrite <- app_assoc.
Qed.

Lemma run_then_raises c (b : Act) cs e :
  runs_then_raises m b cs e ->
  runs_then_raises m (andthen (run_checked m c) b) (c :: cs) e.
Proof.
  intros Hb t. unfold andthen, run_checked. simpl.
  destruct (m c) as [r |] eqn:E; simpl.
  - split; [reflexivity |]. split; [discriminate |].
    intros H. inversion H. congruence.
  - destruct (Hb {| t_logged := t_logged t; t_started := t_started t ++ [c] |})
      as [Hs [Hn Hall]].
    split; [rewrite Hs; simpl; now rewrite <- app_assoc |].
    split; [exact Hn |].
    intros H. inversion H; subst. exact (Hall H3).
Qed.

Lemma runs_before_raises (a b : Act) cs ds e :
  (forall t, exists l, t_logged (fst (a t)) = (t_logged t ++ l)%list) ->
  runs_commands m a cs -> runs_then_raises m b ds e ->
  runs_then_raises m (andthen a b) (cs ++ ds) e.
Proof.
  intros Hlog Ha Hb t. unfold andthen. destruct (Ha t) as [Hsa Hra].
  destruct (Hlog t) as [la Hla].
  destruct (a t) as [t' [r |]] eqn:E; simpl in *.
  - assert (Hn : ~ Forall (fun c => m c = None) cs)
      by (intros H; apply Hra in H; discriminate).
    rewrite (attempted_stop cs ds Hn). split; [assumption |]. split; [discriminate |].
    intros H. apply Forall_app in H. tauto.
  - assert (Hall : Forall (fun c => m c = None) cs) by now apply Hra.
    rewrite (attempted_all cs ds Hall). destruct (Hb t') as [Hsb [Hnb Hallb]].
    rewrite Hsb, Hsa, (attempted_ok cs Hall), app_assoc.
    split; [reflexivity |]. split; [exact Hnb |].
    intros H. apply Forall_app in H. destruct H as [_ H].
    destruct (Hallb H) as [He [l Hl]]. split; [exact He |].
    exists (la ++ l)%list. now rewrite Hl, Hla, app_assoc.
Qed.

Lemma log_extends l message t :
  exists l', t_logged (fst (log l message t)) = (t_logged t ++ l')%list.
Proof. now exists [(l, message)]. Qed.

Lemma run_checked_extends c t :
  exists l', t_logged (fst (run_checked m c t)) = (t_logged t ++ l')%list.
Proof. exists []. simpl. now rewrite app_nil_r. Qed.

Lemma skip_extends t :
  exists l', t_logged (fst (skip t)) = (t_logged t ++ l')%list.
Proof. exists []. simpl. now rewrite app_nil_r. Qed.

Lemma andthen_extends (a b : Act) :
  (forall t, exists l, t_logged (fst (a t)) = (t_logged t ++ l)%list) ->
  (forall t, exists l, t_logged (fst (b t)) = (t_logged t ++ l)%list) ->
  forall t, exists l, t_logged (fst (andthen a b t)) = (t_logged t ++ l)%list.
Proof.
  intros Ha Hb t. unfold andthen. destruct (Ha t) as [l1 Hl1].
  destruct (a t) as [t' [r |]]; cbn [fst] in *; [now exists l1 |].
  destruct (Hb t') as [l2 Hl2]. exists (l1 ++ l2)%list.
  now rewrite Hl2, Hl1, app_assoc.
Qed.

Lemma for_each_extends {A : Type} (body : A -> Act) (l : list A) :
  (forall x t, exists l', t_logged (fst (body x t)) = (t_logged t ++ l')%list) ->
  forall t, exists l', t_logged (fst (for_each body l t)) = (t_logged t ++ l')%list.
Proof.
  intros H. induction l as [| x l IH]; cbn [for_each]; [apply skip_extends |].
  apply andthen_extends; [apply H | apply IH].
Qed.

Lemma apply_profile_logs_extend version profile t :
  exists l, t_logged (fst (Compiler.apply_profile m version profile t))
            = (t_logged t ++ l)%list.
Proof.
  revert t. unfold Compiler.apply_profile.
  destruct (Compiler.profile_settings profile Compiler.optimization_profiles)
    as [settings |]; [| apply skip_extends].
  apply andthen_extends; [intros t; apply log_extends |].
  apply andthen_extends; [intros t; apply run_checked_extends |].
  apply for_each_extends. intros setting.
  apply for_each_extends. intros c t. apply run_checked_extends.
Qed.

Lemma compile_body_without_rich version profile :
  runs_then_raises m
    (andthen (log INFO ("Compiling kernel " ++ version ++ " with " ++ profile
                        ++ " profile"))
             (Compiler.compile_steps false m version profile))
    (before_progress version profile)
    (name_error "Progress").
Proof.
  unfold before_progress, Compiler.compile_steps.
  apply log_then_raises. apply log_then_raises. apply run_then_raises.
  apply log_then_raises. apply run_then_raises.
  rewrite <- (app_nil_r match Compiler.profile_settings profile
                                Compiler.optimization_profiles with
                        | Some settings => _ | None => _ end).
  apply runs_before_raises;
    [intros t; apply apply_profile_logs_extend | apply runs_apply_profile |].
  apply log_then_raises. apply raises_at_once.
Qed.

Lemma before_progress_plan version profile :
  before_progress version profile = removelast (Compiler.plan version profile).
Proof.
  unfold Compiler.plan. now rewrite app_assoc, removelast_last.
Qed.

Lemma install_not_before version profile c :
  In c (removelast (Compiler.plan version profile)) -> c <> Compiler.install version.
Proof.
  unfold Compiler.plan. rewrite app_assoc, removelast_last.
  intros H E. subst c. apply in_app_iff in H. destruct H as [H | H].
  - destruct H as [H | [H | []]]; discriminate.
  - destruct (Compiler.profile_settings profile Compiler.optimization_profiles)
      as [settings |]; [| destruct H].
    destruct H as [H | H]; [discriminate |].
    apply in_flat_map in H. destruct H as [setting [_ H]].
    destruct H as [H | [H | []]]; discriminate.
Qed.

(** X26. With [rich] imported, [compile_kernel] goes through its plan
    (download, extract, the configuration commands of a known profile,
    install) in order and stops at the first command that raises; it returns
    [True] exactly when none does, and starts the installation only after
    every earlier command succeeded.  Without [rich] it goes through the plan
    short of the installation in the same way, never starts the installation
    and returns [False]; when every command before it succeeded, the last
    message is the ERROR of the [NameError] raised by the progress bar. *)
Theorem compile_kernel_follows_plan (version profile : string) :
  (let r := Compiler.compile_kernel true m version profile in
   t_started (trace r) = Compiler.attempted m (Compiler.plan version profile)
   /\ (ok r = true <-> Forall (fun c => m c = None) (Compiler.plan version profile))
   /\ (In (Compiler.install version) (t_started (trace r)) ->
       forall c, In c (removelast (Compiler.plan version profile)) -> m c = None))
  /\ (let r := Compiler.compile_kernel false m version profile in
      t_started (trace r)
      = Compiler.attempted m (removelast (Compiler.plan version profile))
      /\ ok r = false
      /\ ~ In (Compiler.install version) (t_started (trace r))
      /\ (Forall (fun c => m c = None) (removelast (Compiler.plan version profile)) ->
          last (t_logged (trace r)) (DEBUG, EmptyString)
          = (ERROR, "Unexpected error during compilation: name 'Progress' is not defined"))).
Proof.
  cbv zeta. split.
  - pose proof (runs_compile_body version profile no_trace) as [Hs Hr].
    assert (Hst : t_started (trace (Compiler.compile_kernel true m version profile))
                  = Compiler.attempted m (Compiler.plan version profile)
                  /\ (ok (Compiler.compile_kernel true m version profile) = true <->
                      Forall (fun c => m c = None) (Compiler.plan version profile))).
    { unfold Compiler.compile_kernel. cbv zeta.
      destruct (andthen _ _ no_trace) as [t [[e | e] |]]; simpl in *;
        (split; [exact Hs |]); rewrite <- Hr; split; congruence. }
    destruct Hst as [Hst Hok]. split; [exact Hst |]. split; [exact Hok |].
    rewrite Hst. intros Hin.
    assert (Hsplit : Compiler.plan version profile
                     = (removelast (Compiler.plan version profile)
                        ++ [Compiler.install version])%list).
    { unfold Compiler.plan. rewrite app_assoc, removelast_last. reflexivity. }
    destruct (all_succeed_dec (removelast (Compiler.plan version profile)))
      as [Hall | Hnot].
    + rewrite Forall_forall in Hall. exact Hall.
    + exfalso. rewrite Hsplit, (attempted_stop _ _ Hnot) in Hin.
      apply attempted_incl in Hin.
      now apply (install_not_before version profile _ Hin).
  - pose proof (compile_body_without_rich version profile no_trace) as [Hs [Hn Hall]].
    rewrite before_progress_plan in Hs, Hall.
    assert (Hst : t_started (trace (Compiler.compile_kernel false m version profile))
                  = Compiler.attempted m (removelast (Compiler.plan version profile))).
    { unfold Compiler.compile_kernel. cbv zeta.
      destruct (andthen _ _ no_trace) as [t [[e | e] |]]; simpl in *; exact Hs. }
    split; [exact Hst |]. split; [| split].
    + unfold Compiler.compile_kernel. cbv zeta.
      destruct (andthen _ _ no_trace) as [t [[e | e] |]]; simpl in *;
        [reflexivity | reflexivity | congruence].
    + rewrite Hst. intros Hin. apply attempted_incl in Hin.
      now apply (install_not_before version profile _ Hin).
    + intros H. destruct (Hall H) as [He _].
      unfold Compiler.compile_kernel. cbv zeta.
      destruct (andthen _ _ no_trace) as [t r]. cbn [snd] in He. subst r.
      cbn [trace log fst t_logged]. now rewrite last_last.
Qed.

Lemma for_each_apply_one (opts : list (string * string)) (t : Trace) :
  (forall o e, In o opts -> m (sh (snd o)) <> Some (OtherException e)) ->
  snd (for_each (Optimizer.apply_one m) opts t) = None
  /\ t_started (fst (for_each (Optimizer.apply_one m) opts t))
     = (t_started t ++ map (fun o => sh (snd o)) opts)%list.
Proof.
  revert t. induction opts as [| o opts IH]; intros t H; simpl.
  - rewrite app_nil_r. now split.
  - unfold andthen.
    assert (Hone : snd (Optimizer.apply_one m o t) = None
                   /\ t_started (fst (Optimizer.apply_one m o t))
                      = (t_started t ++ [sh (snd o)])%list).
    { unfold Optimizer.apply_one, catch_called_process_error, andthen, run_checked,
        log. simpl.
      destruct (m (sh (snd o))) as [[e | e] |] eqn:E; simpl; try now split.
      exfalso. apply (H o e); [now left | assumption]. }
    destruct (Optimizer.apply_one m o t) as [t' [e |]]; simpl in *;
      destruct Hone as [Hn Hs]; [discriminate |].
    destruct (IH t') as [Hr Hst]; [intros o' e' Ho'; apply H; now right |].
    split; [assumption |]. rewrite Hst, Hs, <- app_assoc. reflexivity.
Qed.

(** X27. With [rich] imported, and provided no optimization command raises
    anything but [CalledProcessError], [apply_vps_optimizations] starts every
    optimization command of the provider, in order, whether or not earlier
    ones failed, then reloads [sysctl]; it returns [True] exactly when that
    reload does not raise.  Without [rich] it starts no command at all, logs
    the ERROR of the [NameError] raised by the progress bar and returns
    [False]. *)
Theorem optimizations_all_attempted (provider : string) :
  (forall o e, In o (Optimizer.optimizations_for provider) ->
               m (sh (snd o)) <> Some (OtherException e)) ->
  (let r := Optimizer.apply_vps_optimizations true m provider in
   t_started (trace r)
   = (map (fun o => sh (snd o)) (Optimizer.optimizations_for provider)
      ++ [Optimizer.reload_sysctl])%list
   /\ (ok r = true <-> m Optimizer.reload_sysctl = None))
  /\ (let r := Optimizer.apply_vps_optimizations false m provider in
      t_started (trace r) = []
      /\ ok r = false
      /\ t_logged (trace r)
         = [(INFO, "Applying VPS optimizations for " ++ provider ++ " provider");
            (ERROR, "Failed to apply VPS optimizations: name 'Progress' is not defined")]).
Proof.
  intros H. cbv zeta. split.
  - unfold Optimizer.apply_vps_optimizations.
    rewrite andthen_log. unfold with_progress. cbv iota.
    set (t0 := fst (log INFO _ no_trace)).
    destruct (for_each_apply_one (Optimizer.optimizations_for provider) t0 H)
      as [Hn Hs].
    destruct (for_each (Optimizer.apply_one m) (Optimizer.optimizations_for provider) t0)
      as [t1 r1] eqn:E; cbn [fst snd] in Hn, Hs. subst r1.
    rewrite (andthen_none _ _ _ _ E).
    unfold andthen, run_checked, log.
    destruct (m Optimizer.reload_sysctl) as [e |];
      cbn [fst snd t_started t_logged ok trace]; rewrite Hs;
      (split; [reflexivity | split; intros; congruence]).
  - unfold Optimizer.apply_vps_optimizations.
    rewrite andthen_log. now repeat split.
Qed.

End Commands.

Lemma compile_kernel_follows_plan_witness :
  (t_started (trace (Compiler.compile_kernel true Cases.tar_fails "6.1.55" "vps"))
   = Compiler.attempted Cases.tar_fails (Compiler.plan "6.1.55" "vps")
   /\ (ok (Compiler.compile_kernel true Cases.tar_fails "6.1.55" "vps") = true <->
       Forall (fun c => Cases.tar_fails c = None) (Compiler.plan "6.1.55" "vps"))
   /\ (In (Compiler.install "6.1.55")
          (t_started (trace (Compiler.compile_kernel true Cases.tar_fails "6.1.55" "vps"))) ->
       forall c, In c (removelast (Compiler.plan "6.1.55" "vps")) ->
                 Cases.tar_fails c = None))
  /\ (t_started (trace (Compiler.compile_kernel false Cases.tar_fails "6.1.55" "vps"))
      = Compiler.attempted Cases.tar_fails (removelast (Compiler.plan "6.1.55" "vps"))
      /\ ok (Compiler.compile_kernel false Cases.tar_fails "6.1.55" "vps") = false
      /\ ~ In (Compiler.install "6.1.55")
             (t_started (trace (Compiler.compile_kernel false Cases.tar_fails
                                  "6.1.55" "vps")))
      /\ (Forall (fun c => Cases.tar_fails c = None)
                 (removelast (Compiler.plan "6.1.55" "vps")) ->
          last (t_logged (trace (Compiler.compile_kernel false Cases.tar_fails
                                   "6.1.55" "vps")))
               (DEBUG, EmptyString)
          = (ERROR, "Unexpected error during compilation: name 'Progress' is not defined"))).
Proof.
  exact (compile_kernel_follows_plan Cases.tar_fails "6.1.55" "vps").
Defined.

Lemma optimizations_all_attempted_witness :
  (t_started (trace (Optimizer.apply_vps_optimizations true Cases.no_kernel_config "aws"))
   = (map (fun o => sh (snd o)) (Optimizer.optimizations_for "aws")
      ++ [Optimizer.reload_sysctl])%list
   /\ (ok (Optimizer.apply_vps_optimizations true Cases.no_kernel_config "aws") = true <->
       Cases.no_kernel_config Optimizer.reload_sysctl = None))
  /\ (t_started (trace (Optimizer.apply_vps_optimizations false Cases.no_kernel_config "aws"))
      = []
      /\ ok (Optimizer.apply_vps_optimizations false Cases.no_kernel_config "aws") = false
      /\ t_logged (trace (Optimizer.apply_vps_optimizations false Cases.no_kernel_config "aws"))
         = [(INFO, "Applying VPS optimizations for " ++ "aws" ++ " provider");
            (ERROR, "Failed to apply VPS optimizations: name 'Progress' is not defined")]).
Proof.
  refine (optimizations_all_attempted Cases.no_kernel_config "aws" _).
  intros o e Ho. vm_compute in Ho.
  repeat (destruct Ho as [<- | Ho]; [vm_compute; discriminate |]).
  destruct Ho.
Defined.

Section Provider.

Lemma lower_char_idem (c : ascii) : Py.lower_char (Py.lower_char c) = Py.lower_char c.
Proof.
  destruct c as [[] [] [] [] [] [] [] []]; vm_compute; reflexivity.
Qed.

Lemma lower_idem (s : string) : Py.lower (Py.lower s) = Py.lower s.
Proof.
  induction s as [| c s IH]; [reflexivity |].
  simpl. now rewrite lower_char_idem, IH.
Qed.

(** X28. The provider is matched without regard to case: a provider name and
    its lower-case form select the same optimizations, and the four generic
    ones always come first. *)
Theorem provider_match_ignores_case (provider : string) :
  Optimizer.optimizations_for (Py.lower provider)
  = Optimizer.optimizations_for provider
  /\ firstn 4 (Optimizer.optimizations_for provider) = Optimizer.generic_optimizations
  /\ (List.length (Optimizer.optimizations_for provider) = 4%nat
      \/ List.length (Optimizer.optimizations_for provider) = 6%nat).
Proof.
  unfold Optimizer.optimizations_for. rewrite lower_idem. split; [reflexivity |].
  split; [reflexivity |].
  destruct (PyStr.contains "aws" _); [now right |].
  destruct (PyStr.contains "gcp" _); [now right |].
  destruct (PyStr.contains "azure" _); [now right | now left].
Qed.

(** X29. [detect_vps_provider] answers one of [aws], [gcp], [azure] and
    [generic]; whenever a file it reaches cannot be read it logs one DEBUG
    message and answers [generic], also when a later file would name a
    provider. *)
Theorem detected_provider_is_known (fs : Optimizer.ProviderFiles) :
  In (fst (Optimizer.detect_vps_provider fs)) ["aws"; "gcp"; "azure"; "generic"]
  /\ (snd (Optimizer.detect_vps_provider fs) <> [] ->
      fst (Optimizer.detect_vps_provider fs) = "generic")
  /\ (forall e, Optimizer.cloud_cfg fs = Optimizer.Unreadable e ->
                Optimizer.detect_vps_provider fs
                = ("generic", [(DEBUG, "Provider detection error: " ++ e)])).
Proof.
  unfold Optimizer.detect_vps_provider, Optimizer.check_dmi,
    Optimizer.check_hypervisor, Optimizer.detection_error.
  split; [| split].
  - repeat match goal with
           | |- context [match ?x with _ => _ end] => destruct x
           end; simpl; tauto.
  - repeat match goal with
           | |- context [match ?x with _ => _ end] => destruct x
           end; simpl; intros H; try reflexivity; now elim H.
  - intros e ->. reflexivity.
Qed.

End Provider.
